(** * dokan-go-sdk: the request / retry / authentication pipeline

    A shallow embedding of the Go packages [errors], [auth], [utils] and
    [client] of the SDK, followed by the properties of the pipeline.

    Conventions of the embedding:
    - Go [int], [int64] and [time.Duration] values are [Z]; the loop counter
      of [WithRetry] wraps around at 64 bits as the Go counter does.
    - Go [float64] values are IEEE 754 binary64 numbers ([spec_float] with
      precision 53 and maximal exponent 1024).
    - Go strings and byte slices are [string] (sequences of bytes).
    - a Go [error] is [option error]: [None] is the nil error.
    - instants are nanoseconds counted from the zero [time.Time].
    - functions of the Go standard library whose result the pipeline only
      passes along (URL parsing, JSON, base64, float and time formatting)
      are the fields of the class [GoLib].
    - [WithRetry] records what it does in a trace of events, and takes a
      bound on the number of turns of its loop. *)

From Stdlib Require Import ZArith String Ascii List Bool Lia DecimalString SpecFloat.
From stdpp Require Import base option list gmap strings.

Set Warnings "-register-all".

Local Open Scope string_scope.
Local Open Scope list_scope.
Local Open Scope stdpp_scope.
Local Open Scope Z_scope.

(** ** Package strings / strconv: the few functions the SDK calls *)

(** [strconv.FormatInt(n, 10)] and [strconv.FormatUint(n, 10)]. *)
Definition FormatInt (n : Z) : string := NilZero.string_of_int (Z.to_int n).

(** [strconv.FormatBool]. *)
Definition FormatBool (b : bool) : string := if b then "true" else "false".

(** [strings.Join(elems, sep)]. *)
Fixpoint Join (elems : list string) (sep : string) : string :=
  match elems with
  | [] => ""
  | [s] => s
  | s :: rest => s +:+ sep +:+ Join rest sep
  end.

(** [strings.Split(s, ",")]: the pieces of [s] between commas, [acc] being
    the piece under construction (in reverse). *)
Fixpoint split_comma_aux (s : string) (acc : string) : list string :=
  match s with
  | EmptyString => [String.rev acc]
  | String c rest =>
      if Ascii.eqb c ","%char
      then String.rev acc :: split_comma_aux rest ""
      else split_comma_aux rest (String c acc)
  end.

Definition Split_comma (s : string) : list string := split_comma_aux s "".

(** [strings.TrimPrefix(s, "/")] and [strings.TrimSuffix(s, "/")]. *)
Definition TrimPrefix_slash (s : string) : string :=
  match s with
  | String c rest => if Ascii.eqb c "/"%char then rest else s
  | EmptyString => s
  end.

Definition TrimSuffix_slash (s : string) : string :=
  String.rev (TrimPrefix_slash (String.rev s)).

(** ** IEEE 754 binary64, the Go [float64] *)

Definition float64 : Type := spec_float.
Definition prec64 : Z := 53.
Definition emax64 : Z := 1024.

(** The conversion [float64(n)] of an integer: round to nearest, ties to even. *)
Definition float64_of_int (n : Z) : float64 := binary_normalize prec64 emax64 n 0 false.

(** The product [x * y] of two [float64]. *)
Definition float64_mul (x y : float64) : float64 := SFmul prec64 emax64 x y.

(** The comparison [x == 0]. *)
Definition float64_is_zero (x : float64) : bool := SFeqb x (S754_zero false).

Definition min_int64 : Z := - 2 ^ 63.
Definition max_int64 : Z := 2 ^ 63 - 1.

(** [int64(x)] for a [float64]: the fraction is discarded (truncation
    towards zero).  When the value does not fit, Go leaves the result to
    the implementation: [overflow] is that result. *)
Definition int64_of_float64 (overflow : float64 -> Z) (x : float64) : Z :=
  match x with
  | S754_zero _ => 0
  | S754_finite s m e =>
      let mag := if 0 <=? e then Z.pos m * 2 ^ e else Z.pos m / 2 ^ (- e) in
      let v := if s then - mag else mag in
      if (min_int64 <=? v) && (v <=? max_int64) then v else overflow x
  | _ => overflow x
  end.

(** What amd64 produces for a value out of range: the "integer indefinite"
    value. *)
Definition overflow_amd64 (_ : float64) : Z := min_int64.

(** An [int] incremented past [max_int64] wraps around. *)
Definition wrap_int (n : Z) : Z := (n + 2 ^ 63) mod 2 ^ 64 - 2 ^ 63.

(** ** Instants and durations (package time) *)

(** A [time.Time]: the instant in nanoseconds since the zero Time (January
    1, year 1, 00:00 UTC) and the location it is printed in. *)
Record Time : Type := mkTime { instant : Z; location : string }.

Definition Nanosecond : Z := 1.
Definition Second : Z := 1000000000 * Nanosecond.
Definition Minute : Z := 60 * Second.

(** [t.IsZero()], [t.Add(d)] and [t.Before(u)]. *)
Definition Time_IsZero (t : Time) : bool := instant t =? 0.
Definition Time_Add (t : Time) (d : Z) : Time :=
  {| instant := instant t + d; location := location t |}.
Definition Time_Before (t u : Time) : bool := instant t <? instant u.

(** The zero value [time.Time{}]. *)
Definition zero_Time : Time := {| instant := 0; location := "UTC" |}.

(** ** Go values as package reflect sees them *)

Inductive IntKind : Type := Int | Int8 | Int16 | Int32 | Int64.
Inductive UintKind : Type := Uint | Uint8 | Uint16 | Uint32 | Uint64 | Uintptr.

(** [reflect.Kind]. *)
Inductive Kind : Type :=
  | KInvalid | KBool | KInt (k : IntKind) | KUint (k : UintKind)
  | KFloat32 | KFloat64 | KComplex64 | KComplex128
  | KArray | KChan | KFunc | KInterface | KMap | KPtr | KSlice
  | KString | KStruct | KUnsafePointer.

(** A field of a struct value: [reflect.StructField] together with the
    value [rv.Field(i)].  [Exported] is what [CanInterface] answers,
    [Anonymous] marks an embedded field and [urlTag] is the result of
    [Tag.Get("url")] (empty when the field has no such tag). *)
Record StructField (V : Type) : Type := mkField {
  Name : string;
  Exported : bool;
  Anonymous : bool;
  urlTag : string;
  fieldValue : V
}.
Arguments mkField {V}.
Arguments Name {V}.
Arguments Exported {V}.
Arguments Anonymous {V}.
Arguments urlTag {V}.
Arguments fieldValue {V}.

(** A [reflect.Value].  Named types are not distinguished from their
    underlying type except where [Type()] is printed: [ty] is that print.
    [VSlice ty ek xs] is a slice whose element type has kind [ek]. *)
Inductive value : Type :=
  | VBool (b : bool)
  | VInt (k : IntKind) (n : Z)
  | VUint (k : UintKind) (n : Z)
  | VFloat32 (f : float64)
  | VFloat64 (f : float64)
  | VString (s : string)
  | VSlice (ty : string) (ek : Kind) (xs : list value)
  | VArray (ty : string) (xs : list value)
  | VMap (ty : string) (entries : list (value * value))
  | VPtr (target : option value)
  | VInterface (dynamic : option value)
  | VTime (t : Time)
  | VStruct (ty : string) (fields : list (StructField value))
  | VOpaque (ty : string) (k : Kind).

(** [v.Kind()]. *)
Definition value_Kind (v : value) : Kind :=
  match v with
  | VBool _ => KBool
  | VInt k _ => KInt k
  | VUint k _ => KUint k
  | VFloat32 _ => KFloat32
  | VFloat64 _ => KFloat64
  | VString _ => KString
  | VSlice _ _ _ => KSlice
  | VArray _ _ => KArray
  | VMap _ _ => KMap
  | VPtr _ => KPtr
  | VInterface _ => KInterface
  | VTime _ => KStruct
  | VStruct _ _ => KStruct
  | VOpaque _ k => k
  end.

(** [v.String()] and [v.Int()] of a slice element.  The callers have
    checked the element kind, so the other branches are never taken. *)
Definition value_String (v : value) : string :=
  match v with VString s => s | _ => "" end.
Definition value_Int (v : value) : Z :=
  match v with VInt _ n => n | _ => 0 end.

(** ** Package context *)

Inductive ContextError : Type := Canceled | DeadlineExceeded.

(** A [context.Context] as the pipeline observes it: the instant at which
    the channel [Done()] is closed ([None]: never, as for
    [context.Background()]) and the value [Err()] has from then on. *)
Record Context : Type := mkContext {
  done_at : option Z;
  ctx_Err : ContextError
}.

Definition Background : Context := {| done_at := None; ctx_Err := Canceled |}.

(** [context.WithDeadline(context.Background(), d)]. *)
Definition WithDeadline (d : Z) : Context :=
  {| done_at := Some d; ctx_Err := DeadlineExceeded |}.

(** ** Package errors *)

Module errors.

(** A decoded JSON document, as [encoding/json] stores it in an
    [interface{}]. *)
Inductive JSON : Type :=
  | JNull
  | JBool (b : bool)
  | JNumber (literal : string)
  | JString (s : string)
  | JArray (xs : list JSON)
  | JObject (members : list (string * JSON)).

(** [DokanError]: a Dokan API error. *)
Record DokanError : Type := mkDokanError {
  Code : string;
  Message : string;
  Data : option JSON;
  StatusCode : Z
}.

(** An operand of [fmt.Errorf]: a string, or the type of a value (the
    verbs [%T] and [%s] of [v.Type()]). *)
Inductive fmt_arg : Type :=
  | ArgString (s : string)
  | ArgTypeOf (v : option value).

(** The error values of the SDK.  [Errorf format args wrapped] is the value
    of [fmt.Errorf(format, args...)], [wrapped] being the operand of [%w]
    when the format has one.  [ExternalErr] is an error made by a library
    or by the transport. *)
Inductive error : Type :=
  | DokanErr (e : DokanError)
  | NetworkErr (Err : error)
  | AuthenticationErr (Message : string)
  | ValidationErr (Field Code Message : string)
  | NotFoundErr (Resource : string) (ID : value)
  | RateLimitErr (RetryAfter : Z)
  | Errorf (format : string) (args : list fmt_arg) (wrapped : option error)
  | ContextErr (c : ContextError)
  | ExternalErr (msg : string).

(** Results of the Go functions returning [(T, error)]. *)
Inductive result (A : Type) : Type :=
  | Ok (a : A)
  | Err (e : error).
Arguments Ok {A}.
Arguments Err {A}.

(** [IsDokanError]: the type assertion of [err] to a pointer to
    [DokanError], which does not look through wrapped errors. *)
Definition IsDokanError (err : error) : bool :=
  match err with DokanErr _ => true | _ => false end.

Definition NewDokanError (code message : string) (statusCode : Z) : error :=
  DokanErr {| Code := code; Message := message; Data := None; StatusCode := statusCode |}.

Definition NewNetworkError (err : error) : error := NetworkErr err.
Definition NewAuthenticationError (message : string) : error := AuthenticationErr message.
Definition NewValidationError (field code message : string) : error :=
  ValidationErr field code message.
Definition NewNotFoundError (resource : string) (id : value) : error := NotFoundErr resource id.
Definition NewRateLimitError (retryAfter : Z) : error := RateLimitErr retryAfter.

Definition StatusBadRequest : Z := 400.
Definition StatusUnauthorized : Z := 401.
Definition StatusForbidden : Z := 403.
Definition StatusNotFound : Z := 404.
Definition StatusTooManyRequests : Z := 429.
Definition StatusInternalServerError : Z := 500.

(** [HandleHTTPError]: converts HTTP status codes to errors.  The [switch]
    is on the status code alone; [body] is not looked at. *)
Definition HandleHTTPError (statusCode : Z) (body : string) : option error :=
  if statusCode =? StatusUnauthorized then
    Some (NewAuthenticationError "unauthorized access")
  else if statusCode =? StatusForbidden then
    Some (NewAuthenticationError "forbidden access")
  else if statusCode =? StatusNotFound then
    Some (NewNotFoundError "resource" (VString "unknown"))
  else if statusCode =? StatusTooManyRequests then
    Some (NewRateLimitError 60)
  else if statusCode =? StatusBadRequest then
    Some (NewDokanError "bad_request" "bad request" statusCode)
  else if statusCode =? StatusInternalServerError then
    Some (NewDokanError "internal_error" "internal server error" statusCode)
  else if 400 <=? statusCode then
    Some (NewDokanError "http_error"
            ("HTTP " +:+ FormatInt statusCode +:+ " error") statusCode)
  else None.

End errors.

Import errors.

(** ** Package net/http and net/url: requests and responses *)

Module http.

(** [url.URL], reduced to the parts [url.Parse] fills and the SDK edits. *)
Record URL : Type := mkURL {
  Scheme : string;
  Host : string;
  Path : string;
  RawQuery : string
}.

(** [http.Header] and [url.Values] are both [map[string][]string]. *)
Abbreviation Header := (gmap string (list string)).
Abbreviation Values := (gmap string (list string)).

(** [http.Request]. *)
Record Request : Type := mkRequest {
  ReqContext : Context;
  Method : string;
  Url : URL;
  ReqHeader : Header;
  ReqBody : option string
}.

(** [http.Response]; [Body] is what [io.ReadAll(resp.Body)] returns. *)
Record Response : Type := mkResponse {
  StatusCode : Z;
  RespHeader : Header;
  Body : result string
}.

(** [url.Values.Add]: appends [value] to the values of [key]. *)
Definition Values_Add (key value : string) (v : Values) : Values :=
  <[key := default [] (v !! key) ++ [value]]> v.

(** [MethodGet]. *)
Definition MethodGet : string := "GET".

(** [MethodPost], [MethodPut] and [MethodDelete]. *)
Definition MethodPost : string := "POST".
Definition MethodPut : string := "PUT".
Definition MethodDelete : string := "DELETE".

End http.

(** ** The Go standard library functions the pipeline passes values through *)

Class GoLib : Type := {
  (** [textproto.CanonicalMIMEHeaderKey] *)
  CanonicalHeaderKey : string -> string;
  (** [base64.StdEncoding.EncodeToString] *)
  base64_EncodeToString : string -> string;
  (** [url.Parse] *)
  url_Parse : string -> result http.URL;
  (** [url.Values.Encode] *)
  Values_Encode : http.Values -> string;
  (** [json.Marshal] *)
  json_Marshal : value -> result string;
  (** [json.Unmarshal(data, &dokanErr)] on a zero [DokanError]: the struct
      after a decoding without error *)
  json_Unmarshal_DokanError : string -> result DokanError;
  (** the error of [http.NewRequestWithContext(ctx, method, url, body)],
      if it makes one *)
  NewRequest_error : string -> http.URL -> option error;
  (** [strconv.FormatFloat(f, 'f', -1, bitSize)] *)
  FormatFloat : float64 -> Z -> string;
  (** [t.Format(time.RFC3339)] *)
  Format_RFC3339 : Time -> string;
  (** [int64(f)] for a [float64] that does not fit in an [int64] *)
  float_overflow : float64 -> Z
}.

(** [h.Set(key, value)] on an [http.Header]. *)
Definition Header_Set `{GoLib} (key value : string) (h : http.Header) : http.Header :=
  <[CanonicalHeaderKey key := [value]]> h.

(** [h.Get(key)] on an [http.Header]: the first value of the canonical
    key, or the empty string. *)
Definition Header_Get `{GoLib} (key : string) (h : http.Header) : string :=
  match h !! CanonicalHeaderKey key with
  | Some (v :: _) => v
  | _ => ""
  end.

(** ** Package auth *)

Module auth.

(** [type AuthType string] and its two constants. *)
Definition AuthType : Type := string.
Definition AuthTypeBasic : AuthType := "basic".
Definition AuthTypeJWT : AuthType := "jwt".

(** [BasicAuth]: HTTP Basic Authentication. *)
Record BasicAuth : Type := mkBasicAuth {
  username : string;
  password : string
}.

(** [JWTAuth]: JWT authentication, with the optional refresh function. *)
Record JWTAuth : Type := mkJWTAuth {
  token : string;
  expiresAt : Time;
  refreshToken : string;
  refreshFunc : option (string -> result (string * Time))
}.

Definition NewBasicAuth (username password : string) : BasicAuth :=
  {| username := username; password := password |}.

Definition NewJWTAuth (token : string) (expiresAt : Time) : JWTAuth :=
  {| token := token; expiresAt := expiresAt; refreshToken := ""; refreshFunc := None |}.

Definition NewJWTAuthWithRefresh (token : string) (expiresAt : Time)
    (refreshToken : string) (refreshFunc : string -> result (string * Time)) : JWTAuth :=
  {| token := token; expiresAt := expiresAt;
     refreshToken := refreshToken; refreshFunc := Some refreshFunc |}.

Section Methods.
Context `{GoLib}.

Definition set_Authorization (v : string) (req : http.Request) : http.Request :=
  {| http.ReqContext := http.ReqContext req;
     http.Method := http.Method req;
     http.Url := http.Url req;
     http.ReqHeader := Header_Set "Authorization" v (http.ReqHeader req);
     http.ReqBody := http.ReqBody req |}.

(** [(b *BasicAuth) Authenticate]: the error, and the request with its
    header set. *)
Definition BasicAuth_Authenticate (b : BasicAuth) (req : http.Request)
    : option error * http.Request :=
  if String.eqb (username b) "" || String.eqb (password b) "" then
    (Some (Errorf "username and password are required for basic auth" [] None), req)
  else
    let auth := username b +:+ ":" +:+ password b in
    let encoded := base64_EncodeToString auth in
    (None, set_Authorization ("Basic " +:+ encoded) req).

Definition BasicAuth_IsValid (b : BasicAuth) : bool :=
  negb (String.eqb (username b) "") && negb (String.eqb (password b) "").

Definition BasicAuth_Refresh (b : BasicAuth) : option error := None.

(** [(j *JWTAuth) IsValid], [now] being the value of [time.Now()]. *)
Definition JWTAuth_IsValid (now : Time) (j : JWTAuth) : bool :=
  if String.eqb (token j) "" then false
  else if Time_IsZero (expiresAt j) then true
  else Time_Before (Time_Add now (5 * Minute)) (expiresAt j).

(** [(j *JWTAuth) Refresh]: the error and the authenticator afterwards. *)
Definition JWTAuth_Refresh (j : JWTAuth) : option error * JWTAuth :=
  match refreshFunc j with
  | None => (Some (Errorf "no refresh function provided" [] None), j)
  | Some f =>
      if String.eqb (refreshToken j) "" then
        (Some (Errorf "no refresh token available" [] None), j)
      else
        match f (refreshToken j) with
        | Err err => (Some err, j)
        | Ok (newToken, expiresAt') =>
            (None, {| token := newToken; expiresAt := expiresAt';
                      refreshToken := refreshToken j; refreshFunc := refreshFunc j |})
        end
  end.

(** [(j *JWTAuth) Authenticate]. *)
Definition JWTAuth_Authenticate (now : Time) (j : JWTAuth) (req : http.Request)
    : option error * JWTAuth * http.Request :=
  if String.eqb (token j) "" then
    (Some (Errorf "JWT token is required" [] None), j, req)
  else
    let '(refreshErr, j1) :=
      if negb (JWTAuth_IsValid now j) && bool_decide (is_Some (refreshFunc j))
      then JWTAuth_Refresh j else (None, j) in
    match refreshErr with
    | Some err => (Some (Errorf "failed to refresh token: %w" [] (Some err)), j1, req)
    | None =>
        if negb (JWTAuth_IsValid now j1) then
          (Some (Errorf "JWT token is expired and cannot be refreshed" [] None), j1, req)
        else
          (None, j1, set_Authorization ("Bearer " +:+ token j1) req)
    end.

(** [(j *JWTAuth) SetToken], [GetToken] and [SetRefreshToken]. *)
Definition JWTAuth_SetToken (token : string) (expiresAt : Time) (j : JWTAuth) : JWTAuth :=
  {| token := token; expiresAt := expiresAt;
     refreshToken := refreshToken j; refreshFunc := refreshFunc j |}.

Definition JWTAuth_GetToken (j : JWTAuth) : string := token j.

Definition JWTAuth_SetRefreshToken (refreshToken : string) (j : JWTAuth) : JWTAuth :=
  {| token := token j; expiresAt := expiresAt j;
     refreshToken := refreshToken; refreshFunc := refreshFunc j |}.

(** The interface [Authenticator], implemented by the two types above. *)
Inductive Authenticator : Type :=
  | Basic (b : BasicAuth)
  | JWT (j : JWTAuth).

Definition Authenticate (now : Time) (a : Authenticator) (req : http.Request)
    : option error * Authenticator * http.Request :=
  match a with
  | Basic b => let '(err, req') := BasicAuth_Authenticate b req in (err, Basic b, req')
  | JWT j => let '(err, j', req') := JWTAuth_Authenticate now j req in (err, JWT j', req')
  end.

Definition IsValid (now : Time) (a : Authenticator) : bool :=
  match a with
  | Basic b => BasicAuth_IsValid b
  | JWT j => JWTAuth_IsValid now j
  end.

Definition Type_ (a : Authenticator) : AuthType :=
  match a with Basic _ => AuthTypeBasic | JWT _ => AuthTypeJWT end.

(** [Config] and [NewAuthenticator]. *)
Record Config : Type := mkConfig {
  ConfigType : AuthType;
  Username : string;
  Password : string;
  Token : string;
  RefreshToken : string
}.

Definition NewAuthenticator (config : Config) : result Authenticator :=
  if String.eqb (ConfigType config) AuthTypeBasic then
    if String.eqb (Username config) "" || String.eqb (Password config) "" then
      Err (Errorf "username and password are required for basic auth" [] None)
    else Ok (Basic (NewBasicAuth (Username config) (Password config)))
  else if String.eqb (ConfigType config) AuthTypeJWT then
    if String.eqb (Token config) "" then
      Err (Errorf "token is required for JWT auth" [] None)
    else Ok (JWT (NewJWTAuth (Token config) zero_Time))
  else Err (Errorf "unsupported auth type: %s" [ArgString (ConfigType config)] None).

End Methods.

End auth.

(** ** Package utils *)

Module utils.

(** [RequestOptions].  [Headers] lists the entries of the Go map in the
    order the [range] loop of [MakeRequest] visits them. *)
Record RequestOptions : Type := mkRequestOptions {
  Method : string;
  Path : string;
  Query : option value;
  Body : option value;
  Headers : list (string * string)
}.

(** [Response]: an HTTP response with its body read. *)
Record Response : Type := mkResponse {
  StatusCode : Z;
  RespHeaders : http.Header;
  RespBody : string
}.

(** An [HTTPClient] over the state [C] of whatever stands behind it (the
    network, the clock, an authenticator): [Do] returns the response or the
    error, and the state afterwards. *)
Definition HTTPClient (C : Type) : Type :=
  http.Request -> C -> result http.Response * C.

(** *** Query flattening *)

Section Query.
Context `{GoLib}.

(** [isEmptyValue]. *)
Definition isEmptyValue (v : value) : bool :=
  match v with
  | VArray _ xs => (length xs =? 0)%nat
  | VMap _ entries => (length entries =? 0)%nat
  | VSlice _ _ xs => (length xs =? 0)%nat
  | VString s => (String.length s =? 0)%nat
  | VBool b => negb b
  | VInt _ n => n =? 0
  | VUint _ n => n =? 0
  | VFloat32 f | VFloat64 f => float64_is_zero f
  | VInterface None | VPtr None => true
  | VInterface (Some _) | VPtr (Some _) => false
  | VTime _ | VStruct _ _ | VOpaque _ _ => false
  end.

Definition unsupported_type (v : value) : result string :=
  Err (Errorf "unsupported type: %s" [ArgTypeOf (Some v)] None).

(** [fieldToString].  The [default] branch of the [switch] formats a
    [time.Time] and rejects every other value. *)
Fixpoint fieldToString (v : value) : result string :=
  match v with
  | VString s => Ok s
  | VBool b => Ok (FormatBool b)
  | VInt _ n => Ok (FormatInt n)
  | VUint Uintptr _ => unsupported_type v
  | VUint _ n => Ok (FormatInt n)
  | VFloat32 f => Ok (FormatFloat f 32)
  | VFloat64 f => Ok (FormatFloat f 64)
  | VSlice _ ek xs =>
      match ek with
      | KString => Ok (Join (map value_String xs) ",")
      | KInt Int => Ok (Join (map (fun x => FormatInt (value_Int x)) xs) ",")
      | _ => Err (Errorf "unsupported slice type: %s" [ArgTypeOf (Some v)] None)
      end
  | VPtr None => Ok ""
  | VPtr (Some target) => fieldToString target
  | VInterface None => Ok ""
  | VInterface (Some (VTime t)) => Ok (Format_RFC3339 t)
  | VInterface (Some dynamic) => fieldToString dynamic
  | VTime t => Ok (Format_RFC3339 t)
  | VArray _ _ | VMap _ _ | VStruct _ _ | VOpaque _ _ => unsupported_type v
  end.

(** The body of the loop of [StructToURLValues] over the fields, from the
    field at the head of [fields] on, [values] being the map so far. *)
Fixpoint encode_fields (fields : list (StructField value)) (values : http.Values)
    : result http.Values :=
  match fields with
  | [] => Ok values
  | field :: rest =>
      if negb (Exported field) then encode_fields rest values
      else
        let tag := urlTag field in
        if String.eqb tag "" || String.eqb tag "-" then encode_fields rest values
        else
          let tagParts := Split_comma tag in
          let name := hd "" tagParts in
          let omitEmpty := existsb (String.eqb "omitempty") (tl tagParts) in
          if omitEmpty && isEmptyValue (fieldValue field) then encode_fields rest values
          else
            match fieldToString (fieldValue field) with
            | Err err =>
                Err (Errorf "failed to convert field %s: %w"
                       [ArgString (Name field)] (Some err))
            | Ok value =>
                if String.eqb value "" then encode_fields rest values
                else encode_fields rest (http.Values_Add name value values)
            end
  end.

(** [StructToURLValues].  A pointer is followed once; a [time.Time] is a
    struct all of whose fields are unexported. *)
Definition StructToURLValues (v : option value) : result http.Values :=
  match v with
  | None => Ok ∅
  | Some v0 =>
      let rv := match v0 with VPtr target => target | _ => Some v0 end in
      match rv with
      | Some (VStruct _ fields) => encode_fields fields ∅
      | Some (VTime _) => Ok ∅
      | _ => Err (Errorf "expected struct, got %T" [ArgTypeOf v] None)
      end
  end.

End Query.

(** *** Retries *)

(** [RetryConfig]. *)
Record RetryConfig : Type := mkRetryConfig {
  MaxRetries : Z;
  BaseDelay : Z;
  MaxDelay : Z;
  Multiplier : float64
}.

(** The [float64] constant [2.0]. *)
Definition two : float64 := S754_finite false 4503599627370496 (-51).

Definition DefaultRetryConfig : RetryConfig :=
  {| MaxRetries := 3; BaseDelay := 1 * Second; MaxDelay := 30 * Second; Multiplier := two |}.

(** What [WithRetry] does, in order: a call of the unit of work with the
    error it returned, a backoff wait that ran to its end, or a backoff
    wait cut short by the context.  A wait records the delay asked for and
    the instants at which the [select] was entered and left. *)
Inductive Event : Type :=
  | EvAttempt (attempt : Z) (outcome : option error)
  | EvWait (attempt : Z) (delay : Z) (entered left : Z)
  | EvCancelled (attempt : Z) (delay : Z) (entered left : Z).

(** The outcome of the [select] between [ctx.Done()] and
    [time.After(delay)], with the instant at which it returns. *)
Inductive SelectResult : Type :=
  | CtxDone (t : Z)
  | TimerFired (t : Z).

(** The [select] statement entered at instant [now].  The timer fires at
    [now + delay] (at once when [delay] is not positive) and [Done()] is
    readable from [done_at] on.  The case that is ready first is taken;
    when both are ready at the same instant Go picks one of them:
    [pick_ctx] tells whether it picks [ctx.Done()]. *)
Definition select_wait (ctx : Context) (now delay : Z) (pick_ctx : bool) : SelectResult :=
  let fire := now + Z.max delay 0 in
  match done_at ctx with
  | None => TimerFired fire
  | Some tc =>
      let ready := Z.max now tc in
      if ready <? fire then CtxDone ready
      else if fire <? ready then TimerFired fire
      else if pick_ctx then CtxDone ready else TimerFired fire
  end.

Section Retry.
Context `{GoLib}.
(** The state the unit of work acts on, besides the clock. *)
Context {S : Type}.

(** The world of a call: the instant, and the state of the unit of work. *)
Record World : Type := mkWorld { clock : Z; state : S }.

Definition set_clock (t : Z) (w : World) : World := {| clock := t; state := state w |}.

(** The delay computed at the top of the loop body for [attempt]. *)
Definition backoff_delay (config : RetryConfig) (attempt : Z) : Z :=
  let delay :=
    int64_of_float64 float_overflow
      (float64_mul (float64_mul (float64_of_int (BaseDelay config)) (float64_of_int attempt))
                   (Multiplier config)) in
  if MaxDelay config <? delay then MaxDelay config else delay.

(** The test on [lastErr] that ends the loop early: a [DokanError] with a
    4xx status other than 429. *)
Definition stops_retry (lastErr : error) : bool :=
  if IsDokanError lastErr then
    match lastErr with
    | DokanErr dokanErr =>
        (400 <=? errors.StatusCode dokanErr) && (errors.StatusCode dokanErr <? 500)
        && negb (errors.StatusCode dokanErr =? 429)
    | _ => false
    end
  else false.

Variable ctx : Context.
Variable config : RetryConfig.
(** The unit of work [fn]. *)
Variable fn : World -> option error * World.
(** The choice of [select] when both of its cases are ready, per attempt. *)
Variable pick_ctx : Z -> bool.

(** The wait at the top of the loop body: either [WithRetry] returns
    ([inl]) or the body goes on ([inr]). *)
Definition backoff_wait (attempt : Z) (w : World) (tr : list Event)
    : (option error * World * list Event) + (World * list Event) :=
  if 0 <? attempt then
    let delay := backoff_delay config attempt in
    match select_wait ctx (clock w) delay (pick_ctx attempt) with
    | CtxDone t =>
        inl (Some (ContextErr (ctx_Err ctx)), set_clock t w,
             tr ++ [EvCancelled attempt delay (clock w) t])
    | TimerFired t => inr (set_clock t w, tr ++ [EvWait attempt delay (clock w) t])
    end
  else inr (w, tr).

(** The [for] loop of [WithRetry] from the test [attempt <= MaxRetries]
    on; [fuel] bounds the number of tests ([None]: the bound was reached). *)
Fixpoint retry_loop (fuel : nat) (attempt : Z) (lastErr : option error)
    (w : World) (tr : list Event) : option (option error * World * list Event) :=
  match fuel with
  | O => None
  | Datatypes.S fuel' =>
      if attempt <=? MaxRetries config then
        match backoff_wait attempt w tr with
        | inl r => Some r
        | inr (w1, tr1) =>
            let '(lastErr', w2) := fn w1 in
            let tr2 := tr1 ++ [EvAttempt attempt lastErr'] in
            match lastErr' with
            | None => Some (None, w2, tr2)
            | Some err =>
                if stops_retry err then Some (Some err, w2, tr2)
                else retry_loop fuel' (wrap_int (attempt + 1)) lastErr' w2 tr2
            end
        end
      else Some (lastErr, w, tr)
  end.

(** [WithRetry]: the error returned, the world afterwards and what was
    done. *)
Definition WithRetry (fuel : nat) (w : World) : option (option error * World * list Event) :=
  retry_loop fuel 0 None w [].

End Retry.

(** *** The request executor *)

Section Executor.
Context `{GoLib}.
(** The state behind the HTTP client. *)
Context {C : Type}.

Definition set_Path (path : string) (u : http.URL) : http.URL :=
  {| http.Scheme := http.Scheme u; http.Host := http.Host u;
     http.Path := path; http.RawQuery := http.RawQuery u |}.

Definition set_RawQuery (q : string) (u : http.URL) : http.URL :=
  {| http.Scheme := http.Scheme u; http.Host := http.Host u;
     http.Path := http.Path u; http.RawQuery := q |}.

(** [MakeRequest] up to the call of [client.Do]: the request handed to the
    client, or the error [MakeRequest] returns before any exchange. *)
Definition build_request (ctx : Context) (baseURL : string) (opts : RequestOptions)
    : result http.Request :=
  match url_Parse baseURL with
  | Err err => Err (Errorf "invalid base URL: %w" [] (Some err))
  | Ok u =>
      let u := set_Path (TrimSuffix_slash (http.Path u) +:+ "/"
                         +:+ TrimPrefix_slash (Path opts)) u in
      let with_query :=
        match Query opts with
        | None => Ok u
        | Some _ =>
            match StructToURLValues (Query opts) with
            | Err err => Err (Errorf "failed to encode query parameters: %w" [] (Some err))
            | Ok queryParams => Ok (set_RawQuery (Values_Encode queryParams) u)
            end
        end in
      match with_query with
      | Err err => Err err
      | Ok u =>
          let with_body :=
            match Body opts with
            | None => Ok None
            | Some b =>
                match json_Marshal b with
                | Err err => Err (Errorf "failed to marshal request body: %w" [] (Some err))
                | Ok jsonBody => Ok (Some jsonBody)
                end
            end in
          match with_body with
          | Err err => Err err
          | Ok body =>
              match NewRequest_error (Method opts) u with
              | Some err => Err (Errorf "failed to create request: %w" [] (Some err))
              | None =>
                  let header :=
                    match Body opts with
                    | Some _ => Header_Set "Content-Type" "application/json" ∅
                    | None => ∅
                    end in
                  let header := Header_Set "Accept" "application/json" header in
                  let header :=
                    fold_left (fun h kv => Header_Set (fst kv) (snd kv) h)
                              (Headers opts) header in
                  Ok {| http.ReqContext := ctx; http.Method := Method opts; http.Url := u;
                        http.ReqHeader := header; http.ReqBody := body |}
              end
          end
      end
  end.

(** [MakeRequest]: the response, the error, and the state behind the
    client afterwards. *)
Definition MakeRequest (ctx : Context) (client : HTTPClient C) (baseURL : string)
    (opts : RequestOptions) (c : C) : option Response * option error * C :=
  match build_request ctx baseURL opts with
  | Err err => (None, Some err, c)
  | Ok req =>
      let '(r, c) := client req c in
      match r with
      | Err err => (None, Some (NewNetworkError err), c)
      | Ok resp =>
          match http.Body resp with
          | Err err => (None, Some (Errorf "failed to read response body: %w" [] (Some err)), c)
          | Ok respBody =>
              let response :=
                {| StatusCode := http.StatusCode resp;
                   RespHeaders := http.RespHeader resp;
                   RespBody := respBody |} in
              if 400 <=? http.StatusCode resp then
                let fallback :=
                  (Some response, HandleHTTPError (http.StatusCode resp) respBody, c) in
                match json_Unmarshal_DokanError respBody with
                | Ok dokanErr =>
                    if negb (String.eqb (errors.Code dokanErr) "") then
                      (Some response,
                       Some (DokanErr {| errors.Code := errors.Code dokanErr;
                                         errors.Message := errors.Message dokanErr;
                                         errors.Data := errors.Data dokanErr;
                                         errors.StatusCode := http.StatusCode resp |}),
                       c)
                    else fallback
                | Err _ => fallback
                end
              else (Some response, None, c)
          end
      end
  end.

End Executor.

(** *** Decoding and paths *)

(** [ParseJSON]: [unmarshal] is [json.Unmarshal] at the type of [v]; it
    returns its error and the value [v] holds afterwards. *)
Definition ParseJSON {T : Type} (unmarshal : string -> T -> option error * T)
    (data : string) (v : T) : option error * T :=
  if (String.length data =? 0)%nat then (None, v) else unmarshal data v.

(** [strings.HasPrefix(s, prefix)]. *)
Fixpoint HasPrefix (s prefix : string) : bool :=
  match prefix, s with
  | EmptyString, _ => true
  | String _ _, EmptyString => false
  | String a prefix', String b s' => Ascii.eqb a b && HasPrefix s' prefix'
  end.

(** [strings.ReplaceAll(s, old, new)] for a non-empty [old]: the
    occurrences of [old] are replaced from left to right without overlap.
    [skip] counts the bytes of an occurrence that are still to be passed. *)
Fixpoint replace_from (old new : string) (s : string) (skip : nat) : string :=
  match s with
  | EmptyString => EmptyString
  | String c rest =>
      match skip with
      | Datatypes.S k => replace_from old new rest k
      | O =>
          if HasPrefix s old
          then new +:+ replace_from old new rest (String.length old - 1)
          else String c (replace_from old new rest 0)
      end
  end.

Definition ReplaceAll (s old new : string) : string := replace_from old new s 0.

Section Paths.
(** [fmt.Sprintf("%v", param)]. *)
Variable Sprint_v : value -> string.

(** The loop of [BuildPath] from the parameter of index [i] on. *)
Fixpoint BuildPath_from (i : nat) (path : string) (params : list value) : string :=
  match params with
  | [] => path
  | param :: rest =>
      let placeholder := "{" +:+ FormatInt (Z.of_nat i) +:+ "}" in
      BuildPath_from (Datatypes.S i) (ReplaceAll path placeholder (Sprint_v param)) rest
  end.

(** [BuildPath]. *)
Definition BuildPath (path : string) (params : list value) : string :=
  BuildPath_from 0 path params.

End Paths.

End utils.

(** ** Package client *)

Module client.

Import utils.

Section Client.
Context `{GoLib}.
(** The state of the network behind the transport. *)
Context {Net : Type}.

(** The transport: [*http.Client] or a substitute.  It acts on the clock
    and on the network. *)
Definition Transport : Type := HTTPClient (@World Net).

(** [Client]: the configuration part, fixed when the client is built. *)
Record Client : Type := mkClient {
  baseURL : string;
  httpClient : Transport;
  retryConfig : RetryConfig
}.

(** What the calls of a client change: its authenticator (token refresh),
    the network, and the two variables [lastResponse] and [lastError] of
    [(c *Client) MakeRequest]. *)
Record ClientState : Type := mkClientState {
  auth_ : auth.Authenticator;
  net : Net;
  lastResponse : option Response;
  lastError : option error
}.

(** [Config], and the [RetryConfig] that [NewClient] makes of it. *)
Record Config : Type := mkConfig {
  BaseURL : string;
  Timeout : Z;
  RetryCount : Z;
  UserAgent : string;
  Debug : bool;
  Auth : auth.Config;
  ConfigHTTPClient : option Transport
}.

Definition retryConfig_of (config : Config) : RetryConfig :=
  {| MaxRetries := RetryCount config;
     BaseDelay := 1 * Second;
     MaxDelay := 30 * Second;
     Multiplier := two |}.

(** [NewClient] on a configuration that is not nil; [default_transport]
    makes the [http.Client] with the given timeout.  The authenticator it
    creates is returned next to the client. *)
Definition NewClient (default_transport : Z -> Transport) (config : Config)
    : result (Client * auth.Authenticator) :=
  if String.eqb (BaseURL config) "" then Err (Errorf "base URL is required" [] None)
  else
    match auth.NewAuthenticator (Auth config) with
    | Err err => Err (Errorf "failed to create authenticator: %w" [] (Some err))
    | Ok authenticator =>
        let httpClient :=
          match ConfigHTTPClient config with
          | Some c => c
          | None => default_transport (Timeout config)
          end in
        Ok ({| baseURL := BaseURL config; httpClient := httpClient;
               retryConfig := retryConfig_of config |}, authenticator)
    end.

(** [time.Now()] at the instant [t]. *)
Definition Now (t : Z) : Time := {| instant := t; location := "Local" |}.

(** [(ac *authenticatedClient) Do]: the wrapped client is called only
    after [Authenticate] has returned without error. *)
Definition authenticatedClient_Do (client : Transport)
    : HTTPClient (@World (auth.Authenticator * Net)) :=
  fun req w =>
    let '(a, n) := state w in
    let '(err, a, req) := auth.Authenticate (Now (clock w)) a req in
    match err with
    | Some err =>
        (Err (Errorf "authentication failed: %w" [] (Some err)),
         {| clock := clock w; state := (a, n) |})
    | None =>
        let '(r, wn) := client req {| clock := clock w; state := n |} in
        (r, {| clock := clock wn; state := (a, state wn) |})
    end.

(** The function literal that [(c *Client) MakeRequest] hands to
    [WithRetry]. *)
Definition attempt_request (c : Client) (ctx : Context) (opts : RequestOptions)
    : @World ClientState -> option error * @World ClientState :=
  fun w =>
    let '(resp, err, w') :=
      MakeRequest ctx (authenticatedClient_Do (httpClient c)) (baseURL c) opts
        {| clock := clock w; state := (auth_ (state w), net (state w)) |} in
    (err, {| clock := clock w';
             state := {| auth_ := fst (state w'); net := snd (state w');
                         lastResponse := resp; lastError := err |} |}).

(** [(c *Client) MakeRequest]. *)
Definition Client_MakeRequest (c : Client) (ctx : Context) (pick_ctx : Z -> bool)
    (opts : RequestOptions) (fuel : nat) (w : @World ClientState)
    : option (option Response * option error * @World ClientState * list Event) :=
  let w := {| clock := clock w;
              state := {| auth_ := auth_ (state w); net := net (state w);
                          lastResponse := None; lastError := None |} |} in
  match WithRetry ctx (retryConfig c) (attempt_request c ctx opts) pick_ctx fuel w with
  | None => None
  | Some (err, w', tr) =>
      match err with
      | Some _ => Some (lastResponse (state w'), err, w', tr)
      | None => Some (lastResponse (state w'), lastError (state w'), w', tr)
      end
  end.

(** [DefaultConfig]. *)
Definition DefaultConfig : Config :=
  {| BaseURL := ""; Timeout := 30 * Second; RetryCount := 3;
     UserAgent := "dokan-go-sdk/1.0.0"; Debug := false;
     Auth := {| auth.ConfigType := ""; auth.Username := ""; auth.Password := "";
                auth.Token := ""; auth.RefreshToken := "" |};
     ConfigHTTPClient := None |}.

(** [ClientBuilder] and its methods; each one returns the builder with
    its configuration changed. *)
Record ClientBuilder : Type := mkClientBuilder { config : Config }.

Definition NewClientBuilder : ClientBuilder := {| config := DefaultConfig |}.

Definition Builder_BaseURL (url : string) (b : ClientBuilder) : ClientBuilder :=
  {| config := {| BaseURL := url; Timeout := Timeout (config b);
                  RetryCount := RetryCount (config b); UserAgent := UserAgent (config b);
                  Debug := Debug (config b); Auth := Auth (config b);
                  ConfigHTTPClient := ConfigHTTPClient (config b) |} |}.

Definition Builder_Timeout (timeout : Z) (b : ClientBuilder) : ClientBuilder :=
  {| config := {| BaseURL := BaseURL (config b); Timeout := timeout;
                  RetryCount := RetryCount (config b); UserAgent := UserAgent (config b);
                  Debug := Debug (config b); Auth := Auth (config b);
                  ConfigHTTPClient := ConfigHTTPClient (config b) |} |}.

Definition Builder_RetryCount (count : Z) (b : ClientBuilder) : ClientBuilder :=
  {| config := {| BaseURL := BaseURL (config b); Timeout := Timeout (config b);
                  RetryCount := count; UserAgent := UserAgent (config b);
                  Debug := Debug (config b); Auth := Auth (config b);
                  ConfigHTTPClient := ConfigHTTPClient (config b) |} |}.

Definition Builder_UserAgent (userAgent : string) (b : ClientBuilder) : ClientBuilder :=
  {| config := {| BaseURL := BaseURL (config b); Timeout := Timeout (config b);
                  RetryCount := RetryCount (config b); UserAgent := userAgent;
                  Debug := Debug (config b); Auth := Auth (config b);
                  ConfigHTTPClient := ConfigHTTPClient (config b) |} |}.

Definition Builder_Debug (debug : bool) (b : ClientBuilder) : ClientBuilder :=
  {| config := {| BaseURL := BaseURL (config b); Timeout := Timeout (config b);
                  RetryCount := RetryCount (config b); UserAgent := UserAgent (config b);
                  Debug := debug; Auth := Auth (config b);
                  ConfigHTTPClient := ConfigHTTPClient (config b) |} |}.

Definition Builder_Auth (a : auth.Config) (b : ClientBuilder) : ClientBuilder :=
  {| config := {| BaseURL := BaseURL (config b); Timeout := Timeout (config b);
                  RetryCount := RetryCount (config b); UserAgent := UserAgent (config b);
                  Debug := Debug (config b); Auth := a;
                  ConfigHTTPClient := ConfigHTTPClient (config b) |} |}.

Definition Builder_BasicAuth (username password : string) (b : ClientBuilder)
    : ClientBuilder :=
  Builder_Auth {| auth.ConfigType := auth.AuthTypeBasic; auth.Username := username;
                  auth.Password := password; auth.Token := "";
                  auth.RefreshToken := "" |} b.

Definition Builder_JWTAuth (token : string) (b : ClientBuilder) : ClientBuilder :=
  Builder_Auth {| auth.ConfigType := auth.AuthTypeJWT; auth.Username := "";
                  auth.Password := ""; auth.Token := token;
                  auth.RefreshToken := "" |} b.

Definition Builder_HTTPClient (client : Transport) (b : ClientBuilder) : ClientBuilder :=
  {| config := {| BaseURL := BaseURL (config b); Timeout := Timeout (config b);
                  RetryCount := RetryCount (config b); UserAgent := UserAgent (config b);
                  Debug := Debug (config b); Auth := Auth (config b);
                  ConfigHTTPClient := Some client |} |}.

Definition Build (default_transport : Z -> Transport) (b : ClientBuilder)
    : result (Client * auth.Authenticator) :=
  NewClient default_transport (config b).

(** [GetBaseURL]; [GetAuth] and [SetAuth] read and replace the
    authenticator, which lives in the state of the client. *)
Definition GetBaseURL (c : Client) : string := baseURL c.

Definition GetAuth (st : ClientState) : auth.Authenticator := auth_ st.

Definition SetAuth (authenticator : auth.Authenticator) (st : ClientState) : ClientState :=
  {| auth_ := authenticator; net := net st;
     lastResponse := lastResponse st; lastError := lastError st |}.

End Client.

End client.

(** ** Package types: the list parameters, as reflect sees them *)

Module types.

(** [ListParams]: the common list parameters. *)
Record ListParams : Type := mkListParams {
  Page : Z;
  PerPage : Z;
  Search : string;
  OrderBy : string;
  Order : string
}.

Definition reflect_ListParams (p : ListParams) : value :=
  VStruct "types.ListParams"
    [ mkField "Page" true false "page,omitempty" (VInt Int (Page p));
      mkField "PerPage" true false "per_page,omitempty" (VInt Int (PerPage p));
      mkField "Search" true false "search,omitempty" (VString (Search p));
      mkField "OrderBy" true false "orderby,omitempty" (VString (OrderBy p));
      mkField "Order" true false "order,omitempty" (VString (Order p)) ].

(** The embedded field [ListParams] of the three structs below: anonymous,
    exported, and without tag. *)
Definition embedded_ListParams (p : ListParams) : StructField value :=
  mkField "ListParams" true true "" (reflect_ListParams p).

(** [ProductListParams]. *)
Record ProductListParams : Type := mkProductListParams {
  Product_ListParams : ListParams;
  Product_Status : list string;
  Product_Type : list string;
  Featured : option bool;
  Category : list Z;
  Tag : list Z;
  MinPrice : option float64;
  MaxPrice : option float64;
  StockStatus : string;
  SKU : string
}.

Definition reflect_ProductListParams (p : ProductListParams) : value :=
  VStruct "types.ProductListParams"
    [ embedded_ListParams (Product_ListParams p);
      mkField "Status" true false "status,omitempty"
        (VSlice "[]types.ProductStatus" KString (map VString (Product_Status p)));
      mkField "Type" true false "type,omitempty"
        (VSlice "[]types.ProductType" KString (map VString (Product_Type p)));
      mkField "Featured" true false "featured,omitempty" (VPtr (VBool <$> Featured p));
      mkField "Category" true false "category,omitempty"
        (VSlice "[]int" (KInt Int) (map (VInt Int) (Category p)));
      mkField "Tag" true false "tag,omitempty"
        (VSlice "[]int" (KInt Int) (map (VInt Int) (Tag p)));
      mkField "MinPrice" true false "min_price,omitempty" (VPtr (VFloat64 <$> MinPrice p));
      mkField "MaxPrice" true false "max_price,omitempty" (VPtr (VFloat64 <$> MaxPrice p));
      mkField "StockStatus" true false "stock_status,omitempty" (VString (StockStatus p));
      mkField "SKU" true false "sku,omitempty" (VString (SKU p)) ].

(** [OrderListParams]. *)
Record OrderListParams : Type := mkOrderListParams {
  Order_ListParams : ListParams;
  Order_Status : list string;
  Customer : Z;
  Product : Z;
  After : option Time;
  Before : option Time;
  ModifiedAfter : option Time;
  ModifiedBefore : option Time
}.

Definition reflect_OrderListParams (p : OrderListParams) : value :=
  VStruct "types.OrderListParams"
    [ embedded_ListParams (Order_ListParams p);
      mkField "Status" true false "status,omitempty"
        (VSlice "[]types.OrderStatus" KString (map VString (Order_Status p)));
      mkField "Customer" true false "customer,omitempty" (VInt Int (Customer p));
      mkField "Product" true false "product,omitempty" (VInt Int (Product p));
      mkField "After" true false "after,omitempty" (VPtr (VTime <$> After p));
      mkField "Before" true false "before,omitempty" (VPtr (VTime <$> Before p));
      mkField "ModifiedAfter" true false "modified_after,omitempty"
        (VPtr (VTime <$> ModifiedAfter p));
      mkField "ModifiedBefore" true false "modified_before,omitempty"
        (VPtr (VTime <$> ModifiedBefore p)) ].

(** [StoreListParams]. *)
Record StoreListParams : Type := mkStoreListParams {
  Store_ListParams : ListParams;
  Store_Featured : option bool;
  Enabled : option bool
}.

Definition reflect_StoreListParams (p : StoreListParams) : value :=
  VStruct "types.StoreListParams"
    [ embedded_ListParams (Store_ListParams p);
      mkField "Featured" true false "featured,omitempty" (VPtr (VBool <$> Store_Featured p));
      mkField "Enabled" true false "enabled,omitempty" (VPtr (VBool <$> Enabled p)) ].

End types.

(** ** Package products *)

Module products.

Import utils.

(** What a method of a service does: it returns, with a value or an
    error, or it panics (a nil pointer is dereferenced). *)
Inductive returned (A : Type) : Type :=
  | Returns (r : result A)
  | Panics.
Arguments Returns {A}.
Arguments Panics {A}.

(** [types.ListResponse]. *)
Record ListResponse : Type := mkListResponse {
  TotalItems : Z;
  TotalPages : Z;
  Page : Z;
  PerPage : Z
}.

(** [ProductListResponse]: the products and the embedded [ListResponse]. *)
Record ProductListResponse (Product : Type) : Type := mkProductListResponse {
  Products : list Product;
  Pagination : ListResponse
}.
Arguments mkProductListResponse {Product}.
Arguments Products {Product}.
Arguments Pagination {Product}.

Section Service.
Context `{GoLib}.
(** The state behind the client. *)
Context {W : Type}.
(** [types.Product] and [ProductSummary], with what reflect and
    [encoding/json] make of them: the value of a product, the zero values,
    and [json.Unmarshal] at the three types the service decodes. *)
Context {Product ProductSummary : Type}.
Variable reflect_Product : Product -> value.
Variable zero_Product : Product.
Variable zero_ProductSummary : ProductSummary.
Variable unmarshal_Product : string -> Product -> option error * Product.
Variable unmarshal_Products : string -> list Product -> option error * list Product.
Variable unmarshal_ProductSummary :
  string -> ProductSummary -> option error * ProductSummary.
(** [fmt.Sscanf(value, "%d", &result)]: the integer scanned, if one is. *)
Variable Sscanf_d : string -> option Z.

(** [ClientInterface]: the method [MakeRequest] of the client; [None]
    when the bound on the turns of the retry loop was reached. *)
Definition ClientInterface : Type :=
  Context -> RequestOptions -> W -> option (option Response * option error * W).

(** [Service]. *)
Record Service : Type := mkService { client : ClientInterface }.

Definition NewService (client : ClientInterface) : Service := {| client := client |}.

(** [extractIntHeader]. *)
Definition extractIntHeader (headers : http.Header) (key : string) : Z :=
  let value := Header_Get key headers in
  if String.eqb value "" then 0
  else match Sscanf_d value with
       | Some result => result
       | None => 0
       end.

(** The part the methods that decode a response have in common after the
    call of the client: the error of the client wrapped with [failure],
    the panic on a nil response, the error of [ParseJSON] wrapped, or the
    decoded value. *)
Definition decode_response {T : Type} (failure : string)
    (unmarshal : string -> T -> option error * T) (zero : T)
    (resp : option Response) (err : option error) : returned (Response * T) :=
  match err with
  | Some err => Returns (Err (Errorf failure [] (Some err)))
  | None =>
      match resp with
      | None => Panics
      | Some resp =>
          let '(perr, v) := ParseJSON unmarshal (RespBody resp) zero in
          match perr with
          | Some err => Returns (Err (Errorf "failed to parse response: %w" [] (Some err)))
          | None => Returns (Ok (resp, v))
          end
      end
  end.

Definition decoded {T : Type} (r : returned (Response * T)) : returned T :=
  match r with
  | Returns (Ok (_, v)) => Returns (Ok v)
  | Returns (Err err) => Returns (Err err)
  | Panics => Panics
  end.

(** [(s *Service) Create]. *)
Definition Create (s : Service) (ctx : Context) (product : option Product) (w : W)
    : option (returned Product * W) :=
  let opts := {| Method := http.MethodPost; Path := "/wp-json/dokan/v1/products/";
                 Query := None; Body := Some (VPtr (reflect_Product <$> product));
                 Headers := [] |} in
  match client s ctx opts w with
  | None => None
  | Some (resp, err, w) =>
      Some (decoded (decode_response "failed to create product: %w"
                       unmarshal_Product zero_Product resp err), w)
  end.

(** [(s *Service) Get]. *)
Definition Get (s : Service) (ctx : Context) (id : Z) (w : W)
    : option (returned Product * W) :=
  let opts := {| Method := http.MethodGet;
                 Path := "/wp-json/dokan/v1/products/" +:+ FormatInt id;
                 Query := None; Body := None; Headers := [] |} in
  match client s ctx opts w with
  | None => None
  | Some (resp, err, w) =>
      Some (decoded (decode_response "failed to get product: %w"
                       unmarshal_Product zero_Product resp err), w)
  end.

(** [(s *Service) List]; [params] is a pointer, so that the query of the
    request is never the nil interface. *)
Definition List (s : Service) (ctx : Context) (params : option types.ProductListParams)
    (w : W) : option (returned (ProductListResponse Product) * W) :=
  let opts := {| Method := http.MethodGet; Path := "/wp-json/dokan/v1/products/";
                 Query := Some (VPtr (types.reflect_ProductListParams <$> params));
                 Body := None; Headers := [] |} in
  match client s ctx opts w with
  | None => None
  | Some (resp, err, w) =>
      match decode_response "failed to list products: %w" unmarshal_Products [] resp err with
      | Panics => Some (Panics, w)
      | Returns (Err err) => Some (Returns (Err err), w)
      | Returns (Ok (resp, products)) =>
          let totalItems := extractIntHeader (RespHeaders resp) "X-WP-Total" in
          let totalPages := extractIntHeader (RespHeaders resp) "X-WP-TotalPages" in
          let '(page, perPage) :=
            match params with
            | Some params =>
                (types.Page (types.Product_ListParams params),
                 types.PerPage (types.Product_ListParams params))
            | None => (0, 0)
            end in
          Some (Returns (Ok {| Products := products;
                               Pagination := {| TotalItems := totalItems;
                                                TotalPages := totalPages;
                                                Page := page; PerPage := perPage |} |}), w)
      end
  end.

(** [(s *Service) Update]. *)
Definition Update (s : Service) (ctx : Context) (id : Z) (product : option Product) (w : W)
    : option (returned Product * W) :=
  let opts := {| Method := http.MethodPut;
                 Path := "/wp-json/dokan/v1/products/" +:+ FormatInt id;
                 Query := None; Body := Some (VPtr (reflect_Product <$> product));
                 Headers := [] |} in
  match client s ctx opts w with
  | None => None
  | Some (resp, err, w) =>
      Some (decoded (decode_response "failed to update product: %w"
                       unmarshal_Product zero_Product resp err), w)
  end.

(** [(s *Service) Delete]: the response is not looked at. *)
Definition Delete (s : Service) (ctx : Context) (id : Z) (w : W)
    : option (option error * W) :=
  let opts := {| Method := http.MethodDelete;
                 Path := "/wp-json/dokan/v1/products/" +:+ FormatInt id;
                 Query := None; Body := None; Headers := [] |} in
  match client s ctx opts w with
  | None => None
  | Some (_, err, w) =>
      match err with
      | Some err => Some (Some (Errorf "failed to delete product: %w" [] (Some err)), w)
      | None => Some (None, w)
      end
  end.

(** [(s *Service) GetSummary]. *)
Definition GetSummary (s : Service) (ctx : Context) (w : W)
    : option (returned ProductSummary * W) :=
  let opts := {| Method := http.MethodGet; Path := "/wp-json/dokan/v1/products/summary";
                 Query := None; Body := None; Headers := [] |} in
  match client s ctx opts w with
  | None => None
  | Some (resp, err, w) =>
      Some (decoded (decode_response "failed to get product summary: %w"
                       unmarshal_ProductSummary zero_ProductSummary resp err), w)
  end.

End Service.

(** The client of package client as the [ClientInterface] of a service:
    its method [MakeRequest], without the trace. *)
Definition of_client `{GoLib} {Net : Type} (c : @client.Client Net)
    (pick_ctx : Z -> bool) (fuel : nat)
    : @ClientInterface (@World (@client.ClientState Net)) :=
  fun ctx opts w =>
    match client.Client_MakeRequest c ctx pick_ctx opts fuel w with
    | Some (resp, err, w', _) => Some (resp, err, w')
    | None => None
    end.

End products.

(** ** A double of the library, and sample inputs, for the examples *)

Module examples.

Import utils.

(** The double decodes a body that is neither empty nor [{}] as a payload
    whose code is the body itself; the other functions are the simplest
    ones of their type. *)
Definition stub_decode (body : string) : result DokanError :=
  if String.eqb body "" then Err (ExternalErr "unexpected end of JSON input")
  else if String.eqb body "{}" then
    Ok {| errors.Code := ""; errors.Message := ""; errors.Data := None; errors.StatusCode := 0 |}
  else
    Ok {| errors.Code := body; errors.Message := "from the stub";
          errors.Data := None; errors.StatusCode := 0 |}.

Definition stub_lib : GoLib := {|
  CanonicalHeaderKey := fun k => k;
  base64_EncodeToString := fun s => s;
  url_Parse := fun s =>
    Ok {| http.Scheme := "https"; http.Host := s; http.Path := ""; http.RawQuery := "" |};
  Values_Encode := fun _ => "";
  json_Marshal := fun _ => Ok "{}";
  json_Unmarshal_DokanError := stub_decode;
  NewRequest_error := fun _ _ => None;
  FormatFloat := fun _ _ => "0";
  Format_RFC3339 := fun _ => "0001-01-01T00:00:00Z";
  float_overflow := overflow_amd64
|}.

(** [GET /products/42] without query, body or extra headers. *)
Definition get_product : RequestOptions :=
  {| Method := http.MethodGet; Path := "/products/42";
     Query := None; Body := None; Headers := [] |}.

(** A transport that answers every request with the given status and body
    and counts the requests it receives. *)
Definition answering (status : Z) (body : string) : HTTPClient nat :=
  fun _ n => (Ok {| http.StatusCode := status; http.RespHeader := ∅; http.Body := Ok body |},
              Datatypes.S n).

(** The same transport behind a clock: an exchange takes no time. *)
Definition answering_transport (status : Z) (body : string) : HTTPClient (@World nat) :=
  fun _ w =>
    (Ok {| http.StatusCode := status; http.RespHeader := ∅; http.Body := Ok body |},
     {| clock := clock w; state := Datatypes.S (state w) |}).

(** A unit of work that returns [outcome] at every call and counts its
    calls. *)
Definition always (outcome : option error) : @World nat -> option error * @World nat :=
  fun w => (outcome, {| clock := clock w; state := Datatypes.S (state w) |}).

Definition retries (n : Z) : RetryConfig :=
  {| MaxRetries := n; BaseDelay := 1 * Second; MaxDelay := 30 * Second; Multiplier := two |}.

Definition connection_refused : error := NetworkErr (ExternalErr "connection refused").

End examples.

(** ** Notions used to state the properties *)

(** The zero values the flattening of an omit-empty field is about: the
    empty string, an empty collection, a zero number, [false], a nil
    pointer or interface. *)
Inductive zero_value : value -> Prop :=
  | zero_string : zero_value (VString "")
  | zero_slice ty ek : zero_value (VSlice ty ek [])
  | zero_array ty : zero_value (VArray ty [])
  | zero_map ty : zero_value (VMap ty [])
  | zero_int k : zero_value (VInt k 0)
  | zero_uint k : zero_value (VUint k 0)
  | zero_float32 : zero_value (VFloat32 (S754_zero false))
  | zero_float64 : zero_value (VFloat64 (S754_zero false))
  | zero_bool : zero_value (VBool false)
  | zero_pointer : zero_value (VPtr None)
  | zero_interface : zero_value (VInterface None).

(** The four ways in which the loop body leaves [values] as it is. *)
Definition skipped (field : StructField value) : Prop :=
  Exported field = false
  \/ urlTag field = "" \/ urlTag field = "-"
  \/ (In "omitempty" (tl (Split_comma (urlTag field)))
      /\ utils.isEmptyValue (fieldValue field) = true).

(** The number of calls of the unit of work in a trace. *)
Definition is_attempt (ev : utils.Event) : bool :=
  match ev with utils.EvAttempt _ _ => true | _ => false end.

Definition attempt_count (tr : list utils.Event) : nat := length (List.filter is_attempt tr).


(** A client of the shop of the examples, with [n] retries, and the state
    of a call that starts at the instant zero with no request sent yet. *)
Definition shop_client (transport : utils.HTTPClient (@utils.World nat)) (n : Z)
    : @client.Client nat :=
  {| client.baseURL := "https://shop.test"; client.httpClient := transport;
     client.retryConfig := examples.retries n |}.

Definition fresh_state (a : auth.Authenticator) : @utils.World (@client.ClientState nat) :=
  {| utils.clock := 0;
     utils.state := {| client.auth_ := a; client.net := 0%nat;
                       client.lastResponse := None; client.lastError := None |} |}.

(** A unit of work whose call number i (from 0) returns [outcomes i]; the
    state counts the calls, and a call takes no time. *)
Definition scripted (outcomes : nat -> option errors.error)
    : @utils.World nat -> option errors.error * @utils.World nat :=
  fun w => (outcomes (utils.state w),
            {| utils.clock := utils.clock w; utils.state := Datatypes.S (utils.state w) |}).

(** The time spent in the backoff waits before the attempts 1 to [k]. *)
Fixpoint total_backoff `{GoLib} (config : utils.RetryConfig) (k : nat) : Z :=
  match k with
  | O => 0
  | Datatypes.S k' =>
      total_backoff config k' + Z.max (utils.backoff_delay config (Z.of_nat k)) 0
  end.

(** What [WithRetry] returns comes from the last thing it did: nothing was
    done and no error is returned; or the last thing is a call of the unit
    of work and its outcome is returned; or it is a wait cut short and the
    error of the context is returned. *)
Definition result_of_last (ctx : Context) (r : option errors.error)
    (tr : list utils.Event) : Prop :=
  (tr = [] /\ r = None)
  \/ (exists n, last tr = Some (utils.EvAttempt n r))
  \/ (exists n d entered left,
        last tr = Some (utils.EvCancelled n d entered left)
        /\ r = Some (errors.ContextErr (ctx_Err ctx))).

(** A request without headers, an instant of the year 2025, and a bearer
    token that expired an hour before it, with a refresh function that
    returns a token good for one more hour. *)
Definition sample_request : http.Request :=
  {| http.ReqContext := Background; http.Method := "GET";
     http.Url := {| http.Scheme := "https"; http.Host := "shop.test";
                    http.Path := "/products/42"; http.RawQuery := "" |};
     http.ReqHeader := ∅; http.ReqBody := None |}.

Definition sample_now : Time := {| instant := 63871000000 * Second; location := "UTC" |}.

Definition sample_refresh (refreshToken : string) : errors.result (string * Time) :=
  errors.Ok ("fresh-token", Time_Add sample_now (60 * Minute)).

Definition expired_jwt : auth.JWTAuth :=
  auth.NewJWTAuthWithRefresh "old-token" (Time_Add sample_now (- 60 * Minute))
    "refresh-token" sample_refresh.

(** Doubles for the examples of the service: a product is the text of its
    document, the decoders accept every document, and the scanner knows
    the numbers 7 and 42. *)
Definition text_decoder (data : string) (v : string) : option errors.error * string :=
  (None, data).

Definition list_decoder (data : string) (v : list string)
    : option errors.error * list string := (None, [data]).

Definition small_scanner (value : string) : option Z :=
  if String.eqb value "42" then Some 42
  else if String.eqb value "7" then Some 7 else None.

(** The products service on the client of the shop. *)
Definition shop_service (transport : utils.HTTPClient (@utils.World nat)) (n : Z)
    (fuel : nat) : @products.Service (@utils.World (@client.ClientState nat)) :=
  products.NewService
    (products.of_client (H := examples.stub_lib) (shop_client transport n)
       (fun _ => false) fuel).

(** A [ClientInterface] that answers every request with the given response
    and leaves the state as it is. *)
Definition canned (resp : utils.Response) : @products.ClientInterface unit :=
  fun _ _ w => Some (Some resp, None, w).

(** A double of [fmt.Sprintf("%v", v)] on strings and integers. *)
Definition small_Sprint (v : value) : string :=
  match v with
  | VString s => s
  | VInt _ n => FormatInt n
  | _ => "?"
  end.

(** * Properties *)

Import utils.

(** ** The error classifier and the executor *)

Section ExecutorFacts.
Context `{GoLib} {C : Type}.
Implicit Types (client : HTTPClient C) (c : C).

(** After a request was built, sent and answered with a readable body,
    [MakeRequest] is the classification of the status and the body. *)
Lemma MakeRequest_answered ctx client baseURL opts c c' req resp respBody :
  build_request ctx baseURL opts = Ok req ->
  client req c = (Ok resp, c') ->
  http.Body resp = Ok respBody ->
  MakeRequest ctx client baseURL opts c =
    let response := {| StatusCode := http.StatusCode resp;
                       RespHeaders := http.RespHeader resp;
                       RespBody := respBody |} in
    if 400 <=? http.StatusCode resp then
      match json_Unmarshal_DokanError respBody with
      | Ok dokanErr =>
          if negb (String.eqb (errors.Code dokanErr) "") then
            (Some response,
             Some (DokanErr {| errors.Code := errors.Code dokanErr;
                               errors.Message := errors.Message dokanErr;
                               errors.Data := errors.Data dokanErr;
                               errors.StatusCode := http.StatusCode resp |}), c')
          else (Some response, HandleHTTPError (http.StatusCode resp) respBody, c')
      | Err _ => (Some response, HandleHTTPError (http.StatusCode resp) respBody, c')
      end
    else (Some response, None, c').
Proof.
  intros Hreq Hdo Hbody. unfold MakeRequest.
  rewrite Hreq, Hdo, Hbody. reflexivity.
Qed.

Lemma HandleHTTPError_below_400 s body : s < 400 -> HandleHTTPError s body = None.
Proof.
  intros Hs. unfold HandleHTTPError, StatusUnauthorized, StatusForbidden, StatusNotFound,
    StatusTooManyRequests, StatusBadRequest, StatusInternalServerError.
  repeat match goal with
         | |- context [?a =? ?b] => destruct (Z.eqb_spec a b); [lia |]
         end.
  destruct (Z.leb_spec 400 s); [lia | reflexivity].
Qed.

Lemma HandleHTTPError_other s body :
  400 <= s -> s <> 400 -> s <> 401 -> s <> 403 -> s <> 404 -> s <> 429 -> s <> 500 ->
  HandleHTTPError s body =
    Some (DokanErr {| errors.Code := "http_error";
                      errors.Message := "HTTP " +:+ FormatInt s +:+ " error";
                      errors.Data := None; errors.StatusCode := s |}).
Proof.
  intros Hs H400 H401 H403 H404 H429 H500.
  unfold HandleHTTPError, StatusUnauthorized, StatusForbidden, StatusNotFound,
    StatusTooManyRequests, StatusBadRequest, StatusInternalServerError.
  repeat match goal with
         | |- context [?a =? ?b] => destruct (Z.eqb_spec a b); [contradiction |]
         end.
  destruct (Z.leb_spec 400 s); [reflexivity | lia].
Qed.

(** C3: for a response whose body does not decode to a payload with a
    non-empty code, the executor returns the response together with the
    entry of the fallback table for its status: 401 and 403 give an
    authentication error, 404 a not-found error, 429 a rate-limit error of
    60 seconds, 400 and 500 their fixed API errors, any other status from
    400 on the API error "http_error" with message "HTTP <status> error",
    and a status below 400 gives no error. *)
Theorem C3_fallback_table ctx client baseURL opts c c' req resp respBody :
  build_request ctx baseURL opts = Ok req ->
  client req c = (Ok resp, c') ->
  http.Body resp = Ok respBody ->
  (forall d, json_Unmarshal_DokanError respBody = Ok d -> errors.Code d = "") ->
  let s := http.StatusCode resp in
  let response := {| StatusCode := s; RespHeaders := http.RespHeader resp;
                     RespBody := respBody |} in
  MakeRequest ctx client baseURL opts c = (Some response, HandleHTTPError s respBody, c')
  /\ (s = 401 -> HandleHTTPError s respBody = Some (AuthenticationErr "unauthorized access"))
  /\ (s = 403 -> HandleHTTPError s respBody = Some (AuthenticationErr "forbidden access"))
  /\ (s = 404 -> HandleHTTPError s respBody = Some (NotFoundErr "resource" (VString "unknown")))
  /\ (s = 429 -> HandleHTTPError s respBody = Some (RateLimitErr 60))
  /\ (s = 400 -> HandleHTTPError s respBody =
        Some (DokanErr {| errors.Code := "bad_request"; errors.Message := "bad request";
                          errors.Data := None; errors.StatusCode := 400 |}))
  /\ (s = 500 -> HandleHTTPError s respBody =
        Some (DokanErr {| errors.Code := "internal_error";
                          errors.Message := "internal server error";
                          errors.Data := None; errors.StatusCode := 500 |}))
  /\ (400 <= s -> s <> 400 -> s <> 401 -> s <> 403 -> s <> 404 -> s <> 429 -> s <> 500 ->
      HandleHTTPError s respBody =
        Some (DokanErr {| errors.Code := "http_error";
                          errors.Message := "HTTP " +:+ FormatInt s +:+ " error";
                          errors.Data := None; errors.StatusCode := s |}))
  /\ (s < 400 -> HandleHTTPError s respBody = None).
Proof.
  intros Hreq Hdo Hbody Hcode s response.
  split.
  - rewrite (MakeRequest_answered _ _ _ _ _ _ _ _ _ Hreq Hdo Hbody). cbv zeta.
    fold s. fold response.
    destruct (Z.leb_spec 400 s) as [Hs | Hs].
    + destruct (json_Unmarshal_DokanError respBody) as [d | e] eqn:Hd; [| reflexivity].
      rewrite (Hcode d eq_refl). reflexivity.
    + rewrite HandleHTTPError_below_400 by lia. reflexivity.
  - repeat split; try (intros ->; reflexivity).
    + apply HandleHTTPError_other.
    + apply HandleHTTPError_below_400.
Qed.

(** C4: for a response with a status of 400 or more whose body decodes to
    a payload with a non-empty code, the executor returns the response
    together with a [DokanError] that carries the code, the message and the
    data of the payload and the status of the response, whatever the
    fallback table holds for that status. *)
Theorem C4_structured_payload_wins ctx client baseURL opts c c' req resp respBody d :
  build_request ctx baseURL opts = Ok req ->
  client req c = (Ok resp, c') ->
  http.Body resp = Ok respBody ->
  400 <= http.StatusCode resp ->
  json_Unmarshal_DokanError respBody = Ok d ->
  errors.Code d <> "" ->
  MakeRequest ctx client baseURL opts c =
    (Some {| StatusCode := http.StatusCode resp; RespHeaders := http.RespHeader resp;
             RespBody := respBody |},
     Some (DokanErr {| errors.Code := errors.Code d; errors.Message := errors.Message d;
                       errors.Data := errors.Data d;
                       errors.StatusCode := http.StatusCode resp |}),
     c').
Proof.
  intros Hreq Hdo Hbody Hs Hd Hcode.
  rewrite (MakeRequest_answered _ _ _ _ _ _ _ _ _ Hreq Hdo Hbody). cbv zeta.
  destruct (Z.leb_spec 400 (http.StatusCode resp)); [| lia].
  rewrite Hd.
  destruct (String.eqb_spec (errors.Code d) ""); [contradiction | reflexivity].
Qed.

End ExecutorFacts.

(** The table at work: a status 418 with an empty body. *)
Lemma C3_fallback_table_witness :
  MakeRequest (H := examples.stub_lib) Background (examples.answering 418 "")
    "shop.test" examples.get_product 0%nat =
  (Some {| StatusCode := 418; RespHeaders := ∅; RespBody := "" |},
   Some (DokanErr {| errors.Code := "http_error"; errors.Message := "HTTP 418 error";
                     errors.Data := None; errors.StatusCode := 418 |}),
   1%nat).
Proof.
  destruct (C3_fallback_table (H := examples.stub_lib) Background
              (examples.answering 418 "") "shop.test" examples.get_product
              0%nat 1%nat _ _ "" eq_refl eq_refl eq_refl) as [HM [_ [_ [_ [_ [_ [_ [Hother _]]]]]]]].
  - intros d Hd. discriminate Hd.
  - rewrite HM, Hother; [reflexivity | | | | | | |]; cbn; lia.
Defined.

(** A structured payload on a 404: the result is the API error of the
    payload, not the not-found error of the table. *)
Lemma C4_structured_payload_wins_witness :
  MakeRequest (H := examples.stub_lib) Background (examples.answering 404 "invalid_id")
    "shop.test" examples.get_product 0%nat =
  (Some {| StatusCode := 404; RespHeaders := ∅; RespBody := "invalid_id" |},
   Some (DokanErr {| errors.Code := "invalid_id"; errors.Message := "from the stub";
                     errors.Data := None; errors.StatusCode := 404 |}),
   1%nat).
Proof.
  refine (C4_structured_payload_wins (H := examples.stub_lib) Background
            (examples.answering 404 "invalid_id") "shop.test" examples.get_product
            0%nat 1%nat _ _ "invalid_id"
            {| errors.Code := "invalid_id"; errors.Message := "from the stub";
               errors.Data := None; errors.StatusCode := 0 |}
            eq_refl eq_refl eq_refl _ eq_refl _).
  - cbn. lia.
  - cbn. discriminate.
Defined.

(** ** The bearer-token authenticator *)

(** C8: a bearer-token authenticator with a non-empty token is valid when
    no expiry is set; when one is set it is valid exactly when the current
    time plus five minutes is before the expiry, hence not valid with an
    expiry four minutes ahead and valid with one six minutes ahead; and an
    authenticator with an empty token is never valid. *)
Theorem C8_JWTAuth_IsValid (now : Time) (j : auth.JWTAuth) :
  auth.token j <> "" ->
  (Time_IsZero (auth.expiresAt j) = true -> auth.JWTAuth_IsValid now j = true)
  /\ (Time_IsZero (auth.expiresAt j) = false ->
      (auth.JWTAuth_IsValid now j = true
       <-> instant now + 5 * Minute < instant (auth.expiresAt j)))
  /\ (0 <= instant now -> auth.expiresAt j = Time_Add now (4 * Minute) ->
      auth.JWTAuth_IsValid now j = false)
  /\ (auth.expiresAt j = Time_Add now (6 * Minute) -> auth.JWTAuth_IsValid now j = true)
  /\ (forall j0, auth.token j0 = "" -> auth.JWTAuth_IsValid now j0 = false).
Proof.
  intros Htoken. unfold auth.JWTAuth_IsValid.
  destruct (String.eqb_spec (auth.token j) ""); [contradiction |].
  split; [| split; [| split; [| split]]].
  - intros Hzero. rewrite Hzero. reflexivity.
  - intros Hzero. rewrite Hzero. unfold Time_Before, Time_Add. cbn.
    apply Z.ltb_lt.
  - intros Hnow ->. unfold Time_IsZero, Time_Before, Time_Add. cbn [instant].
    destruct (Z.eqb_spec (instant now + 4 * Minute) 0) as [E | E];
      unfold Minute, Second, Nanosecond in *; [lia |].
    apply Z.ltb_ge. lia.
  - intros ->. unfold Time_IsZero, Time_Before, Time_Add. cbn [instant].
    destruct (Z.eqb_spec (instant now + 6 * Minute) 0) as [E | E]; [reflexivity |].
    apply Z.ltb_lt. unfold Minute, Second, Nanosecond. lia.
  - intros j0 ->. reflexivity.
Qed.

(** A token that expires four minutes after an instant of the year 2025. *)
Lemma C8_JWTAuth_IsValid_witness :
  let now := {| instant := 63871000000 * Second; location := "UTC" |} in
  auth.JWTAuth_IsValid now (auth.NewJWTAuth "token" (Time_Add now (4 * Minute))) = false
  /\ auth.JWTAuth_IsValid now (auth.NewJWTAuth "token" (Time_Add now (6 * Minute))) = true
  /\ auth.JWTAuth_IsValid now (auth.NewJWTAuth "token" zero_Time) = true.
Proof.
  intros now.
  assert (Hne : "token" <> "") by discriminate.
  split; [| split].
  - destruct (C8_JWTAuth_IsValid now (auth.NewJWTAuth "token" (Time_Add now (4 * Minute))) Hne)
      as (_ & _ & H4 & _).
    apply H4; [vm_compute; discriminate | reflexivity].
  - destruct (C8_JWTAuth_IsValid now (auth.NewJWTAuth "token" (Time_Add now (6 * Minute))) Hne)
      as (_ & _ & _ & H6 & _).
    apply H6. reflexivity.
  - destruct (C8_JWTAuth_IsValid now (auth.NewJWTAuth "token" zero_Time) Hne) as (H0 & _).
    apply H0. reflexivity.
Defined.

(** ** Query flattening *)

Section QueryFacts.
Context `{GoLib}.
Implicit Types (field : StructField value) (values : http.Values).

Lemma isEmptyValue_zero v : zero_value v -> isEmptyValue v = true.
Proof. destruct 1; reflexivity. Qed.

Lemma encode_fields_skip field rest values :
  skipped field -> encode_fields (field :: rest) values = encode_fields rest values.
Proof.
  intros Hskip. cbn [encode_fields].
  destruct (Exported field) eqn:Hexported; [cbn [negb] | reflexivity].
  destruct Hskip as [Hex | [Htag | [Htag | [Homit Hempty]]]].
  - congruence.
  - rewrite Htag. reflexivity.
  - rewrite Htag. reflexivity.
  - destruct (String.eqb (urlTag field) "" || String.eqb (urlTag field) "-"); [reflexivity |].
    rewrite Hempty.
    assert (Hex : existsb (String.eqb "omitempty") (tl (Split_comma (urlTag field))) = true).
    { apply existsb_exists. exists "omitempty". split; [exact Homit | apply String.eqb_refl]. }
    rewrite Hex. reflexivity.
Qed.

Lemma encode_fields_app pre post values :
  encode_fields (pre ++ post) values =
    match encode_fields pre values with
    | Ok values' => encode_fields post values'
    | Err err => Err err
    end.
Proof.
  revert values. induction pre as [| field pre IH]; intros values; [reflexivity |].
  cbn [app encode_fields].
  repeat match goal with
         | |- context [if ?b then _ else _] => destruct b
         | |- context [match fieldToString ?v with _ => _ end] => destruct (fieldToString v)
         end; auto.
Qed.

Lemma encode_fields_skip_middle pre field post values :
  skipped field ->
  encode_fields (pre ++ field :: post) values = encode_fields (pre ++ post) values.
Proof.
  intros Hskip. rewrite !encode_fields_app.
  destruct (encode_fields pre values); [| reflexivity].
  apply encode_fields_skip, Hskip.
Qed.

Lemma fieldToString_int_slice ty (ns : list Z) :
  fieldToString (VSlice ty (KInt Int) (map (VInt Int) ns)) = Ok (Join (map FormatInt ns) ",").
Proof.
  cbn [fieldToString]. rewrite map_map. reflexivity.
Qed.

(** C6: a field without a url tag adds nothing to the query, whatever its
    value: the flattening of a struct (or of a pointer to it) is that of
    the struct without the field.  So the fields of a [ListParams] embedded
    in the list parameters of products, orders and stores never reach the
    query: the flattening is the same for every value of the embedded
    struct. *)
Theorem C6_embedded_fields_not_serialized ty pre field post :
  urlTag field = "" ->
  StructToURLValues (Some (VStruct ty (pre ++ field :: post)))
    = StructToURLValues (Some (VStruct ty (pre ++ post)))
  /\ StructToURLValues (Some (VPtr (Some (VStruct ty (pre ++ field :: post)))))
    = StructToURLValues (Some (VPtr (Some (VStruct ty (pre ++ post)))))
  /\ (forall lp lp' status type featured category tag minPrice maxPrice stockStatus sku,
        StructToURLValues (Some (VPtr (Some (types.reflect_ProductListParams
          (types.mkProductListParams lp status type featured category tag
             minPrice maxPrice stockStatus sku)))))
        = StructToURLValues (Some (VPtr (Some (types.reflect_ProductListParams
          (types.mkProductListParams lp' status type featured category tag
             minPrice maxPrice stockStatus sku))))))
  /\ (forall lp lp' status customer product after before modifiedAfter modifiedBefore,
        StructToURLValues (Some (VPtr (Some (types.reflect_OrderListParams
          (types.mkOrderListParams lp status customer product after before
             modifiedAfter modifiedBefore)))))
        = StructToURLValues (Some (VPtr (Some (types.reflect_OrderListParams
          (types.mkOrderListParams lp' status customer product after before
             modifiedAfter modifiedBefore))))))
  /\ (forall lp lp' featured enabled,
        StructToURLValues (Some (VPtr (Some (types.reflect_StoreListParams
          (types.mkStoreListParams lp featured enabled)))))
        = StructToURLValues (Some (VPtr (Some (types.reflect_StoreListParams
          (types.mkStoreListParams lp' featured enabled)))))).
Proof.
  intros Htag.
  assert (Hskip : skipped field) by (right; left; exact Htag).
  split; [| split; [| split; [| split]]].
  - cbn [StructToURLValues]. apply encode_fields_skip_middle, Hskip.
  - cbn [StructToURLValues]. apply encode_fields_skip_middle, Hskip.
  - intros. reflexivity.
  - intros. reflexivity.
  - intros. reflexivity.
Qed.

(** C9: a field tagged omit-empty whose value is a zero value adds nothing
    to the query: the flattening is that of the struct without the field;
    and a slice of int is flattened to its elements in decimal joined by
    commas, [15, 23] to "15,23". *)
Theorem C9_omitempty_and_int_slices ty pre field post sty (ns : list Z) :
  In "omitempty" (tl (Split_comma (urlTag field))) ->
  zero_value (fieldValue field) ->
  StructToURLValues (Some (VStruct ty (pre ++ field :: post)))
    = StructToURLValues (Some (VStruct ty (pre ++ post)))
  /\ fieldToString (VSlice sty (KInt Int) (map (VInt Int) ns))
     = Ok (Join (map FormatInt ns) ",")
  /\ fieldToString (VSlice "[]int" (KInt Int) [VInt Int 15; VInt Int 23]) = Ok "15,23"
  /\ StructToURLValues
       (Some (VStruct "types.ProductListParams"
                [mkField "Category" true false "category,omitempty"
                   (VSlice "[]int" (KInt Int) [VInt Int 15; VInt Int 23])]))
     = Ok {["category" := ["15,23"]]}.
Proof.
  intros Homit Hzero.
  split; [| split; [| split]].
  - cbn [StructToURLValues]. apply encode_fields_skip_middle.
    right; right; right. split; [exact Homit | apply isEmptyValue_zero, Hzero].
  - apply fieldToString_int_slice.
  - reflexivity.
  - cbn. unfold http.Values_Add. rewrite lookup_empty. cbn.
    rewrite insert_empty. reflexivity.
Qed.

End QueryFacts.

(** A [ListParams] with a page and a page size, and no query parameter for
    them. *)
Lemma C6_embedded_fields_not_serialized_witness :
  StructToURLValues (H := examples.stub_lib)
    (Some (VStruct "types.ProductListParams"
             ([] ++ types.embedded_ListParams (types.mkListParams 2 10 "" "" "")
                 :: [mkField "Category" true false "category,omitempty"
                       (VSlice "[]int" (KInt Int) [VInt Int 15; VInt Int 23])])))
  = Ok {["category" := ["15,23"]]}.
Proof.
  destruct (C6_embedded_fields_not_serialized (H := examples.stub_lib)
              "types.ProductListParams" []
              (types.embedded_ListParams (types.mkListParams 2 10 "" "" ""))
              [mkField "Category" true false "category,omitempty"
                 (VSlice "[]int" (KInt Int) [VInt Int 15; VInt Int 23])] eq_refl)
    as [Heq _].
  rewrite Heq. cbn. unfold http.Values_Add. rewrite lookup_empty. cbn.
  rewrite insert_empty. reflexivity.
Defined.

(** A page number left at zero next to a category filter. *)
Lemma C9_omitempty_and_int_slices_witness :
  StructToURLValues (H := examples.stub_lib)
    (Some (VStruct "types.ListParams"
             ([] ++ mkField "Page" true false "page,omitempty" (VInt Int 0)
                 :: [mkField "Category" true false "category,omitempty"
                       (VSlice "[]int" (KInt Int) [VInt Int 15; VInt Int 23])])))
  = Ok {["category" := ["15,23"]]}.
Proof.
  destruct (C9_omitempty_and_int_slices (H := examples.stub_lib)
              "types.ListParams" []
              (mkField "Page" true false "page,omitempty" (VInt Int 0))
              [mkField "Category" true false "category,omitempty"
                 (VSlice "[]int" (KInt Int) [VInt Int 15; VInt Int 23])]
              "[]int" [15; 23])
    as [Heq _].
  - cbn. left. reflexivity.
  - cbn. apply zero_int.
  - rewrite Heq. cbn. unfold http.Values_Add. rewrite lookup_empty. cbn.
    rewrite insert_empty. reflexivity.
Defined.

(** ** The retry controller *)

Lemma wrap_int_small n : min_int64 <= n <= max_int64 -> wrap_int n = n.
Proof.
  unfold wrap_int, min_int64, max_int64.
  change (2 ^ 63) with 9223372036854775808. change (2 ^ 64) with 18446744073709551616.
  intros Hn. rewrite Z.mod_small; lia.
Qed.

Lemma attempt_count_app tr1 tr2 :
  attempt_count (tr1 ++ tr2) = (attempt_count tr1 + attempt_count tr2)%nat.
Proof. unfold attempt_count. rewrite List.filter_app, length_app. reflexivity. Qed.

Section RetryFacts.
Context `{GoLib} {S : Type}.
Variable config : RetryConfig.
Variable fn : @World S -> option error * @World S.
Variable pick_ctx : Z -> bool.
Implicit Types (w : @World S) (tr : list Event) (ctx : Context).


(** Without cancellation every wait runs to its end. *)
Lemma backoff_wait_not_done ctx attempt w tr :
  done_at ctx = None ->
  backoff_wait ctx config pick_ctx attempt w tr =
    if 0 <? attempt then
      let d := backoff_delay config attempt in
      inr (set_clock (clock w + Z.max d 0) w,
           tr ++ [EvWait attempt d (clock w) (clock w + Z.max d 0)])
    else inr (w, tr).
Proof.
  intros Hdone. unfold backoff_wait, select_wait. rewrite Hdone. reflexivity.
Qed.

(** A unit of work that keeps failing with errors that do not end the
    loop, under a context that is never done, is called once per value of
    the counter from [attempt] to [MaxRetries]; the error returned is the
    one of the last call. *)
Lemma retry_loop_all_fail ctx (P : @World S -> Prop) (Q : error -> Prop) :
  done_at ctx = None ->
  (forall w t, P w -> P (set_clock t w)) ->
  (forall w, P w ->
     exists e w', fn w = (Some e, w') /\ stops_retry e = false /\ Q e /\ P w') ->
  MaxRetries config < max_int64 ->
  forall (k : nat) attempt lastErr w tr fuel,
    0 <= attempt ->
    attempt + Z.of_nat k = MaxRetries config + 1 ->
    (k < fuel)%nat ->
    P w ->
    exists r w' ext,
      retry_loop ctx config fn pick_ctx fuel attempt lastErr w tr = Some (r, w', tr ++ ext)
      /\ attempt_count ext = k
      /\ P w'
      /\ match k with
         | O => r = lastErr /\ ext = [] /\ w' = w
         | _ => exists e ext0,
                  ext = ext0 ++ [EvAttempt (MaxRetries config) (Some e)] /\ r = Some e /\ Q e
         end.
Proof.
  intros Hdone Hclock Hfn Hmax.
  induction k as [| k IH]; intros attempt lastErr w tr fuel Hpos Hk Hfuel HP.
  - destruct fuel as [| fuel]; [lia |]. cbn [retry_loop].
    destruct (Z.leb_spec attempt (MaxRetries config)); [lia |].
    exists lastErr, w, []. rewrite app_nil_r. repeat split; auto.
  - destruct fuel as [| fuel]; [lia |]. cbn [retry_loop].
    destruct (Z.leb_spec attempt (MaxRetries config)); [| lia].
    rewrite (backoff_wait_not_done ctx attempt w tr Hdone).
    set (d := backoff_delay config attempt).
    set (w1 := if 0 <? attempt then set_clock (clock w + Z.max d 0) w else w).
    set (pre := if 0 <? attempt
                then [EvWait attempt d (clock w) (clock w + Z.max d 0)] else []).
    assert (HP1 : P w1) by (unfold w1; destruct (0 <? attempt); auto).
    assert (Hpre : attempt_count pre = 0%nat) by (unfold pre; destruct (0 <? attempt); reflexivity).
    destruct (Hfn w1 HP1) as (e & w2 & Hcall & Hstop & HQ & HP2).
    assert (Hstep :
      (if 0 <? attempt
       then inr (set_clock (clock w + Z.max d 0) w,
                 tr ++ [EvWait attempt d (clock w) (clock w + Z.max d 0)])
       else inr (w, tr)) = (inr (w1, tr ++ pre)
         : (option error * @World S * list Event) + (@World S * list Event))).
    { unfold w1, pre. destruct (0 <? attempt); [reflexivity | rewrite app_nil_r; reflexivity]. }
    cbv zeta. rewrite Hstep, Hcall, Hstop.
    rewrite wrap_int_small by (unfold min_int64, max_int64 in *; lia).
    destruct (IH (attempt + 1) (Some e) w2 ((tr ++ pre) ++ [EvAttempt attempt (Some e)]) fuel)
      as (r & w' & ext & Hrun & Hcount & HP' & Hlast); [lia | lia | lia | exact HP2 |].
    exists r, w', (pre ++ [EvAttempt attempt (Some e)] ++ ext).
    split; [| split; [| split]].
    + rewrite Hrun. rewrite <- !app_assoc. reflexivity.
    + rewrite !attempt_count_app, Hpre, Hcount. reflexivity.
    + exact HP'.
    + destruct k as [| k'].
      * destruct Hlast as (-> & -> & ->).
        exists e, pre. rewrite app_nil_r.
        replace (MaxRetries config) with attempt by lia.
        split; [reflexivity | split; [reflexivity | exact HQ]].
      * destruct Hlast as (e' & ext0 & -> & -> & HQ').
        exists e', (pre ++ [EvAttempt attempt (Some e)] ++ ext0).
        rewrite <- !app_assoc. split; [reflexivity | split; [reflexivity | exact HQ']].
Qed.

End RetryFacts.

Section RetryTraces.
Context `{GoLib} {S : Type}.
Variable ctx : Context.
Variable config : RetryConfig.
Variable fn : @World S -> option error * @World S.
Variable pick_ctx : Z -> bool.
Implicit Types (w : @World S) (tr : list Event).

(** The loop returns within [MaxRetries + 2] tests of its condition. *)
Lemma retry_loop_returns (k : nat) : forall attempt lastErr w tr fuel,
  MaxRetries config < max_int64 ->
  0 <= attempt ->
  MaxRetries config + 1 <= attempt + Z.of_nat k ->
  (k < fuel)%nat ->
  exists res, retry_loop ctx config fn pick_ctx fuel attempt lastErr w tr = Some res.
Proof.
  induction k as [| k IH]; intros attempt lastErr w tr fuel Hmax Hpos Hk Hfuel;
    (destruct fuel as [| fuel]; [lia |]); cbn [retry_loop].
  - destruct (Z.leb_spec attempt (MaxRetries config)); [lia | eauto].
  - destruct (Z.leb_spec attempt (MaxRetries config)); [| eauto].
    destruct (backoff_wait ctx config pick_ctx attempt w tr) as [r | [w1 tr1]]; [eauto |].
    destruct (fn w1) as [[e |] w2]; [| eauto].
    destruct (stops_retry e); [eauto |].
    rewrite wrap_int_small by (unfold min_int64, max_int64 in *; lia).
    apply IH; lia.
Qed.

(** The wait leaves the trace as it was, or adds one wait to it. *)
Lemma backoff_wait_trace attempt w tr :
  match backoff_wait ctx config pick_ctx attempt w tr with
  | inl (_, _, tr') =>
      0 < attempt /\ exists entered left,
        tr' = tr ++ [EvCancelled attempt (backoff_delay config attempt) entered left]
  | inr (_, tr') =>
      (attempt <= 0 /\ tr' = tr)
      \/ (0 < attempt /\ exists entered,
            tr' = tr ++ [EvWait attempt (backoff_delay config attempt) entered
                           (entered + Z.max (backoff_delay config attempt) 0)])
  end.
Proof.
  unfold backoff_wait, select_wait.
  destruct (Z.ltb_spec 0 attempt) as [Hpos | Hpos]; [| left; auto].
  destruct (done_at ctx) as [tc |].
  - repeat match goal with |- context [if ?b then _ else _] => destruct b end;
      try (split; [exact Hpos | eauto]); right; eauto.
  - right. eauto.
Qed.


End RetryTraces.

Section TraceFacts.
Context `{GoLib}.
Variable config : RetryConfig.
Implicit Types (tr : list Event).




End TraceFacts.


(** The delays of the client's configuration: two seconds per attempt
    number, capped at thirty seconds. *)
Example backoff_delay_of_the_client :
  forallb (fun n => backoff_delay (H := examples.stub_lib) (examples.retries 3) n
                    =? Z.min (2 * n * Second) (30 * Second))
          (map Z.of_nat (seq 1 64)) = true.
Proof. vm_compute. reflexivity. Qed.

(** Three retries of a unit of work that cannot connect, under a context
    that is never done: four calls, after waits of two, four and six
    seconds. *)
Example WithRetry_three_retries :
  WithRetry (H := examples.stub_lib) Background (examples.retries 3)
    (examples.always (Some examples.connection_refused)) (fun _ => false) 5
    {| clock := 0; state := 0%nat |}
  = Some (Some examples.connection_refused,
          {| clock := 12 * Second; state := 4%nat |},
          [ EvAttempt 0 (Some examples.connection_refused);
            EvWait 1 (2 * Second) 0 (2 * Second);
            EvAttempt 1 (Some examples.connection_refused);
            EvWait 2 (4 * Second) (2 * Second) (6 * Second);
            EvAttempt 2 (Some examples.connection_refused);
            EvWait 3 (6 * Second) (6 * Second) (12 * Second);
            EvAttempt 3 (Some examples.connection_refused) ]).
Proof. vm_compute. reflexivity. Qed.


(** C1, as the code has it: with MaxRetries = N (the retry count of the
    client, from 0 up), a context that is never done and a unit of work
    that fails at every call with an error that does not end the loop, the
    retry controller calls the unit of work exactly N + 1 times, once and
    then N retries, and returns the error of the last call.  Network
    failures and API errors of status 429 are such errors. *)
Theorem C1_attempts_are_retries_plus_one `{GoLib} {S : Type} (ctx : Context)
    (config : RetryConfig) (fn : @World S -> option error * @World S)
    (pick_ctx : Z -> bool) (N : Z) (fuel : nat) (w : @World S) :
  MaxRetries config = N ->
  0 <= N < max_int64 ->
  done_at ctx = None ->
  (forall w0, exists e w1, fn w0 = (Some e, w1) /\ stops_retry e = false) ->
  (Z.to_nat N + 1 < fuel)%nat ->
  (exists e w' tr0,
     WithRetry ctx config fn pick_ctx fuel w
       = Some (Some e, w', tr0 ++ [EvAttempt N (Some e)])
     /\ attempt_count (tr0 ++ [EvAttempt N (Some e)]) = Z.to_nat (N + 1))
  /\ (forall cause, stops_retry (NetworkErr cause) = false)
  /\ (forall code message data,
        stops_retry (DokanErr {| errors.Code := code; errors.Message := message;
                                 errors.Data := data; errors.StatusCode := 429 |}) = false).
Proof.
  intros HN Hrange Hdone Hfails Hfuel.
  split; [| split; reflexivity].
  destruct (retry_loop_all_fail config fn pick_ctx ctx (fun _ => True) (fun _ => True) Hdone
              (fun _ _ _ => I)) with (k := Z.to_nat (N + 1)) (attempt := 0)
      (lastErr := @None error) (w := w) (tr := @nil Event) (fuel := fuel)
    as (r & w' & ext & Hrun & Hcount & _ & Hlast).
  - intros w0 _. destruct (Hfails w0) as (e & w1 & Hcall & Hstop). eauto 8.
  - lia.
  - lia.
  - lia.
  - lia.
  - exact I.
  - destruct (Z.to_nat (N + 1)) as [| k] eqn:Hk; [lia |].
    destruct Hlast as (e & ext0 & -> & -> & _).
    exists e, w', ext0. rewrite HN in *. split; [exact Hrun | exact Hcount].
Qed.

(** Three retries make four attempts and five retries of a rate-limited
    call make six. *)
Lemma C1_attempts_are_retries_plus_one_witness :
  (exists e w' tr,
     WithRetry (H := examples.stub_lib) Background (examples.retries 3)
       (examples.always (Some examples.connection_refused)) (fun _ => false) 5
       {| clock := 0; state := 0%nat |} = Some (Some e, w', tr)
     /\ attempt_count tr = 4%nat)
  /\ (exists e w' tr,
        WithRetry (H := examples.stub_lib) Background (examples.retries 5)
          (examples.always (Some (NewDokanError "rate_limited" "slow down" 429)))
          (fun _ => false) 7 {| clock := 0; state := 0%nat |} = Some (Some e, w', tr)
        /\ attempt_count tr = 6%nat).
Proof.
  split.
  - destruct (C1_attempts_are_retries_plus_one (H := examples.stub_lib) Background
                (examples.retries 3) (examples.always (Some examples.connection_refused))
                (fun _ => false) 3 5 {| clock := 0; state := 0%nat |})
      as [(e & w' & tr0 & Hrun & Hcount) _].
    + reflexivity.
    + vm_compute. split; [discriminate | reflexivity].
    + reflexivity.
    + intros w0. eexists _, _. split; reflexivity.
    + cbn. lia.
    + exists e, w', (tr0 ++ [EvAttempt 3 (Some e)]). split; [exact Hrun | exact Hcount].
  - destruct (C1_attempts_are_retries_plus_one (H := examples.stub_lib) Background
                (examples.retries 5)
                (examples.always (Some (NewDokanError "rate_limited" "slow down" 429)))
                (fun _ => false) 5 7 {| clock := 0; state := 0%nat |})
      as [(e & w' & tr0 & Hrun & Hcount) _].
    + reflexivity.
    + vm_compute. split; [discriminate | reflexivity].
    + reflexivity.
    + intros w0. eexists _, _. split; reflexivity.
    + cbn. lia.
    + exists e, w', (tr0 ++ [EvAttempt 5 (Some e)]). split; [exact Hrun | exact Hcount].
Defined.

(** With a retry count of three the unit of work is called four times, not
    three. *)
Lemma C1_counterexample :
  exists r w' tr,
    WithRetry (H := examples.stub_lib) Background (examples.retries 3)
      (examples.always (Some examples.connection_refused)) (fun _ => false) 5
      {| clock := 0; state := 0%nat |} = Some (r, w', tr)
    /\ MaxRetries (examples.retries 3) = 3
    /\ attempt_count tr = 4%nat
    /\ state w' = 4%nat
    /\ attempt_count tr <> 3%nat.
Proof.
  eexists _, _, _. split; [vm_compute; reflexivity |].
  split; [reflexivity |]. split; [reflexivity |]. split; [reflexivity |].
  vm_compute. discriminate.
Qed.

(** One turn of the loop. *)
Lemma retry_loop_unfold `{GoLib} {S : Type} (ctx : Context) (config : RetryConfig)
    (fn : @World S -> option error * @World S) (pick_ctx : Z -> bool)
    (fuel : nat) attempt lastErr (w : @World S) tr :
  retry_loop ctx config fn pick_ctx (Datatypes.S fuel) attempt lastErr w tr =
    if attempt <=? MaxRetries config then
      match backoff_wait ctx config pick_ctx attempt w tr with
      | inl r => Some r
      | inr (w1, tr1) =>
          let '(lastErr', w2) := fn w1 in
          let tr2 := tr1 ++ [EvAttempt attempt lastErr'] in
          match lastErr' with
          | None => Some (None, w2, tr2)
          | Some err =>
              if stops_retry err then Some (Some err, w2, tr2)
              else retry_loop ctx config fn pick_ctx fuel (wrap_int (attempt + 1))
                     lastErr' w2 tr2
          end
      end
    else Some (lastErr, w, tr).
Proof. reflexivity. Qed.

(** A [DokanError] with a 4xx status other than 429 ends the loop at once:
    the unit of work is not called again and its error is returned. *)
Lemma WithRetry_stops_on_client_error `{GoLib} {S : Type} (ctx : Context)
    (config : RetryConfig) (fn : @World S -> option error * @World S)
    (pick_ctx : Z -> bool) (fuel : nat) (w w1 : @World S) (d : DokanError) :
  0 <= MaxRetries config ->
  fn w = (Some (DokanErr d), w1) ->
  400 <= errors.StatusCode d < 500 ->
  errors.StatusCode d <> 429 ->
  WithRetry ctx config fn pick_ctx (Datatypes.S fuel) w
    = Some (Some (DokanErr d), w1, [EvAttempt 0 (Some (DokanErr d))]).
Proof.
  intros Hmax Hcall Hrange Hne. unfold WithRetry. cbn [retry_loop].
  destruct (Z.leb_spec 0 (MaxRetries config)); [| lia].
  unfold backoff_wait. cbn [Z.ltb Z.compare]. rewrite Hcall.
  unfold stops_retry. cbn [IsDokanError].
  destruct (Z.leb_spec 400 (errors.StatusCode d)); [| lia].
  destruct (Z.ltb_spec (errors.StatusCode d) 500); [| lia].
  destruct (Z.eqb_spec (errors.StatusCode d) 429); [contradiction |].
  reflexivity.
Qed.

(** The sibling of the run below: the same 404 with a structured payload
    is not retried. *)
Example structured_404_is_not_retried :
  exists w',
    client.Client_MakeRequest (H := examples.stub_lib)
      (shop_client (examples.answering_transport 404 "invalid_id") 3) Background
      (fun _ => false) examples.get_product 5
      (fresh_state (auth.Basic (auth.NewBasicAuth "user" "pass")))
    = Some (Some {| StatusCode := 404; RespHeaders := ∅; RespBody := "invalid_id" |},
            Some (DokanErr {| errors.Code := "invalid_id"; errors.Message := "from the stub";
                              errors.Data := None; errors.StatusCode := 404 |}),
            w',
            [EvAttempt 0
               (Some (DokanErr {| errors.Code := "invalid_id";
                                  errors.Message := "from the stub";
                                  errors.Data := None; errors.StatusCode := 404 |}))])
    /\ client.net (state w') = 1%nat /\ clock w' = 0.
Proof. eexists. split; [vm_compute; reflexivity | split; reflexivity]. Qed.

(** C2, where the code departs from it: a server that answers 404 with the
    body [{}] makes the classifier return the not-found error of the
    fallback table, which is not a [DokanError]; the retry controller does
    not stop on it: with three retries the request is sent four times,
    after waits of two, four and six seconds.  The authentication errors of
    the table for 401 and 403 are retried in the same way. *)
Theorem C2_unstructured_404_is_retried :
  HandleHTTPError 404 "{}" = Some (NotFoundErr "resource" (VString "unknown"))
  /\ stops_retry (NotFoundErr "resource" (VString "unknown")) = false
  /\ stops_retry (AuthenticationErr "unauthorized access") = false
  /\ stops_retry (AuthenticationErr "forbidden access") = false
  /\ exists w' tr,
       client.Client_MakeRequest (H := examples.stub_lib)
         (shop_client (examples.answering_transport 404 "{}") 3) Background
         (fun _ => false) examples.get_product 5
         (fresh_state (auth.Basic (auth.NewBasicAuth "user" "pass")))
       = Some (Some {| StatusCode := 404; RespHeaders := ∅; RespBody := "{}" |},
               Some (NotFoundErr "resource" (VString "unknown")), w', tr)
       /\ attempt_count tr = 4%nat
       /\ client.net (state w') = 4%nat
       /\ clock w' = 12 * Second.
Proof.
  split; [reflexivity |]. split; [reflexivity |]. split; [reflexivity |].
  split; [reflexivity |].
  eexists _, _. split; [vm_compute; reflexivity |].
  split; [reflexivity |]. split; reflexivity.
Qed.

(** C10, as the code has it.  First, a backoff wait during which the
    context is done before the timer fires ends at the instant the context
    is done (at once when it was done before): [WithRetry] returns the
    error of the context and the unit of work is not called again.
    Second, a call started after the deadline still makes its first
    attempt; when that attempt fails with an error that does not end the
    loop, a retry is allowed and the backoff delay is positive,
    [WithRetry] returns the error of the context right after the attempt,
    the clock being where the attempt left it. *)
Theorem C10_cancellation_during_backoff `{GoLib} {S : Type} (ctx : Context)
    (config : RetryConfig) (fn : @World S -> option error * @World S)
    (pick_ctx : Z -> bool) (tc : Z) :
  done_at ctx = Some tc ->
  (forall fuel attempt lastErr (w : @World S) tr,
     0 < attempt <= MaxRetries config ->
     Z.max (clock w) tc < clock w + Z.max (backoff_delay config attempt) 0 ->
     retry_loop ctx config fn pick_ctx (Datatypes.S fuel) attempt lastErr w tr
       = Some (Some (ContextErr (ctx_Err ctx)),
               set_clock (Z.max (clock w) tc) w,
               tr ++ [EvCancelled attempt (backoff_delay config attempt)
                        (clock w) (Z.max (clock w) tc)]))
  /\ (forall fuel (w0 w1 : @World S) e,
        tc <= clock w0 ->
        fn w0 = (Some e, w1) ->
        stops_retry e = false ->
        clock w0 <= clock w1 ->
        1 <= MaxRetries config ->
        0 < backoff_delay config 1 ->
        WithRetry ctx config fn pick_ctx (Datatypes.S (Datatypes.S fuel)) w0
          = Some (Some (ContextErr (ctx_Err ctx)), w1,
                  [EvAttempt 0 (Some e);
                   EvCancelled 1 (backoff_delay config 1) (clock w1) (clock w1)])).
Proof.
  intros Hdone.
  assert (Hwait : forall fuel attempt lastErr (w : @World S) tr,
     0 < attempt <= MaxRetries config ->
     Z.max (clock w) tc < clock w + Z.max (backoff_delay config attempt) 0 ->
     retry_loop ctx config fn pick_ctx (Datatypes.S fuel) attempt lastErr w tr
       = Some (Some (ContextErr (ctx_Err ctx)),
               set_clock (Z.max (clock w) tc) w,
               tr ++ [EvCancelled attempt (backoff_delay config attempt)
                        (clock w) (Z.max (clock w) tc)])).
  { intros fuel attempt lastErr w tr [Hpos Hle] Hfirst. cbn [retry_loop].
    destruct (Z.leb_spec attempt (MaxRetries config)); [| lia].
    unfold backoff_wait, select_wait. rewrite Hdone.
    destruct (Z.ltb_spec 0 attempt); [| lia]. cbv zeta.
    destruct (Z.ltb_spec (Z.max (clock w) tc)
                (clock w + Z.max (backoff_delay config attempt) 0)); [reflexivity | lia]. }
  split; [exact Hwait |].
  intros fuel w0 w1 e Hexpired Hcall Hstop Hclock Hmax Hdelay.
  unfold WithRetry. rewrite retry_loop_unfold.
  destruct (Z.leb_spec 0 (MaxRetries config)); [| lia].
  unfold backoff_wait at 1. cbn [Z.ltb Z.compare]. rewrite Hcall, Hstop.
  change (wrap_int (0 + 1)) with 1. cbn [app].
  rewrite Hwait by lia.
  replace (Z.max (clock w1) tc) with (clock w1) by lia.
  destruct w1 as [t1 s1]. reflexivity.
Qed.

(** A deadline that has passed, three retries and a unit of work that
    cannot connect: one attempt, and the error of the context with the
    clock still at the instant of the call. *)
Lemma C10_cancellation_during_backoff_witness :
  WithRetry (H := examples.stub_lib) (WithDeadline 5) (examples.retries 3)
    (examples.always (Some examples.connection_refused)) (fun _ => false) 2
    {| clock := 10; state := 0%nat |}
  = Some (Some (ContextErr DeadlineExceeded), {| clock := 10; state := 1%nat |},
          [EvAttempt 0 (Some examples.connection_refused);
           EvCancelled 1 (2 * Second) 10 10]).
Proof.
  destruct (C10_cancellation_during_backoff (H := examples.stub_lib) (WithDeadline 5)
              (examples.retries 3) (examples.always (Some examples.connection_refused))
              (fun _ => false) 5 eq_refl) as [_ Hstart].
  apply (Hstart 0%nat {| clock := 10; state := 0%nat |} {| clock := 10; state := 1%nat |}
           examples.connection_refused).
  - cbn. lia.
  - reflexivity.
  - reflexivity.
  - cbn. lia.
  - cbn. lia.
  - vm_compute. reflexivity.
Defined.

(** A call started after the deadline whose unit of work succeeds returns
    no error at all, and one whose retries are set to zero returns the
    error of the unit of work. *)
Lemma C10_counterexample :
  WithRetry (H := examples.stub_lib) (WithDeadline 5) (examples.retries 3)
    (examples.always None) (fun _ => false) 5 {| clock := 10; state := 0%nat |}
  = Some (None, {| clock := 10; state := 1%nat |}, [EvAttempt 0 None])
  /\ WithRetry (H := examples.stub_lib) (WithDeadline 5) (examples.retries 0)
       (examples.always (Some examples.connection_refused)) (fun _ => false) 5
       {| clock := 10; state := 0%nat |}
     = Some (Some examples.connection_refused, {| clock := 10; state := 1%nat |},
             [EvAttempt 0 (Some examples.connection_refused)])
  /\ Some examples.connection_refused <> Some (ContextErr DeadlineExceeded)
  /\ (None : option error) <> Some (ContextErr DeadlineExceeded).
Proof.
  split; [vm_compute; reflexivity |]. split; [vm_compute; reflexivity |].
  split; discriminate.
Qed.

(** ** Authentication failures in the client *)

Section ClientFacts.
Context `{GoLib} {Net : Type}.
Implicit Types (transport : @client.Transport Net) (a : auth.Authenticator) (n : Net).

(** When the authenticator returns an error the wrapped client is not
    called: the error is wrapped, the clock and the network are as before. *)
Lemma authenticatedClient_Do_fails transport req t a n e a' req' :
  auth.Authenticate (client.Now t) a req = (Some e, a', req') ->
  client.authenticatedClient_Do transport req {| clock := t; state := (a, n) |}
    = (Err (Errorf "authentication failed: %w" [] (Some e)),
       {| clock := t; state := (a', n) |}).
Proof.
  intros Hauth. unfold client.authenticatedClient_Do. cbn [state clock].
  rewrite Hauth. reflexivity.
Qed.

(** The executor returns that error as a network error. *)
Lemma MakeRequest_authentication_fails transport ctx baseURL opts req t a n e a' req' :
  build_request ctx baseURL opts = Ok req ->
  auth.Authenticate (client.Now t) a req = (Some e, a', req') ->
  MakeRequest ctx (client.authenticatedClient_Do transport) baseURL opts
      {| clock := t; state := (a, n) |}
    = (None, Some (NetworkErr (Errorf "authentication failed: %w" [] (Some e))),
       {| clock := t; state := (a', n) |}).
Proof.
  intros Hreq Hauth. unfold MakeRequest. rewrite Hreq.
  rewrite (authenticatedClient_Do_fails transport req t a n e a' req' Hauth).
  reflexivity.
Qed.

(** C7, as the code has it.  An attempt in which the authenticator fails
    to attach credentials performs no network I/O: whatever the transport,
    it is not called, and the clock and the network are as before.  The
    executor returns the failure as a network error whose cause is the
    error "authentication failed" wrapping the error of the authenticator.
    The retry controller treats it as any error that is not a
    [DokanError]: with an authenticator that fails whenever it is asked
    and a context that is never done, the client makes MaxRetries + 1
    attempts, none of which reaches the network, and returns that network
    error. *)
Theorem C7_failed_authentication (c : @client.Client Net) (ctx : Context)
    (pick_ctx : Z -> bool) (opts : RequestOptions) (req : http.Request)
    (a : auth.Authenticator) (fuel : nat) (w : @World (@client.ClientState Net)) :
  build_request ctx (client.baseURL c) opts = Ok req ->
  client.auth_ (state w) = a ->
  (forall now r, exists e, auth.Authenticate now a r = (Some e, a, r)) ->
  done_at ctx = None ->
  0 <= MaxRetries (client.retryConfig c) < max_int64 ->
  (Z.to_nat (MaxRetries (client.retryConfig c)) + 1 < fuel)%nat ->
  (forall transport t a0 n e a' req',
     auth.Authenticate (client.Now t) a0 req = (Some e, a', req') ->
     MakeRequest ctx (client.authenticatedClient_Do transport) (client.baseURL c) opts
         {| clock := t; state := (a0, n) |}
       = (None, Some (NetworkErr (Errorf "authentication failed: %w" [] (Some e))),
          {| clock := t; state := (a', n) |}))
  /\ (exists e w' tr,
        client.Client_MakeRequest c ctx pick_ctx opts fuel w
          = Some (None, Some (NetworkErr (Errorf "authentication failed: %w" [] (Some e))),
                  w', tr)
        /\ attempt_count tr = Z.to_nat (MaxRetries (client.retryConfig c) + 1)
        /\ client.net (state w') = client.net (state w)
        /\ client.auth_ (state w') = a).
Proof.
  intros Hreq Hauth Hfails Hdone Hrange Hfuel.
  split.
  { intros transport t a0 n e a' req' Hfail.
    exact (MakeRequest_authentication_fails transport ctx _ opts req t a0 n e a' req'
             Hreq Hfail). }
  set (P := fun w0 : @World (@client.ClientState Net) =>
              client.auth_ (state w0) = a
              /\ client.net (state w0) = client.net (state w)
              /\ client.lastResponse (state w0) = None).
  set (Q := fun err : error =>
              exists e, err = NetworkErr (Errorf "authentication failed: %w" [] (Some e))).
  unfold client.Client_MakeRequest.
  set (w0 := {| clock := clock w;
                state := {| client.auth_ := client.auth_ (state w);
                            client.net := client.net (state w);
                            client.lastResponse := None;
                            client.lastError := None |} |}).
  destruct (retry_loop_all_fail (client.retryConfig c) (client.attempt_request c ctx opts)
              pick_ctx ctx P Q Hdone)
    with (k := Z.to_nat (MaxRetries (client.retryConfig c) + 1)) (attempt := 0)
         (lastErr := @None error) (w := w0) (tr := @nil Event) (fuel := fuel)
    as (r & w' & ext & Hrun & Hcount & HP' & Hlast).
  - intros w1 t (Ha & Hn & Hr). split; [exact Ha | split; [exact Hn | exact Hr]].
  - intros w1 (Ha & Hn & Hr).
    destruct (Hfails (client.Now (clock w1)) req) as [e He].
    exists (NetworkErr (Errorf "authentication failed: %w" [] (Some e))).
    eexists. unfold client.attempt_request.
    rewrite (MakeRequest_authentication_fails (client.httpClient c) ctx _ opts req
               (clock w1) (client.auth_ (state w1)) (client.net (state w1)) e a req Hreq)
      by (rewrite Ha; exact He).
    split; [reflexivity |]. split; [reflexivity |]. split; [exists e; reflexivity |].
    split; [reflexivity | split; [exact Hn | reflexivity]].
  - lia.
  - lia.
  - lia.
  - lia.
  - split; [exact Hauth | split; reflexivity].
  - unfold WithRetry. cbn [app] in Hrun. rewrite Hrun.
    destruct (Z.to_nat (MaxRetries (client.retryConfig c) + 1)) as [| k] eqn:Hk; [lia |].
    destruct Hlast as (err & ext0 & -> & -> & (e & ->)).
    destruct HP' as (Ha' & Hn' & Hr').
    exists e, w', (ext0 ++ [EvAttempt (MaxRetries (client.retryConfig c))
                              (Some (NetworkErr (Errorf "authentication failed: %w" []
                                                   (Some e))))]).
    rewrite Hr'. split; [reflexivity |]. split; [exact Hcount |].
    split; [exact Hn' | exact Ha'].
Qed.

End ClientFacts.

(** Basic credentials with an empty user name, three retries: four
    attempts, twelve seconds of waiting, a network error, and a transport
    that was never called. *)
Lemma C7_failed_authentication_witness :
  exists e w' tr,
    client.Client_MakeRequest (H := examples.stub_lib)
      (shop_client (examples.answering_transport 200 "{}") 3) Background
      (fun _ => false) examples.get_product 5
      (fresh_state (auth.Basic (auth.NewBasicAuth "" "secret")))
    = Some (None, Some (NetworkErr (Errorf "authentication failed: %w" [] (Some e))), w', tr)
    /\ attempt_count tr = 4%nat
    /\ client.net (state w') = 0%nat
    /\ client.auth_ (state w') = auth.Basic (auth.NewBasicAuth "" "secret").
Proof.
  destruct (C7_failed_authentication (H := examples.stub_lib)
              (shop_client (examples.answering_transport 200 "{}") 3) Background
              (fun _ => false) examples.get_product
              {| http.ReqContext := Background; http.Method := "GET";
                 http.Url := {| http.Scheme := "https"; http.Host := "https://shop.test";
                                http.Path := "/products/42"; http.RawQuery := "" |};
                 http.ReqHeader := Header_Set (H := examples.stub_lib)
                                     "Accept" "application/json" ∅;
                 http.ReqBody := None |}
              (auth.Basic (auth.NewBasicAuth "" "secret")) 5
              (fresh_state (auth.Basic (auth.NewBasicAuth "" "secret"))))
    as [_ Hrun].
  - reflexivity.
  - reflexivity.
  - intros now r. eexists. reflexivity.
  - reflexivity.
  - vm_compute. split; [discriminate | reflexivity].
  - cbn. lia.
  - exact Hrun.
Defined.

(** The same call against the claim: the failure is retried three times,
    takes twelve seconds and comes back as a network error, not as an
    authentication error. *)
Lemma C7_counterexample :
  exists e w' tr,
    client.Client_MakeRequest (H := examples.stub_lib)
      (shop_client (examples.answering_transport 200 "{}") 3) Background
      (fun _ => false) examples.get_product 5
      (fresh_state (auth.Basic (auth.NewBasicAuth "" "secret")))
    = Some (None, Some e, w', tr)
    /\ e = NetworkErr (Errorf "authentication failed: %w" []
                         (Some (Errorf "username and password are required for basic auth"
                                  [] None)))
    /\ (forall message, e <> AuthenticationErr message)
    /\ attempt_count tr = 4%nat
    /\ attempt_count tr <> 1%nat
    /\ clock w' = 12 * Second
    /\ client.net (state w') = 0%nat.
Proof.
  eexists _, _, _. split; [vm_compute; reflexivity |].
  split; [reflexivity |]. split; [intros message; discriminate |].
  split; [reflexivity |]. split; [vm_compute; discriminate |].
  split; reflexivity.
Qed.

(** * Further properties of the code *)

(** ** The retry loop on arbitrary units of work *)

Section RetryBounds.
Context `{GoLib} {S : Type}.
Variable ctx : Context.
Variable config : RetryConfig.
Variable fn : @World S -> option error * @World S.
Variable pick_ctx : Z -> bool.
Implicit Types (w : @World S) (tr : list Event).



Lemma retry_loop_result_of_last (fuel : nat) : forall attempt lastErr w tr r w' tr',
  (tr = [] /\ lastErr = None) \/ (exists n, last tr = Some (EvAttempt n lastErr)) ->
  retry_loop ctx config fn pick_ctx fuel attempt lastErr w tr = Some (r, w', tr') ->
  result_of_last ctx r tr'.
Proof.
  induction fuel as [| fuel IH]; intros attempt lastErr w tr r w' tr' Hinv Hrun;
    [discriminate |].
  rewrite retry_loop_unfold in Hrun.
  destruct (attempt <=? MaxRetries config).
  2:{ injection Hrun as <- <- <-. destruct Hinv as [Hnil | Hlast]; [left | right; left]; auto. }
  pose proof (backoff_wait_trace ctx config pick_ctx attempt w tr) as Hwait.
  unfold backoff_wait in Hwait, Hrun.
  destruct (0 <? attempt).
  - destruct (select_wait ctx (clock w) (backoff_delay config attempt) (pick_ctx attempt))
      as [t | t].
    + injection Hrun as <- <- <-. right; right.
      eexists _, _, _, _. rewrite last_snoc. split; reflexivity.
    + destruct (fn (set_clock t w)) as [[e |] w2].
      * destruct (stops_retry e).
        -- injection Hrun as <- <- <-. right; left. eexists. apply last_snoc.
        -- apply IH in Hrun; [exact Hrun |]. right. eexists. apply last_snoc.
      * injection Hrun as <- <- <-. right; left. eexists. apply last_snoc.
  - destruct (fn w) as [[e |] w2].
    + destruct (stops_retry e).
      * injection Hrun as <- <- <-. right; left. eexists. apply last_snoc.
      * apply IH in Hrun; [exact Hrun |]. right. eexists. apply last_snoc.
    + injection Hrun as <- <- <-. right; left. eexists. apply last_snoc.
Qed.

End RetryBounds.



(** [WithRetry] neither invents an error nor drops the last one: it
    returns the outcome of the last call of the unit of work, or the error
    of the context when a wait was cut short, or no error when it did
    nothing at all. *)
Theorem WithRetry_returns_last_outcome `{GoLib} {S : Type} (ctx : Context)
    (config : RetryConfig) (fn : @World S -> option error * @World S)
    (pick_ctx : Z -> bool) (fuel : nat) (w : @World S) :
  MaxRetries config < max_int64 ->
  (Z.to_nat (MaxRetries config + 1) < fuel)%nat ->
  exists r w' tr,
    WithRetry ctx config fn pick_ctx fuel w = Some (r, w', tr)
    /\ result_of_last ctx r tr.
Proof.
  intros Hmax Hfuel.
  destruct (retry_loop_returns ctx config fn pick_ctx (Z.to_nat (MaxRetries config + 1))
              0 None w [] fuel Hmax) as [[[r w'] tr] Hrun]; [lia | lia | exact Hfuel |].
  exists r, w', tr. split; [exact Hrun |].
  apply (retry_loop_result_of_last ctx config fn pick_ctx fuel 0 None w [] r w' tr);
    [left; split; reflexivity | exact Hrun].
Qed.

Lemma WithRetry_returns_last_outcome_witness :
  exists r w' tr,
    WithRetry (H := examples.stub_lib) (WithDeadline 3) (examples.retries 2)
      (examples.always (Some examples.connection_refused)) (fun _ => true) 4
      {| clock := 0; state := 0%nat |} = Some (r, w', tr)
    /\ result_of_last (WithDeadline 3) r tr.
Proof.
  apply (WithRetry_returns_last_outcome (H := examples.stub_lib)).
  - vm_compute. reflexivity.
  - vm_compute. lia.
Defined.

(** One turn of the loop on a scripted unit of work, under a context that
    is never done. *)
Lemma scripted_step `{GoLib} (ctx : Context) (config : RetryConfig) (pick_ctx : Z -> bool)
    (outcomes : nat -> option error) (fuel : nat) (j : nat) lastErr (c : Z) tr :
  done_at ctx = None ->
  MaxRetries config < max_int64 ->
  Z.of_nat j <= MaxRetries config ->
  retry_loop ctx config (scripted outcomes) pick_ctx (Datatypes.S fuel) (Z.of_nat j) lastErr
    {| clock := c; state := j |} tr
  = let w2 := {| clock := c + total_backoff config j - total_backoff config (Nat.pred j);
                 state := Datatypes.S j |} in
    let tr2 :=
      tr ++ (if 0 <? Z.of_nat j
             then [EvWait (Z.of_nat j) (backoff_delay config (Z.of_nat j)) c
                     (c + Z.max (backoff_delay config (Z.of_nat j)) 0)]
             else [])
         ++ [EvAttempt (Z.of_nat j) (outcomes j)] in
    match outcomes j with
    | None => Some (None, w2, tr2)
    | Some e =>
        if stops_retry e then Some (Some e, w2, tr2)
        else retry_loop ctx config (scripted outcomes) pick_ctx fuel
               (Z.of_nat (Datatypes.S j)) (Some e) w2 tr2
    end.
Proof.
  intros Hdone Hmax Hj. rewrite retry_loop_unfold.
  destruct (Z.leb_spec (Z.of_nat j) (MaxRetries config)); [| lia].
  rewrite (backoff_wait_not_done config pick_ctx ctx _ _ _ Hdone).
  rewrite wrap_int_small by (unfold min_int64, max_int64 in *; lia).
  replace (Z.of_nat j + 1) with (Z.of_nat (Datatypes.S j)) by lia.
  cbv zeta. unfold scripted at 1. cbn [clock state set_clock].
  assert (Hclock : (if 0 <? Z.of_nat j
                    then c + Z.max (backoff_delay config (Z.of_nat j)) 0 else c)
                   = c + total_backoff config j - total_backoff config (Nat.pred j)).
  { destruct j as [| j']; cbn [Nat.pred total_backoff];
      match goal with |- context [0 <? ?x] => destruct (Z.ltb_spec 0 x) end; lia. }
  rewrite <- Hclock. clear Hclock.
  destruct (0 <? Z.of_nat j); cbn [clock state set_clock]; cbv beta iota zeta;
    (destruct (outcomes j) as [e |]; [destruct (stops_retry e) |]);
    rewrite <- ?app_assoc, ?app_nil_l; reflexivity.
Qed.

(** A unit of work whose calls 0 to k - 1 fail with errors that do not end
    the loop and whose call k succeeds, or fails with an error that ends
    it, is called k + 1 times when k retries are allowed and the context
    is never done: [WithRetry] returns the outcome of call k after having
    waited the k backoff delays. *)
Theorem WithRetry_stops_at_first_decisive_outcome `{GoLib} (ctx : Context)
    (config : RetryConfig) (pick_ctx : Z -> bool) (outcomes : nat -> option error)
    (k : nat) (t : Z) (fuel : nat) :
  done_at ctx = None ->
  MaxRetries config < max_int64 ->
  Z.of_nat k <= MaxRetries config ->
  (forall i, (i < k)%nat -> exists e, outcomes i = Some e /\ stops_retry e = false) ->
  (outcomes k = None \/ exists e, outcomes k = Some e /\ stops_retry e = true) ->
  (k < fuel)%nat ->
  exists tr,
    WithRetry ctx config (scripted outcomes) pick_ctx fuel {| clock := t; state := 0%nat |}
      = Some (outcomes k,
              {| clock := t + total_backoff config k; state := Datatypes.S k |}, tr)
    /\ attempt_count tr = Datatypes.S k.
Proof.
  intros Hdone Hmax Hk Hfail Hlast Hfuel.
  assert (Hgen : forall (d j : nat) lastErr c tr fuel',
    (j + d = k)%nat -> (d < fuel')%nat ->
    exists ext,
      retry_loop ctx config (scripted outcomes) pick_ctx fuel' (Z.of_nat j) lastErr
        {| clock := c; state := j |} tr
      = Some (outcomes k,
              {| clock := c + total_backoff config k - total_backoff config (Nat.pred j);
                 state := Datatypes.S k |}, tr ++ ext)
      /\ attempt_count ext = Datatypes.S d).
  { induction d as [| d IH]; intros j lastErr c tr fuel' Hj Hf;
      (destruct fuel' as [| fuel']; [lia |]);
      rewrite (scripted_step ctx config pick_ctx outcomes fuel' j lastErr c tr Hdone Hmax)
        by lia; cbv zeta.
    - assert (j = k) by lia. subst j.
      destruct Hlast as [Hnone | (e & Hsome & Hstop)];
        [rewrite Hnone | rewrite Hsome, Hstop];
        eexists; (split; [reflexivity |]);
        rewrite attempt_count_app; destruct (0 <? Z.of_nat k); reflexivity.
    - destruct (Hfail j) as (e & Hsome & Hstop); [lia |].
      rewrite Hsome, Hstop.
      match goal with
      | |- context [retry_loop _ _ _ _ fuel' _ ?l {| clock := ?c'; state := _ |} ?tr'] =>
          destruct (IH (Datatypes.S j) l c' tr' fuel') as (ext & Hrun & Hcount);
            [lia | lia |]
      end.
      rewrite Hrun. cbn [Nat.pred].
      eexists. split.
      + rewrite <- !app_assoc. f_equal. f_equal. f_equal. f_equal. lia.
      + rewrite !attempt_count_app, Hcount. destruct (0 <? Z.of_nat j); reflexivity. }
  destruct (Hgen k 0%nat None t [] fuel) as (ext & Hrun & Hcount); [lia | exact Hfuel |].
  exists ext. unfold WithRetry. change (Z.of_nat 0) with 0 in Hrun. rewrite Hrun.
  cbn [Nat.pred total_backoff app]. split; [| exact Hcount].
  f_equal. f_equal. f_equal. f_equal. lia.
Qed.

(** Two rate-limited calls and then a success, with three retries: three
    calls, six seconds of waiting, and no error. *)
Lemma WithRetry_stops_at_first_decisive_outcome_witness :
  let outcomes := fun i : nat => if (i <? 2)%nat then Some (RateLimitErr 60) else None in
  exists tr,
    WithRetry (H := examples.stub_lib) Background (examples.retries 3) (scripted outcomes)
      (fun _ => false) 4 {| clock := 0; state := 0%nat |}
      = Some (outcomes 2%nat,
              {| clock := 0 + total_backoff (H := examples.stub_lib) (examples.retries 3) 2;
                 state := 3%nat |}, tr)
    /\ attempt_count tr = 3%nat.
Proof.
  intros outcomes.
  apply (WithRetry_stops_at_first_decisive_outcome (H := examples.stub_lib) Background
           (examples.retries 3) (fun _ => false) outcomes 2 0 4).
  - reflexivity.
  - vm_compute. reflexivity.
  - vm_compute. discriminate.
  - intros i Hi. exists (RateLimitErr 60).
    destruct i as [| [| i]]; [split; reflexivity | split; reflexivity | lia].
  - left. reflexivity.
  - lia.
Defined.

(** ** The executor: what it returns together *)

Section ExecutorShapes.
Context `{GoLib} {C : Type}.
Implicit Types (client : HTTPClient C) (c : C).

Lemma HandleHTTPError_from_400 s body : 400 <= s -> exists e, HandleHTTPError s body = Some e.
Proof.
  intros Hs. unfold HandleHTTPError.
  repeat match goal with
         | |- context [?a =? ?b] => destruct (a =? b); [eauto |]
         end.
  destruct (Z.leb_spec 400 s); [eauto | lia].
Qed.

Lemma HandleHTTPError_status s body d :
  HandleHTTPError s body = Some (DokanErr d) -> errors.StatusCode d = s.
Proof.
  unfold HandleHTTPError, NewDokanError, NewAuthenticationError, NewNotFoundError,
    NewRateLimitError.
  repeat match goal with
         | |- context [if ?b then _ else _] => destruct b
         end; intros Heq; inversion Heq; reflexivity.
Qed.

(** The errors [MakeRequest] returns before any exchange are made by
    [fmt.Errorf] and wrap the error of the step that failed. *)
Lemma build_request_error ctx baseURL opts e :
  build_request ctx baseURL opts = Err e ->
  exists format cause, e = Errorf format [] (Some cause).
Proof.
  unfold build_request.
  destruct (url_Parse baseURL) as [u | e0]; [| intros Heq; injection Heq as <-; eauto].
  destruct (Query opts) as [q |].
  - destruct (StructToURLValues (Some q)) as [qp | e1];
      [| intros Heq; injection Heq as <-; eauto].
    destruct (Body opts) as [b |].
    + destruct (json_Marshal b) as [jb | e2]; [| intros Heq; injection Heq as <-; eauto].
      destruct (NewRequest_error _ _) as [e3 |]; intros Heq; [| discriminate].
      injection Heq as <-; eauto.
    + destruct (NewRequest_error _ _) as [e3 |]; intros Heq; [| discriminate].
      injection Heq as <-; eauto.
  - destruct (Body opts) as [b |].
    + destruct (json_Marshal b) as [jb | e2]; [| intros Heq; injection Heq as <-; eauto].
      destruct (NewRequest_error _ _) as [e3 |]; intros Heq; [| discriminate].
      injection Heq as <-; eauto.
    + destruct (NewRequest_error _ _) as [e3 |]; intros Heq; [| discriminate].
      injection Heq as <-; eauto.
Qed.

(** [MakeRequest] returns no error exactly when it returns a response with
    a status below 400; and when it returns no response, its error is not
    a [DokanError]. *)
Theorem MakeRequest_nil_error_iff_success ctx client baseURL opts c resp err c' :
  MakeRequest ctx client baseURL opts c = (resp, err, c') ->
  (err = None <-> exists r, resp = Some r /\ StatusCode r < 400)
  /\ (resp = None -> exists e, err = Some e /\ IsDokanError e = false).
Proof.
  unfold MakeRequest.
  destruct (build_request ctx baseURL opts) as [req | e0] eqn:Hreq.
  2:{ intros Heq. injection Heq as <- <- <-.
      destruct (build_request_error _ _ _ _ Hreq) as (format & cause & ->).
      split; [split; [discriminate | intros (r & Hr & _); discriminate] |].
      intros _. eexists. split; reflexivity. }
  destruct (client req c) as [[resp0 | e1] c1].
  2:{ intros Heq. injection Heq as <- <- <-.
      split; [split; [discriminate | intros (r & Hr & _); discriminate] |].
      intros _. eexists. split; reflexivity. }
  destruct (http.Body resp0) as [body | e2].
  2:{ intros Heq. injection Heq as <- <- <-.
      split; [split; [discriminate | intros (r & Hr & _); discriminate] |].
      intros _. eexists. split; reflexivity. }
  cbv zeta.
  destruct (Z.leb_spec 400 (http.StatusCode resp0)) as [Hs | Hs].
  - destruct (HandleHTTPError_from_400 (http.StatusCode resp0) body Hs) as [e3 He3].
    rewrite He3.
    destruct (json_Unmarshal_DokanError body) as [d | e4];
      [destruct (negb (String.eqb (errors.Code d) "")) |];
      intros Heq; injection Heq as <- <- <-;
      (split; [split; [discriminate | intros (r & Hr & Hlt); injection Hr as <-; cbn in Hlt; lia]
              | discriminate]).
  - intros Heq. injection Heq as <- <- <-.
    split; [split; [intros _; eexists; split; [reflexivity | exact Hs] | reflexivity]
           | discriminate].
Qed.

(** Every [DokanError] that [MakeRequest] returns comes with the response
    and carries its status code, which is 400 or more. *)
Theorem MakeRequest_DokanError_carries_status ctx client baseURL opts c resp d c' :
  MakeRequest ctx client baseURL opts c = (resp, Some (DokanErr d), c') ->
  exists r, resp = Some r /\ StatusCode r = errors.StatusCode d /\ 400 <= StatusCode r.
Proof.
  unfold MakeRequest.
  destruct (build_request ctx baseURL opts) as [req | e0] eqn:Hreq.
  2:{ destruct (build_request_error _ _ _ _ Hreq) as (format & cause & ->). discriminate. }
  destruct (client req c) as [[resp0 | e1] c1]; [| discriminate].
  destruct (http.Body resp0) as [body | e2]; [| discriminate].
  cbv zeta.
  destruct (Z.leb_spec 400 (http.StatusCode resp0)) as [Hs | Hs]; [| discriminate].
  assert (Hfallback :
    (Some {| StatusCode := http.StatusCode resp0; RespHeaders := http.RespHeader resp0;
             RespBody := body |},
     HandleHTTPError (http.StatusCode resp0) body, c1) = (resp, Some (DokanErr d), c') ->
    exists r, resp = Some r /\ StatusCode r = errors.StatusCode d /\ 400 <= StatusCode r).
  { intros Heq. injection Heq as <- Herr <-.
    apply HandleHTTPError_status in Herr. eexists. split; [reflexivity |].
    cbn. split; [symmetry; exact Herr | exact Hs]. }
  destruct (json_Unmarshal_DokanError body) as [d0 | e4]; [| exact Hfallback].
  destruct (negb (String.eqb (errors.Code d0) "")); [| exact Hfallback].
  intros Heq. injection Heq as <- <- <-. eexists. split; [reflexivity |].
  cbn. split; [reflexivity | exact Hs].
Qed.

(** A query that cannot be flattened fails the call before any exchange:
    the client is not called, whatever it is, and the state behind it is
    as before. *)
Theorem MakeRequest_unsupported_query_no_io ctx client baseURL opts c u q e :
  url_Parse baseURL = Ok u ->
  Query opts = Some q ->
  StructToURLValues (Some q) = Err e ->
  MakeRequest ctx client baseURL opts c
    = (None, Some (Errorf "failed to encode query parameters: %w" [] (Some e)), c).
Proof.
  intros Hu Hq He. unfold MakeRequest, build_request.
  rewrite Hu, Hq, He. reflexivity.
Qed.

End ExecutorShapes.

Lemma MakeRequest_nil_error_iff_success_witness :
  (Some (DokanErr {| errors.Code := "invalid_id"; errors.Message := "from the stub";
                     errors.Data := None; errors.StatusCode := 404 |}) = None
   <-> exists r, Some {| StatusCode := 404; RespHeaders := ∅; RespBody := "invalid_id" |}
                 = Some r /\ StatusCode r < 400)
  /\ (Some {| StatusCode := 404; RespHeaders := ∅; RespBody := "invalid_id" |} = None ->
      exists e, Some (DokanErr {| errors.Code := "invalid_id";
                                  errors.Message := "from the stub";
                                  errors.Data := None; errors.StatusCode := 404 |}) = Some e
                /\ IsDokanError e = false).
Proof.
  apply (MakeRequest_nil_error_iff_success (H := examples.stub_lib) Background
           (examples.answering 404 "invalid_id") "shop.test" examples.get_product
           0%nat _ _ 1%nat).
  reflexivity.
Defined.

Lemma MakeRequest_DokanError_carries_status_witness :
  exists r, Some {| StatusCode := 503; RespHeaders := ∅; RespBody := "{}" |} = Some r
            /\ StatusCode r = 503 /\ 400 <= StatusCode r.
Proof.
  apply (MakeRequest_DokanError_carries_status (H := examples.stub_lib) Background
           (examples.answering 503 "{}") "shop.test" examples.get_product 0%nat
           (Some {| StatusCode := 503; RespHeaders := ∅; RespBody := "{}" |})
           {| errors.Code := "http_error"; errors.Message := "HTTP 503 error";
              errors.Data := None; errors.StatusCode := 503 |} 1%nat).
  reflexivity.
Defined.

(** ** The request the executor builds *)

Section RequestFacts.
Context `{GoLib}.
Implicit Types (hs : list (string * string)) (h : http.Header).

Lemma set_headers_untouched hs h key :
  (forall kv, In kv hs -> CanonicalHeaderKey (fst kv) <> key) ->
  fold_left (fun h kv => Header_Set (fst kv) (snd kv) h) hs h !! key = h !! key.
Proof.
  revert h. induction hs as [| kv hs IH]; intros h Hne; [reflexivity |].
  cbn [fold_left]. rewrite IH by (intros kv' Hin; apply Hne; right; exact Hin).
  unfold Header_Set. apply lookup_insert_ne. apply Hne. left. reflexivity.
Qed.

Lemma set_headers_last_wins hs k v hs' h :
  (forall kv, In kv hs' -> CanonicalHeaderKey (fst kv) <> CanonicalHeaderKey k) ->
  fold_left (fun h kv => Header_Set (fst kv) (snd kv) h) (hs ++ (k, v) :: hs') h
    !! CanonicalHeaderKey k = Some [v].
Proof.
  intros Hne. rewrite fold_left_app. cbn [fold_left].
  rewrite set_headers_untouched by exact Hne.
  unfold Header_Set. cbn [fst snd]. apply lookup_insert_eq.
Qed.

Lemma build_request_header ctx baseURL opts req :
  build_request ctx baseURL opts = Ok req ->
  http.ReqHeader req =
    fold_left (fun h kv => Header_Set (fst kv) (snd kv) h) (Headers opts)
      (Header_Set "Accept" "application/json"
         match Body opts with
         | Some _ => Header_Set "Content-Type" "application/json" ∅
         | None => ∅
         end).
Proof.
  unfold build_request.
  destruct (url_Parse baseURL) as [u | e0]; [| discriminate].
  destruct (match Query opts with
            | Some _ => _
            | None => _
            end) as [u' | e1]; [| discriminate].
  destruct (match Body opts with
            | Some b => _
            | None => Ok None
            end) as [body | e2]; [| discriminate].
  destruct (NewRequest_error (Method opts) u') as [e3 |]; [discriminate |].
  intros Heq. injection Heq as <-. reflexivity.
Qed.

(** The headers of the request: a header given by the caller has the
    value of its last entry, also over [Accept] and [Content-Type]; when
    the caller gives none for them, [Accept] is [application/json], and
    [Content-Type] is [application/json] with a body and absent without. *)
Theorem build_request_headers ctx baseURL opts req :
  build_request ctx baseURL opts = Ok req ->
  (forall hs k v hs',
     Headers opts = hs ++ (k, v) :: hs' ->
     (forall kv, In kv hs' -> CanonicalHeaderKey (fst kv) <> CanonicalHeaderKey k) ->
     http.ReqHeader req !! CanonicalHeaderKey k = Some [v])
  /\ ((forall kv, In kv (Headers opts) ->
          CanonicalHeaderKey (fst kv) <> CanonicalHeaderKey "Accept") ->
      http.ReqHeader req !! CanonicalHeaderKey "Accept" = Some ["application/json"])
  /\ ((forall kv, In kv (Headers opts) ->
          CanonicalHeaderKey (fst kv) <> CanonicalHeaderKey "Content-Type") ->
      CanonicalHeaderKey "Accept" <> CanonicalHeaderKey "Content-Type" ->
      http.ReqHeader req !! CanonicalHeaderKey "Content-Type"
        = match Body opts with Some _ => Some ["application/json"] | None => None end).
Proof.
  intros Hreq. rewrite (build_request_header _ _ _ _ Hreq).
  split; [| split].
  - intros hs k v hs' Hhs Hne. rewrite Hhs. apply set_headers_last_wins, Hne.
  - intros Hne. rewrite set_headers_untouched by exact Hne.
    unfold Header_Set at 1. apply lookup_insert_eq.
  - intros Hne Hdiff. rewrite set_headers_untouched by exact Hne.
    unfold Header_Set at 1. rewrite lookup_insert_ne by exact Hdiff.
    destruct (Body opts); [apply lookup_insert_eq | apply lookup_empty].
Qed.

Lemma TrimPrefix_slash_none p : HasPrefix p "/" = false -> TrimPrefix_slash p = p.
Proof.
  destruct p as [| c p]; [reflexivity |]. cbn [HasPrefix TrimPrefix_slash].
  rewrite Ascii.eqb_sym. destruct (Ascii.eqb c "/").
  - destruct p; discriminate.
  - reflexivity.
Qed.

(** One leading slash of the path of the options makes no difference to
    the request, nor to the error when the request cannot be built. *)
Theorem build_request_leading_slash ctx baseURL method p query body headers :
  HasPrefix p "/" = false ->
  build_request ctx baseURL
    {| Method := method; Path := "/" +:+ p; Query := query; Body := body;
       Headers := headers |}
  = build_request ctx baseURL
      {| Method := method; Path := p; Query := query; Body := body; Headers := headers |}.
Proof.
  intros Hp. unfold build_request. cbn [Path Query Body Method Headers].
  change (TrimPrefix_slash ("/" +:+ p)) with p.
  rewrite (TrimPrefix_slash_none p Hp). reflexivity.
Qed.

End RequestFacts.

Lemma build_request_headers_witness :
  exists req,
    build_request (H := examples.stub_lib) Background "shop.test"
      {| Method := "GET"; Path := "/products"; Query := None; Body := None;
         Headers := [("Accept", "text/html"); ("X-Trace", "1"); ("Accept", "text/plain")] |}
      = Ok req
    /\ http.ReqHeader req !! "Accept" = Some ["text/plain"].
Proof.
  eexists. split; [reflexivity |].
  destruct (build_request_headers (H := examples.stub_lib) Background "shop.test"
              {| Method := "GET"; Path := "/products"; Query := None; Body := None;
                 Headers := [("Accept", "text/html"); ("X-Trace", "1");
                             ("Accept", "text/plain")] |} _ eq_refl) as [Hlast _].
  apply (Hlast [("Accept", "text/html"); ("X-Trace", "1")] "Accept" "text/plain" []);
    [reflexivity | intros kv []].
Defined.

Lemma build_request_leading_slash_witness :
  build_request (H := examples.stub_lib) Background "shop.test"
    {| Method := "GET"; Path := "/" +:+ "products/42"; Query := None; Body := None;
       Headers := [] |}
  = build_request (H := examples.stub_lib) Background "shop.test"
      {| Method := "GET"; Path := "products/42"; Query := None; Body := None;
         Headers := [] |}.
Proof.
  apply (build_request_leading_slash (H := examples.stub_lib)). reflexivity.
Defined.

(** ** Query flattening: what reaches the query *)

Section QueryInvariants.
Context `{GoLib}.
Implicit Types (field : StructField value) (values : http.Values).

(** What holds of the values under every key of a flattened query, for
    the fields [all] of the struct. *)
Lemma encode_fields_wellformed (all : list (StructField value)) fields :
  (forall field, In field fields -> In field all) ->
  forall values m,
    (forall k vs, values !! k = Some vs ->
       vs <> [] /\ Forall (fun x => x <> "") vs
       /\ exists field, In field all /\ Exported field = true
            /\ urlTag field <> "" /\ urlTag field <> "-"
            /\ hd "" (Split_comma (urlTag field)) = k) ->
    encode_fields fields values = Ok m ->
    forall k vs, m !! k = Some vs ->
      vs <> [] /\ Forall (fun x => x <> "") vs
      /\ exists field, In field all /\ Exported field = true
           /\ urlTag field <> "" /\ urlTag field <> "-"
           /\ hd "" (Split_comma (urlTag field)) = k.
Proof.
  induction fields as [| field fields IH]; intros Hall values m Hinv Hrun.
  - injection Hrun as <-. exact Hinv.
  - assert (Hall' : forall f, In f fields -> In f all)
      by (intros f Hf; apply Hall; right; exact Hf).
    cbn [encode_fields] in Hrun.
    destruct (Exported field) eqn:Hexp; cbn [negb] in Hrun; [| eauto].
    destruct (String.eqb_spec (urlTag field) "") as [Htag | Htag]; cbn [orb] in Hrun; [eauto |].
    destruct (String.eqb_spec (urlTag field) "-") as [Hdash | Hdash]; [eauto |].
    destruct (existsb (String.eqb "omitempty") (tl (Split_comma (urlTag field)))
              && isEmptyValue (fieldValue field)); [eauto |].
    destruct (fieldToString (fieldValue field)) as [value | e]; [| discriminate].
    destruct (String.eqb_spec value "") as [Hval | Hval]; [eauto |].
    eapply IH; [exact Hall' | | exact Hrun].
    intros k vs Hk. unfold http.Values_Add in Hk.
    destruct (decide (hd "" (Split_comma (urlTag field)) = k)) as [<- | Hne].
    + rewrite lookup_insert_eq in Hk. injection Hk as <-.
      split; [destruct (default [] (values !! _)); discriminate |].
      split.
      * apply Forall_app. split; [| repeat constructor; exact Hval].
        destruct (values !! hd "" (Split_comma (urlTag field))) as [vs0 |] eqn:Hold;
          [exact (proj1 (proj2 (Hinv _ _ Hold))) | constructor].
      * exists field. split; [apply Hall; left; reflexivity |]. auto.
    + rewrite lookup_insert_ne in Hk by exact Hne. eauto.
Qed.

(** Every parameter of a flattened query has at least one value, none of
    its values is empty, and its name is the first part of the url tag of
    an exported field of the struct whose tag is neither empty nor "-". *)
Theorem StructToURLValues_parameters_wellformed ty (fields : list (StructField value)) m :
  StructToURLValues (Some (VStruct ty fields)) = Ok m ->
  forall k vs, m !! k = Some vs ->
    vs <> [] /\ Forall (fun x => x <> "") vs
    /\ exists field, In field fields /\ Exported field = true
         /\ urlTag field <> "" /\ urlTag field <> "-"
         /\ hd "" (Split_comma (urlTag field)) = k.
Proof.
  cbn [StructToURLValues]. intros Hrun.
  apply (encode_fields_wellformed fields fields (fun _ Hin => Hin) ∅ m); [| exact Hrun].
  intros k vs Hk. rewrite lookup_empty in Hk. discriminate.
Qed.

(** The first field that has to be converted and cannot be fails the
    whole flattening with an error that names it: no parameter of the
    fields before or after it is returned. *)
Theorem StructToURLValues_unsupported_field ty pre field post values e :
  encode_fields pre ∅ = Ok values ->
  Exported field = true ->
  urlTag field <> "" ->
  urlTag field <> "-" ->
  existsb (String.eqb "omitempty") (tl (Split_comma (urlTag field)))
    && isEmptyValue (fieldValue field) = false ->
  fieldToString (fieldValue field) = Err e ->
  StructToURLValues (Some (VStruct ty (pre ++ field :: post)))
    = Err (Errorf "failed to convert field %s: %w" [ArgString (Name field)] (Some e)).
Proof.
  intros Hpre Hexp Htag Hdash Homit Hconv. cbn [StructToURLValues].
  rewrite encode_fields_app, Hpre. cbn [encode_fields]. rewrite Hexp. cbn [negb].
  destruct (String.eqb_spec (urlTag field) ""); [contradiction |].
  destruct (String.eqb_spec (urlTag field) "-"); [contradiction |].
  cbn [orb]. rewrite Homit, Hconv. reflexivity.
Qed.

(** For strings, pointers, interfaces and slices the omit-empty option
    changes nothing: an empty string, a nil pointer or interface and an
    empty slice of strings or of ints add no parameter whatever the tag
    says.  It matters for numbers and booleans: without it a zero adds
    [name=0] and false adds [name=false]. *)
Theorem omitempty_matters_for_numbers_and_booleans_only field rest values :
  Exported field = true ->
  urlTag field <> "" ->
  urlTag field <> "-" ->
  let name := hd "" (Split_comma (urlTag field)) in
  let omitEmpty := existsb (String.eqb "omitempty") (tl (Split_comma (urlTag field))) in
  (forall ty, In (fieldValue field)
                [VString ""; VPtr None; VInterface None; VSlice ty KString [];
                 VSlice ty (KInt Int) []] ->
     encode_fields (field :: rest) values = encode_fields rest values)
  /\ (omitEmpty = false ->
      (forall k, fieldValue field = VInt k 0 ->
         encode_fields (field :: rest) values
           = encode_fields rest (http.Values_Add name "0" values))
      /\ (fieldValue field = VBool false ->
          encode_fields (field :: rest) values
            = encode_fields rest (http.Values_Add name "false" values)))
  /\ (omitEmpty = true ->
      (forall k, fieldValue field = VInt k 0 \/ fieldValue field = VBool false ->
         encode_fields (field :: rest) values = encode_fields rest values)).
Proof.
  intros Hexp Htag Hdash name omitEmpty.
  assert (Hname : name = hd "" (Split_comma (urlTag field))) by reflexivity.
  assert (Homit : omitEmpty
                  = existsb (String.eqb "omitempty") (tl (Split_comma (urlTag field))))
    by reflexivity.
  clearbody name omitEmpty.
  assert (Hstep : encode_fields (field :: rest) values =
    if omitEmpty && isEmptyValue (fieldValue field) then encode_fields rest values
    else match fieldToString (fieldValue field) with
         | Err err =>
             Err (Errorf "failed to convert field %s: %w" [ArgString (Name field)] (Some err))
         | Ok value =>
             if String.eqb value "" then encode_fields rest values
             else encode_fields rest (http.Values_Add name value values)
         end).
  { cbn [encode_fields]. rewrite Hexp. cbn [negb].
    destruct (String.eqb_spec (urlTag field) ""); [contradiction |].
    destruct (String.eqb_spec (urlTag field) "-"); [contradiction |].
    rewrite Hname, Homit. reflexivity. }
  rewrite Hstep. clear Hstep. split; [| split].
  - intros ty Hin. cbn [In] in Hin.
    destruct Hin as [<- | [<- | [<- | [<- | [<- | []]]]]];
      destruct omitEmpty; reflexivity.
  - intros Hno. rewrite Hno. cbn [andb]. split.
    + intros k ->. reflexivity.
    + intros ->. reflexivity.
  - intros Hyes k [-> | ->]; rewrite Hyes; reflexivity.
Qed.

End QueryInvariants.

(** A slice of int64 among the list parameters: the call fails and the
    category filter before it is lost with it. *)
Lemma StructToURLValues_unsupported_field_witness :
  StructToURLValues (H := examples.stub_lib)
    (Some (VStruct "params"
             ([mkField "Category" true false "category,omitempty"
                 (VSlice "[]int" (KInt Int) [VInt Int 15])]
              ++ mkField "Ids" true false "ids" (VSlice "[]int64" (KInt Int64) [VInt Int64 7])
              :: [mkField "SKU" true false "sku" (VString "A-1")])))
  = Err (Errorf "failed to convert field %s: %w" [ArgString "Ids"]
           (Some (Errorf "unsupported slice type: %s"
                    [ArgTypeOf (Some (VSlice "[]int64" (KInt Int64) [VInt Int64 7]))] None))).
Proof.
  apply (StructToURLValues_unsupported_field (H := examples.stub_lib) "params"
           [mkField "Category" true false "category,omitempty"
              (VSlice "[]int" (KInt Int) [VInt Int 15])]
           (mkField "Ids" true false "ids" (VSlice "[]int64" (KInt Int64) [VInt Int64 7]))
           [mkField "SKU" true false "sku" (VString "A-1")]
           (http.Values_Add "category" "15" ∅)).
  - reflexivity.
  - reflexivity.
  - discriminate.
  - discriminate.
  - reflexivity.
  - reflexivity.
Defined.

Lemma StructToURLValues_parameters_wellformed_witness :
  ["15,23"] <> [] /\ Forall (fun x : string => x <> "") ["15,23"].
Proof.
  destruct (StructToURLValues_parameters_wellformed (H := examples.stub_lib)
              "types.ProductListParams"
              [mkField "Category" true false "category,omitempty"
                 (VSlice "[]int" (KInt Int) [VInt Int 15; VInt Int 23])]
              {["category" := ["15,23"]]}) with (k := "category") (vs := ["15,23"])
    as (Hne & Hall & _).
  - cbn. unfold http.Values_Add. rewrite lookup_empty. cbn.
    rewrite insert_empty. reflexivity.
  - apply lookup_singleton_eq.
  - split; assumption.
Defined.

Lemma omitempty_matters_for_numbers_and_booleans_only_witness :
  encode_fields (H := examples.stub_lib)
    [mkField "Page" true false "page" (VInt Int 0)] ∅
  = Ok (http.Values_Add "page" "0" ∅).
Proof.
  destruct (omitempty_matters_for_numbers_and_booleans_only (H := examples.stub_lib)
              (mkField "Page" true false "page" (VInt Int 0)) [] ∅ eq_refl)
    as (_ & Hzero & _); [discriminate | discriminate |].
  destruct (Hzero eq_refl) as [Hint _]. exact (Hint Int eq_refl).
Defined.

(** ** The authenticators *)

Section AuthFacts.
Context `{GoLib}.
Implicit Types (req : http.Request) (j : auth.JWTAuth) (b : auth.BasicAuth) (now : Time).

(** Basic authentication attaches its header exactly when the credentials
    are valid.  Then the header is the base64 of user, colon, password, and
    nothing else of the request changes; otherwise the request is left as
    it was. *)
Theorem BasicAuth_Authenticate_iff_IsValid b req :
  (auth.BasicAuth_IsValid b = true <-> fst (auth.BasicAuth_Authenticate b req) = None)
  /\ (auth.BasicAuth_IsValid b = true ->
      let req' := snd (auth.BasicAuth_Authenticate b req) in
      http.ReqHeader req' !! CanonicalHeaderKey "Authorization"
        = Some ["Basic " +:+ base64_EncodeToString
                               (auth.username b +:+ ":" +:+ auth.password b)]
      /\ (forall key, key <> CanonicalHeaderKey "Authorization" ->
            http.ReqHeader req' !! key = http.ReqHeader req !! key)
      /\ http.Method req' = http.Method req /\ http.Url req' = http.Url req
      /\ http.ReqBody req' = http.ReqBody req)
  /\ (auth.BasicAuth_IsValid b = false -> snd (auth.BasicAuth_Authenticate b req) = req).
Proof.
  unfold auth.BasicAuth_IsValid, auth.BasicAuth_Authenticate.
  destruct (String.eqb (auth.username b) ""), (String.eqb (auth.password b) "");
    cbn [negb andb orb fst snd];
    (split; [split; (discriminate || reflexivity) | split; [| discriminate || reflexivity]]);
    try discriminate.
  intros _. cbv zeta. cbn [auth.set_Authorization http.ReqHeader http.Method http.Url
                             http.ReqBody].
  unfold Header_Set. split; [apply lookup_insert_eq |].
  split; [| repeat split].
  intros key Hkey. apply lookup_insert_ne. congruence.
Qed.

(** Whatever [Authenticate] of a bearer token does, a request gets the
    header only of a token that is valid at that instant, and a request
    whose authentication fails is left as it was. *)
Theorem JWTAuth_Authenticate_sends_valid_token now j req err j' req' :
  auth.JWTAuth_Authenticate now j req = (err, j', req') ->
  (err = None ->
     auth.JWTAuth_IsValid now j' = true
     /\ auth.token j' <> ""
     /\ http.ReqHeader req' !! CanonicalHeaderKey "Authorization"
        = Some ["Bearer " +:+ auth.token j'])
  /\ (err <> None -> req' = req).
Proof.
  unfold auth.JWTAuth_Authenticate.
  destruct (String.eqb (auth.token j) "").
  { intros Heq. injection Heq as <- <- <-. split; [discriminate | reflexivity]. }
  destruct (if negb (auth.JWTAuth_IsValid now j) && bool_decide (is_Some (auth.refreshFunc j))
            then auth.JWTAuth_Refresh j else (None, j)) as [[e |] j1].
  { intros Heq. injection Heq as <- <- <-. split; [discriminate | reflexivity]. }
  destruct (auth.JWTAuth_IsValid now j1) eqn:Hvalid; cbn [negb].
  2:{ intros Heq. injection Heq as <- <- <-. split; [discriminate | reflexivity]. }
  intros Heq. injection Heq as <- <- <-. split; [| congruence].
  intros _. split; [exact Hvalid |]. split.
  - unfold auth.JWTAuth_IsValid in Hvalid.
    destruct (String.eqb_spec (auth.token j1) ""); [discriminate | assumption].
  - cbn [auth.set_Authorization http.ReqHeader]. unfold Header_Set. apply lookup_insert_eq.
Qed.

(** A token that is valid is used as it is: the authenticator does not
    change and the refresh function is not consulted. *)
Theorem JWTAuth_Authenticate_valid_token now j req :
  auth.JWTAuth_IsValid now j = true ->
  auth.JWTAuth_Authenticate now j req
    = (None, j, auth.set_Authorization ("Bearer " +:+ auth.token j) req).
Proof.
  intros Hvalid. unfold auth.JWTAuth_Authenticate.
  assert (Htoken : String.eqb (auth.token j) "" = false).
  { unfold auth.JWTAuth_IsValid in Hvalid.
    destruct (String.eqb (auth.token j) ""); [discriminate | reflexivity]. }
  rewrite Htoken, Hvalid. cbn [negb andb]. rewrite Hvalid. reflexivity.
Qed.

(** [Refresh] changes the authenticator only when the refresh function
    returns a token, and then only the token and its expiry: the refresh
    token and the function stay. *)
Theorem JWTAuth_Refresh_changes_token_and_expiry_only j err j' :
  auth.JWTAuth_Refresh j = (err, j') ->
  auth.refreshToken j' = auth.refreshToken j
  /\ auth.refreshFunc j' = auth.refreshFunc j
  /\ (err <> None -> j' = j)
  /\ (err = None ->
      exists f, auth.refreshFunc j = Some f /\ auth.refreshToken j <> ""
                /\ f (auth.refreshToken j) = Ok (auth.token j', auth.expiresAt j')).
Proof.
  unfold auth.JWTAuth_Refresh.
  destruct (auth.refreshFunc j) as [f |] eqn:Hf.
  2:{ intros Heq. injection Heq as <- <-. rewrite Hf.
      split; [reflexivity | split; [reflexivity | split; [reflexivity | discriminate]]]. }
  destruct (String.eqb_spec (auth.refreshToken j) "") as [Hrt | Hrt].
  { intros Heq. injection Heq as <- <-. rewrite Hf.
    split; [reflexivity | split; [reflexivity | split; [reflexivity | discriminate]]]. }
  destruct (f (auth.refreshToken j)) as [[newToken expiresAt'] | e] eqn:Hcall.
  - intros Heq. injection Heq as <- <-. cbn.
    split; [reflexivity | split; [reflexivity | split; [congruence |]]].
    intros _. exists f. split; [reflexivity | split; [exact Hrt | exact Hcall]].
  - intros Heq. injection Heq as <- <-. rewrite Hf.
    split; [reflexivity | split; [reflexivity | split; [reflexivity | discriminate]]].
Qed.

(** Validity does not come back with time: a token that is valid at an
    instant was valid at every earlier one. *)
Theorem JWTAuth_IsValid_antitone now now' j :
  instant now <= instant now' ->
  auth.JWTAuth_IsValid now' j = true ->
  auth.JWTAuth_IsValid now j = true.
Proof.
  unfold auth.JWTAuth_IsValid, Time_Before, Time_Add. cbn [instant].
  intros Hle. destruct (String.eqb (auth.token j) ""); [discriminate |].
  destruct (Time_IsZero (auth.expiresAt j)); [reflexivity |].
  intros Hlt. apply Z.ltb_lt in Hlt. apply Z.ltb_lt. lia.
Qed.


(** An authenticator made by [NewAuthenticator] is valid at every instant
    and its [Authenticate] never fails and never changes it. *)
Theorem NewAuthenticator_always_authenticates config a :
  auth.NewAuthenticator config = Ok a ->
  forall now req,
    auth.IsValid now a = true
    /\ exists req', auth.Authenticate now a req = (None, a, req').
Proof.
  unfold auth.NewAuthenticator.
  destruct (String.eqb (auth.ConfigType config) auth.AuthTypeBasic).
  - destruct (String.eqb (auth.Username config) "") eqn:Hu; cbn [orb]; [discriminate |].
    destruct (String.eqb (auth.Password config) "") eqn:Hp; [discriminate |].
    intros Heq now req. injection Heq as <-.
    unfold auth.IsValid, auth.Authenticate, auth.BasicAuth_IsValid,
      auth.BasicAuth_Authenticate, auth.NewBasicAuth.
    cbn [auth.username auth.password]. rewrite Hu, Hp. cbn. eauto.
  - destruct (String.eqb (auth.ConfigType config) auth.AuthTypeJWT); [| discriminate].
    destruct (String.eqb (auth.Token config) "") eqn:Ht; [discriminate |].
    intros Heq now req. injection Heq as <-.
    assert (Hvalid : auth.JWTAuth_IsValid now (auth.NewJWTAuth (auth.Token config) zero_Time)
                     = true).
    { unfold auth.JWTAuth_IsValid, auth.NewJWTAuth. cbn [auth.token auth.expiresAt].
      rewrite Ht. reflexivity. }
    split; [exact Hvalid |].
    unfold auth.Authenticate. rewrite (JWTAuth_Authenticate_valid_token _ _ _ Hvalid). eauto.
Qed.

End AuthFacts.

Lemma BasicAuth_Authenticate_iff_IsValid_witness :
  snd (auth.BasicAuth_Authenticate (H := examples.stub_lib) (auth.NewBasicAuth "user" "")
         sample_request) = sample_request.
Proof.
  destruct (BasicAuth_Authenticate_iff_IsValid (H := examples.stub_lib)
              (auth.NewBasicAuth "user" "") sample_request) as (_ & _ & Hinvalid).
  apply Hinvalid. reflexivity.
Defined.

Lemma JWTAuth_Authenticate_sends_valid_token_witness :
  auth.JWTAuth_IsValid sample_now
    (auth.JWTAuth_SetToken "fresh-token" (Time_Add sample_now (60 * Minute)) expired_jwt)
  = true.
Proof.
  destruct (JWTAuth_Authenticate_sends_valid_token (H := examples.stub_lib) sample_now
              expired_jwt sample_request None
              (auth.JWTAuth_SetToken "fresh-token" (Time_Add sample_now (60 * Minute))
                 expired_jwt)
              (auth.set_Authorization (H := examples.stub_lib) "Bearer fresh-token"
                 sample_request))
    as [Hok _].
  - vm_compute. reflexivity.
  - destruct (Hok eq_refl) as [Hvalid _]. exact Hvalid.
Defined.

Lemma JWTAuth_Authenticate_valid_token_witness :
  auth.JWTAuth_Authenticate (H := examples.stub_lib) sample_now
    (auth.NewJWTAuth "token" zero_Time) sample_request
  = (None, auth.NewJWTAuth "token" zero_Time,
     auth.set_Authorization (H := examples.stub_lib) ("Bearer " +:+ "token") sample_request).
Proof.
  apply (JWTAuth_Authenticate_valid_token (H := examples.stub_lib)). reflexivity.
Defined.

Lemma JWTAuth_Refresh_changes_token_and_expiry_only_witness :
  auth.refreshToken
    (auth.JWTAuth_SetToken "fresh-token" (Time_Add sample_now (60 * Minute)) expired_jwt)
  = "refresh-token".
Proof.
  destruct (JWTAuth_Refresh_changes_token_and_expiry_only expired_jwt None
              (auth.JWTAuth_SetToken "fresh-token" (Time_Add sample_now (60 * Minute))
                 expired_jwt) eq_refl) as [Hrt _].
  exact Hrt.
Defined.

Lemma JWTAuth_IsValid_antitone_witness :
  auth.JWTAuth_IsValid sample_now
    (auth.NewJWTAuth "token" (Time_Add sample_now (30 * Minute))) = true.
Proof.
  apply (JWTAuth_IsValid_antitone sample_now (Time_Add sample_now (10 * Minute))).
  - vm_compute. discriminate.
  - vm_compute. reflexivity.
Defined.


Lemma NewAuthenticator_always_authenticates_witness :
  auth.IsValid sample_now (auth.JWT (auth.NewJWTAuth "token" zero_Time)) = true
  /\ exists req',
       auth.Authenticate (H := examples.stub_lib) sample_now
         (auth.JWT (auth.NewJWTAuth "token" zero_Time)) sample_request
       = (None, auth.JWT (auth.NewJWTAuth "token" zero_Time), req').
Proof.
  apply (NewAuthenticator_always_authenticates (H := examples.stub_lib)
           {| auth.ConfigType := auth.AuthTypeJWT; auth.Username := ""; auth.Password := "";
              auth.Token := "token"; auth.RefreshToken := "" |}).
  reflexivity.
Defined.

(** ** Building a client *)

Section BuilderFacts.
Context `{GoLib} {Net : Type}.
Implicit Types (b : @client.ClientBuilder Net) (default_transport : Z -> @client.Transport Net).

(** What it takes to build a client: with basic authentication, a base
    URL, a user name and a password that are not empty; with a bearer
    token, a base URL and a token that are not empty; and a builder on
    which no authentication was set never builds.  The client built has
    the base URL and the retry count of the builder (whatever its sign),
    delays from one second up to thirty, and a multiplier of two. *)
Theorem Build_needs_base_URL_and_credentials default_transport b :
  (forall username password,
     (exists r, client.Build default_transport
                  (client.Builder_BasicAuth username password b) = Ok r)
     <-> client.BaseURL (client.config b) <> "" /\ username <> "" /\ password <> "")
  /\ (forall token,
        (exists r, client.Build default_transport (client.Builder_JWTAuth token b) = Ok r)
        <-> client.BaseURL (client.config b) <> "" /\ token <> "")
  /\ (client.Auth (client.config b) = client.Auth (@client.DefaultConfig Net) ->
      exists e, client.Build default_transport b = Err e)
  /\ (forall c a, client.Build default_transport b = Ok (c, a) ->
        client.baseURL c = client.BaseURL (client.config b)
        /\ client.retryConfig c
           = {| MaxRetries := client.RetryCount (client.config b);
                BaseDelay := 1 * Second; MaxDelay := 30 * Second; Multiplier := two |}).
Proof.
  unfold client.Build, client.NewClient.
  split; [| split; [| split]].
  - intros username password.
    cbn [client.Builder_BasicAuth client.Builder_Auth client.config client.BaseURL
           client.Auth].
    destruct (String.eqb_spec (client.BaseURL (client.config b)) "") as [Hurl | Hurl].
    { split; [intros [r Hr]; discriminate | intros (Hne & _); contradiction]. }
    unfold auth.NewAuthenticator.
    cbn [auth.ConfigType auth.Username auth.Password auth.Token].
    change (String.eqb auth.AuthTypeBasic auth.AuthTypeBasic) with true. cbv iota.
    destruct (String.eqb_spec username "") as [Hu | Hu]; cbn [orb].
    { split; [intros [r Hr]; discriminate | intros (_ & Hne & _); contradiction]. }
    destruct (String.eqb_spec password "") as [Hp | Hp].
    { split; [intros [r Hr]; discriminate | intros (_ & _ & Hne); contradiction]. }
    split; [intros _; auto | intros _; eauto].
  - intros token.
    cbn [client.Builder_JWTAuth client.Builder_Auth client.config client.BaseURL
           client.Auth].
    destruct (String.eqb_spec (client.BaseURL (client.config b)) "") as [Hurl | Hurl].
    { split; [intros [r Hr]; discriminate | intros (Hne & _); contradiction]. }
    unfold auth.NewAuthenticator.
    cbn [auth.ConfigType auth.Username auth.Password auth.Token].
    change (String.eqb auth.AuthTypeJWT auth.AuthTypeBasic) with false.
    change (String.eqb auth.AuthTypeJWT auth.AuthTypeJWT) with true. cbv iota.
    destruct (String.eqb_spec token "") as [Ht | Ht].
    { split; [intros [r Hr]; discriminate | intros (_ & Hne); contradiction]. }
    split; [intros _; auto | intros _; eauto].
  - intros Hauth. rewrite Hauth.
    destruct (String.eqb (client.BaseURL (client.config b)) ""); eauto.
  - intros c a.
    destruct (String.eqb (client.BaseURL (client.config b)) ""); [discriminate |].
    destruct (auth.NewAuthenticator (client.Auth (client.config b))); [| discriminate].
    intros Heq. injection Heq as <- <-. split; reflexivity.
Qed.

End BuilderFacts.

Lemma Build_needs_base_URL_and_credentials_witness :
  exists c a,
    client.Build (fun _ => examples.answering_transport 200 "{}")
      (client.Builder_RetryCount (-1)
         (client.Builder_BasicAuth "user" "pass"
            (client.Builder_BaseURL "https://shop.test" client.NewClientBuilder)))
    = Ok (c, a)
    /\ client.baseURL c = "https://shop.test"
    /\ MaxRetries (client.retryConfig c) = -1.
Proof.
  eexists _, _. split; [reflexivity |].
  destruct (Build_needs_base_URL_and_credentials
              (fun _ => examples.answering_transport 200 "{}")
              (client.Builder_RetryCount (-1)
                 (client.Builder_BasicAuth "user" "pass"
                    (client.Builder_BaseURL "https://shop.test" client.NewClientBuilder))))
    as (_ & _ & _ & Hbuilt).
  destruct (Hbuilt _ _ eq_refl) as [Hurl Hretry].
  split; [exact Hurl | rewrite Hretry; reflexivity].
Defined.

(** ** The client: one exchange, none, or the same failure again *)

Section ClientRuns.
Context `{GoLib} {Net : Type}.
Implicit Types (c : @client.Client Net) (w : @World (@client.ClientState Net)).

(** A first exchange that is answered with a status below 400 is the only
    one: the response is returned without error, nothing is waited for,
    and the clock and the network are where the transport left them. *)
Theorem Client_MakeRequest_first_success c ctx pick_ctx opts fuel w req a' req' resp wn body :
  0 <= MaxRetries (client.retryConfig c) ->
  build_request ctx (client.baseURL c) opts = Ok req ->
  auth.Authenticate (client.Now (clock w)) (client.auth_ (state w)) req = (None, a', req') ->
  client.httpClient c req' {| clock := clock w; state := client.net (state w) |}
    = (Ok resp, wn) ->
  http.Body resp = Ok body ->
  http.StatusCode resp < 400 ->
  let response := {| StatusCode := http.StatusCode resp;
                     RespHeaders := http.RespHeader resp; RespBody := body |} in
  client.Client_MakeRequest c ctx pick_ctx opts (Datatypes.S fuel) w
    = Some (Some response, None,
            {| clock := clock wn;
               state := {| client.auth_ := a'; client.net := state wn;
                           client.lastResponse := Some response;
                           client.lastError := None |} |},
            [EvAttempt 0 None]).
Proof.
  intros Hmax Hreq Hauth Hdo Hbody Hstatus response.
  unfold client.Client_MakeRequest, WithRetry. rewrite retry_loop_unfold.
  destruct (Z.leb_spec 0 (MaxRetries (client.retryConfig c))); [| lia].
  unfold backoff_wait. cbn [Z.ltb Z.compare].
  unfold client.attempt_request, MakeRequest. cbn [clock state client.auth_ client.net].
  rewrite Hreq. unfold client.authenticatedClient_Do. cbn [clock state].
  rewrite Hauth, Hdo, Hbody. cbv zeta.
  destruct (Z.leb_spec 400 (http.StatusCode resp)); [lia |].
  reflexivity.
Qed.

(** With a negative retry count the client does nothing and reports
    nothing: neither a response nor an error. *)
Theorem Client_MakeRequest_negative_retry_count c ctx pick_ctx opts fuel w :
  MaxRetries (client.retryConfig c) < 0 ->
  exists w',
    client.Client_MakeRequest c ctx pick_ctx opts (Datatypes.S fuel) w
      = Some (None, None, w', [])
    /\ clock w' = clock w
    /\ client.net (state w') = client.net (state w)
    /\ client.auth_ (state w') = client.auth_ (state w).
Proof.
  intros Hneg. unfold client.Client_MakeRequest, WithRetry. rewrite retry_loop_unfold.
  destruct (Z.leb_spec 0 (MaxRetries (client.retryConfig c))); [lia |].
  eexists. split; [reflexivity |]. split; [reflexivity |]. split; reflexivity.
Qed.

(** The attempts of the client on a request that cannot be built. *)
Lemma Client_MakeRequest_local_failure c ctx pick_ctx opts fuel w E :
  build_request ctx (client.baseURL c) opts = Err E ->
  done_at ctx = None ->
  0 <= MaxRetries (client.retryConfig c) < max_int64 ->
  (Z.to_nat (MaxRetries (client.retryConfig c)) + 1 < fuel)%nat ->
  exists w' tr,
    client.Client_MakeRequest c ctx pick_ctx opts fuel w = Some (None, Some E, w', tr)
    /\ attempt_count tr = Z.to_nat (MaxRetries (client.retryConfig c) + 1)
    /\ client.net (state w') = client.net (state w)
    /\ client.auth_ (state w') = client.auth_ (state w).
Proof.
  intros Hbuild Hdone Hrange Hfuel.
  destruct (build_request_error _ _ _ _ Hbuild) as (format & cause & ->).
  set (E := Errorf format [] (Some cause)) in *.
  set (P := fun w0 : @World (@client.ClientState Net) =>
              client.auth_ (state w0) = client.auth_ (state w)
              /\ client.net (state w0) = client.net (state w)
              /\ client.lastResponse (state w0) = None).
  unfold client.Client_MakeRequest.
  set (w0 := {| clock := clock w;
                state := {| client.auth_ := client.auth_ (state w);
                            client.net := client.net (state w);
                            client.lastResponse := None;
                            client.lastError := None |} |}).
  destruct (retry_loop_all_fail (client.retryConfig c) (client.attempt_request c ctx opts)
              pick_ctx ctx P (fun err => err = E) Hdone)
    with (k := Z.to_nat (MaxRetries (client.retryConfig c) + 1)) (attempt := 0)
         (lastErr := @None error) (w := w0) (tr := @nil Event) (fuel := fuel)
    as (r & w' & ext & Hrun & Hcount & HP' & Hlast).
  - intros w1 t (Ha & Hn & Hr). split; [exact Ha | split; [exact Hn | exact Hr]].
  - intros w1 (Ha & Hn & Hr).
    exists E. eexists. unfold client.attempt_request, MakeRequest. rewrite Hbuild.
    split; [reflexivity |]. split; [reflexivity |]. split; [reflexivity |].
    split; [exact Ha | split; [exact Hn | reflexivity]].
  - lia.
  - lia.
  - lia.
  - lia.
  - split; [reflexivity | split; reflexivity].
  - unfold WithRetry. cbn [app] in Hrun. rewrite Hrun.
    destruct (Z.to_nat (MaxRetries (client.retryConfig c) + 1)) as [| k] eqn:Hk; [lia |].
    destruct Hlast as (err & ext0 & -> & -> & ->).
    destruct HP' as (Ha' & Hn' & Hr').
    eexists _, _. rewrite Hr'. split; [reflexivity |]. split; [exact Hcount |].
    split; [exact Hn' | exact Ha'].
Qed.

(** A query that cannot be flattened, such as the nil pointer that the
    list methods of the services pass on, fails every attempt before any
    exchange, and the attempt is repeated all the same: with a context that
    is never done the client makes MaxRetries + 1 attempts, sends nothing,
    and returns the error of the flattening. *)
Theorem Client_MakeRequest_retries_local_failure c ctx pick_ctx opts fuel w u q e :
  url_Parse (client.baseURL c) = Ok u ->
  Query opts = Some q ->
  StructToURLValues (Some q) = Err e ->
  done_at ctx = None ->
  0 <= MaxRetries (client.retryConfig c) < max_int64 ->
  (Z.to_nat (MaxRetries (client.retryConfig c)) + 1 < fuel)%nat ->
  exists w' tr,
    client.Client_MakeRequest c ctx pick_ctx opts fuel w
      = Some (None, Some (Errorf "failed to encode query parameters: %w" [] (Some e)), w', tr)
    /\ attempt_count tr = Z.to_nat (MaxRetries (client.retryConfig c) + 1)
    /\ client.net (state w') = client.net (state w)
    /\ client.auth_ (state w') = client.auth_ (state w).
Proof.
  intros Hu Hq He Hdone Hrange Hfuel.
  apply Client_MakeRequest_local_failure; [| exact Hdone | exact Hrange | exact Hfuel].
  unfold build_request. rewrite Hu, Hq, He. reflexivity.
Qed.

End ClientRuns.

Lemma Client_MakeRequest_first_success_witness :
  client.Client_MakeRequest (H := examples.stub_lib)
    (shop_client (examples.answering_transport 200 "{}") 3) Background (fun _ => false)
    examples.get_product 1 (fresh_state (auth.Basic (auth.NewBasicAuth "user" "pass")))
  = Some (Some {| StatusCode := 200; RespHeaders := ∅; RespBody := "{}" |}, None,
          {| clock := 0;
             state := {| client.auth_ := auth.Basic (auth.NewBasicAuth "user" "pass");
                         client.net := 1%nat;
                         client.lastResponse :=
                           Some {| StatusCode := 200; RespHeaders := ∅; RespBody := "{}" |};
                         client.lastError := None |} |},
          [EvAttempt 0 None]).
Proof.
  refine (Client_MakeRequest_first_success (H := examples.stub_lib)
            (shop_client (examples.answering_transport 200 "{}") 3) Background
            (fun _ => false) examples.get_product 0
            (fresh_state (auth.Basic (auth.NewBasicAuth "user" "pass")))
            _ _ _
            {| http.StatusCode := 200; http.RespHeader := ∅; http.Body := Ok "{}" |}
            {| clock := 0; state := 1%nat |} "{}" _ eq_refl eq_refl eq_refl eq_refl _).
  - vm_compute. discriminate.
  - vm_compute. reflexivity.
Defined.

Lemma Client_MakeRequest_negative_retry_count_witness :
  exists w',
    client.Client_MakeRequest (H := examples.stub_lib)
      (shop_client (examples.answering_transport 200 "{}") (-1)) Background (fun _ => false)
      examples.get_product 1 (fresh_state (auth.Basic (auth.NewBasicAuth "user" "pass")))
    = Some (None, None, w', [])
    /\ clock w' = 0
    /\ client.net (state w') = 0%nat
    /\ client.auth_ (state w') = auth.Basic (auth.NewBasicAuth "user" "pass").
Proof.
  apply (Client_MakeRequest_negative_retry_count (H := examples.stub_lib)
           (shop_client (examples.answering_transport 200 "{}") (-1)) Background
           (fun _ => false) examples.get_product 0
           (fresh_state (auth.Basic (auth.NewBasicAuth "user" "pass")))).
  vm_compute. reflexivity.
Defined.

Lemma Client_MakeRequest_retries_local_failure_witness :
  exists w' tr,
    client.Client_MakeRequest (H := examples.stub_lib)
      (shop_client (examples.answering_transport 200 "{}") 3) Background (fun _ => false)
      {| Method := "GET"; Path := "/wp-json/dokan/v1/products/";
         Query := Some (VPtr None); Body := None; Headers := [] |}
      5 (fresh_state (auth.Basic (auth.NewBasicAuth "user" "pass")))
    = Some (None,
            Some (Errorf "failed to encode query parameters: %w" []
                    (Some (Errorf "expected struct, got %T"
                             [ArgTypeOf (Some (VPtr None))] None))), w', tr)
    /\ attempt_count tr = 4%nat
    /\ client.net (state w') = 0%nat
    /\ client.auth_ (state w') = auth.Basic (auth.NewBasicAuth "user" "pass").
Proof.
  refine (Client_MakeRequest_retries_local_failure (H := examples.stub_lib)
            (shop_client (examples.answering_transport 200 "{}") 3) Background
            (fun _ => false)
            {| Method := "GET"; Path := "/wp-json/dokan/v1/products/";
               Query := Some (VPtr None); Body := None; Headers := [] |}
            5 (fresh_state (auth.Basic (auth.NewBasicAuth "user" "pass")))
            _ (VPtr None) _ eq_refl eq_refl eq_refl eq_refl _ _).
  - vm_compute. split; [discriminate | reflexivity].
  - cbn. lia.
Defined.

(** ** The products service *)

Section ServiceFacts.
Context `{GoLib} {W Product ProductSummary : Type}.
Variable reflect_Product : Product -> value.
Variable zero_Product : Product.
Variable zero_ProductSummary : ProductSummary.
Variable unmarshal_Product : string -> Product -> option error * Product.
Variable unmarshal_Products : string -> list Product -> option error * list Product.
Variable unmarshal_ProductSummary :
  string -> ProductSummary -> option error * ProductSummary.
Variable Sscanf_d : string -> option Z.
Implicit Types (s : @products.Service W) (w : W).

Lemma decode_response_error {T : Type} failure (unmarshal : string -> T -> option error * T)
    zero resp err e :
  products.decode_response failure unmarshal zero resp err = products.Returns (Err e) ->
  exists format cause, e = Errorf format [] (Some cause).
Proof.
  unfold products.decode_response.
  destruct err as [err |]; [intros Heq; injection Heq as <-; eauto |].
  destruct resp as [resp |]; [| discriminate].
  destruct (ParseJSON unmarshal (RespBody resp) zero) as [[perr |] v]; [| discriminate].
  intros Heq. injection Heq as <-. eauto.
Qed.

Lemma decoded_error {T : Type} (r : products.returned (Response * T)) e :
  products.decoded r = products.Returns (Err e) -> r = products.Returns (Err e).
Proof.
  destruct r as [[[resp v] | e0] |]; cbn; intros Heq; inversion Heq; reflexivity.
Qed.

(** An error of a method of the service is never a [DokanError]: it is
    made by [fmt.Errorf] and wraps its cause, be it the error of the
    client or that of the decoding.  A type assertion to [DokanError] on
    it fails; the API error is one [Unwrap] away. *)
Theorem service_errors_wrap_their_cause s ctx w :
  let wrapped e := IsDokanError e = false
                   /\ exists format cause, e = Errorf format [] (Some cause) in
  (forall product e w',
     products.Create reflect_Product zero_Product unmarshal_Product s ctx product w
       = Some (products.Returns (Err e), w') -> wrapped e)
  /\ (forall id e w',
        products.Get zero_Product unmarshal_Product s ctx id w
          = Some (products.Returns (Err e), w') -> wrapped e)
  /\ (forall params e w',
        products.List unmarshal_Products Sscanf_d s ctx params w
          = Some (products.Returns (Err e), w') -> wrapped e)
  /\ (forall id product e w',
        products.Update reflect_Product zero_Product unmarshal_Product s ctx id product w
          = Some (products.Returns (Err e), w') -> wrapped e)
  /\ (forall id e w',
        products.Delete s ctx id w = Some (Some e, w') -> wrapped e)
  /\ (forall e w',
        products.GetSummary zero_ProductSummary unmarshal_ProductSummary s ctx w
          = Some (products.Returns (Err e), w') -> wrapped e).
Proof.
  intros wrapped.
  assert (Hwrap : forall e, (exists format cause, e = Errorf format [] (Some cause)) ->
                            wrapped e).
  { intros e (format & cause & ->). split; [reflexivity | eauto]. }
  split; [| split; [| split; [| split; [| split]]]].
  - intros product e w'. unfold products.Create.
    destruct (products.client s ctx _ w) as [[[resp err] w1] |]; [| discriminate].
    intros Heq. injection Heq as Heq _. apply decoded_error in Heq.
    eapply Hwrap, decode_response_error, Heq.
  - intros id e w'. unfold products.Get.
    destruct (products.client s ctx _ w) as [[[resp err] w1] |]; [| discriminate].
    intros Heq. injection Heq as Heq _. apply decoded_error in Heq.
    eapply Hwrap, decode_response_error, Heq.
  - intros params e w'. unfold products.List.
    destruct (products.client s ctx _ w) as [[[resp err] w1] |]; [| discriminate].
    destruct (products.decode_response _ _ _ resp err) as [[[r ps] | e0] |] eqn:Hdec.
    + destruct params; intros Heq; discriminate.
    + intros Heq. injection Heq as <- _.
      eapply Hwrap, decode_response_error, Hdec.
    + discriminate.
  - intros id product e w'. unfold products.Update.
    destruct (products.client s ctx _ w) as [[[resp err] w1] |]; [| discriminate].
    intros Heq. injection Heq as Heq _. apply decoded_error in Heq.
    eapply Hwrap, decode_response_error, Heq.
  - intros id e w'. unfold products.Delete.
    destruct (products.client s ctx _ w) as [[[resp err] w1] |]; [| discriminate].
    destruct err as [err |]; intros Heq; [| discriminate].
    injection Heq as <- _. apply Hwrap. eauto.
  - intros e w'. unfold products.GetSummary.
    destruct (products.client s ctx _ w) as [[[resp err] w1] |]; [| discriminate].
    intros Heq. injection Heq as Heq _. apply decoded_error in Heq.
    eapply Hwrap, decode_response_error, Heq.
Qed.

(** A response without body is decoded to the zero value: [ParseJSON]
    does not call the decoder, and [Get] returns the zero product without
    error, whatever the decoder would say of an empty document. *)
Theorem Get_empty_body_gives_zero_product s ctx id w resp w' :
  products.client s ctx
    {| Method := http.MethodGet; Path := "/wp-json/dokan/v1/products/" +:+ FormatInt id;
       Query := None; Body := None; Headers := [] |} w
    = Some (Some resp, None, w') ->
  RespBody resp = "" ->
  products.Get zero_Product unmarshal_Product s ctx id w
    = Some (products.Returns (Ok zero_Product), w').
Proof.
  intros Hcall Hbody. unfold products.Get. rewrite Hcall.
  unfold products.decode_response, ParseJSON. rewrite Hbody. reflexivity.
Qed.

(** The pagination of a list: the totals are read from the headers
    X-WP-Total and X-WP-TotalPages and are zero for a header that is
    absent; the page and the page size are those of the parameters, not
    anything the server said. *)
Theorem List_pagination s ctx params w resp w' ps :
  products.client s ctx
    {| Method := http.MethodGet; Path := "/wp-json/dokan/v1/products/";
       Query := Some (VPtr (types.reflect_ProductListParams <$> Some params));
       Body := None; Headers := [] |} w
    = Some (Some resp, None, w') ->
  ParseJSON unmarshal_Products (RespBody resp) [] = (None, ps) ->
  exists r,
    products.List unmarshal_Products Sscanf_d s ctx (Some params) w
      = Some (products.Returns (Ok r), w')
    /\ products.Products r = ps
    /\ products.Page (products.Pagination r) = types.Page (types.Product_ListParams params)
    /\ products.PerPage (products.Pagination r)
       = types.PerPage (types.Product_ListParams params)
    /\ (RespHeaders resp !! CanonicalHeaderKey "X-WP-Total" = None ->
        products.TotalItems (products.Pagination r) = 0)
    /\ (RespHeaders resp !! CanonicalHeaderKey "X-WP-TotalPages" = None ->
        products.TotalPages (products.Pagination r) = 0)
    /\ (forall v rest n,
          RespHeaders resp !! CanonicalHeaderKey "X-WP-Total" = Some (v :: rest) ->
          v <> "" -> Sscanf_d v = Some n ->
          products.TotalItems (products.Pagination r) = n).
Proof.
  intros Hcall Hparse. unfold products.List. rewrite Hcall.
  unfold products.decode_response. rewrite Hparse.
  eexists. split; [reflexivity |]. cbn.
  split; [reflexivity |]. split; [reflexivity |]. split; [reflexivity |].
  unfold products.extractIntHeader, Header_Get.
  split; [| split].
  - intros ->. reflexivity.
  - intros ->. reflexivity.
  - intros v rest n -> Hv Hn.
    destruct (String.eqb_spec v ""); [contradiction |]. rewrite Hn. reflexivity.
Qed.

End ServiceFacts.

Section ServiceOnClient.
Context `{GoLib} {Net Product ProductSummary : Type}.
Variable zero_Product : Product.
Variable unmarshal_Product : string -> Product -> option error * Product.
Variable unmarshal_Products : string -> list Product -> option error * list Product.
Variable Sscanf_d : string -> option Z.
Implicit Types (c : @client.Client Net) (w : @World (@client.ClientState Net)).

(** [List] without parameters never reaches the server: the nil pointer
    it hands over as the query cannot be flattened, every attempt of the
    client fails on it, and [List] returns that error, wrapped twice. *)
Theorem List_without_params_fails c ctx pick_ctx fuel w u :
  url_Parse (client.baseURL c) = Ok u ->
  done_at ctx = None ->
  0 <= MaxRetries (client.retryConfig c) < max_int64 ->
  (Z.to_nat (MaxRetries (client.retryConfig c)) + 1 < fuel)%nat ->
  exists w',
    products.List unmarshal_Products Sscanf_d
      (products.NewService (products.of_client c pick_ctx fuel)) ctx None w
    = Some (products.Returns
              (Err (Errorf "failed to list products: %w" []
                      (Some (Errorf "failed to encode query parameters: %w" []
                               (Some (Errorf "expected struct, got %T"
                                        [ArgTypeOf (Some (VPtr None))] None)))))), w')
    /\ client.net (state w') = client.net (state w).
Proof.
  intros Hu Hdone Hrange Hfuel.
  destruct (Client_MakeRequest_local_failure c ctx pick_ctx
              {| Method := http.MethodGet; Path := "/wp-json/dokan/v1/products/";
                 Query := Some (VPtr None); Body := None; Headers := [] |}
              fuel w
              (Errorf "failed to encode query parameters: %w" []
                 (Some (Errorf "expected struct, got %T" [ArgTypeOf (Some (VPtr None))] None))))
    as (w' & tr & Hrun & _ & Hnet & _);
    [unfold build_request; rewrite Hu; reflexivity | exact Hdone | exact Hrange | exact Hfuel |].
  exists w'. split; [| exact Hnet].
  unfold products.List, products.NewService, products.of_client. cbn [products.client].
  cbn [fmap option_fmap option_map]. rewrite Hrun. reflexivity.
Qed.

(** With a negative retry count, which [NewClient] accepts, the client
    returns neither response nor error without sending anything: [Delete]
    then reports success, and [Get], which reads the body of the response,
    panics. *)
Theorem negative_retry_count_in_the_service c ctx pick_ctx fuel w id :
  MaxRetries (client.retryConfig c) < 0 ->
  exists w',
    products.Delete (products.NewService (products.of_client c pick_ctx (Datatypes.S fuel)))
      ctx id w = Some (None, w')
    /\ products.Get zero_Product unmarshal_Product
         (products.NewService (products.of_client c pick_ctx (Datatypes.S fuel))) ctx id w
       = Some (products.Panics, w')
    /\ client.net (state w') = client.net (state w).
Proof.
  intros Hneg.
  assert (Hcall : forall opts, exists w',
            client.Client_MakeRequest c ctx pick_ctx opts (Datatypes.S fuel) w
              = Some (None, None, w', [])
            /\ w' = {| clock := clock w;
                       state := {| client.auth_ := client.auth_ (state w);
                                   client.net := client.net (state w);
                                   client.lastResponse := None;
                                   client.lastError := None |} |}).
  { intros opts. unfold client.Client_MakeRequest, WithRetry. rewrite retry_loop_unfold.
    destruct (Z.leb_spec 0 (MaxRetries (client.retryConfig c))); [lia |].
    eexists. split; reflexivity. }
  eexists. split; [| split].
  - unfold products.Delete, products.NewService, products.of_client. cbn [products.client].
    destruct (Hcall {| Method := http.MethodDelete;
                       Path := "/wp-json/dokan/v1/products/" +:+ FormatInt id;
                       Query := None; Body := None; Headers := [] |}) as (w1 & -> & ->).
    reflexivity.
  - unfold products.Get, products.NewService, products.of_client. cbn [products.client].
    destruct (Hcall {| Method := http.MethodGet;
                       Path := "/wp-json/dokan/v1/products/" +:+ FormatInt id;
                       Query := None; Body := None; Headers := [] |}) as (w1 & -> & ->).
    reflexivity.
  - reflexivity.
Qed.

End ServiceOnClient.

(** A 404 with a structured payload, seen through the service: the API
    error is under the error of [Get], which is not a [DokanError]. *)
Lemma service_errors_wrap_their_cause_witness :
  exists w',
    products.Get "" text_decoder (shop_service (examples.answering_transport 404 "invalid_id")
                                    3 5) Background 42
      (fresh_state (auth.Basic (auth.NewBasicAuth "user" "pass")))
    = Some (products.Returns
              (Err (Errorf "failed to get product: %w" []
                      (Some (DokanErr {| errors.Code := "invalid_id";
                                         errors.Message := "from the stub";
                                         errors.Data := None;
                                         errors.StatusCode := 404 |})))), w')
    /\ IsDokanError
         (Errorf "failed to get product: %w" []
            (Some (DokanErr {| errors.Code := "invalid_id";
                               errors.Message := "from the stub";
                               errors.Data := None; errors.StatusCode := 404 |}))) = false.
Proof.
  eexists. split; [vm_compute; reflexivity |].
  destruct (service_errors_wrap_their_cause (H := examples.stub_lib)
              (fun p : string => VString p) "" "" text_decoder list_decoder text_decoder
              small_scanner
              (shop_service (examples.answering_transport 404 "invalid_id") 3 5) Background
              (fresh_state (auth.Basic (auth.NewBasicAuth "user" "pass"))))
    as (_ & Hget & _).
  refine (proj1 (Hget 42 _
                   {| clock := 0;
                      state := {| client.auth_ := auth.Basic (auth.NewBasicAuth "user" "pass");
                                  client.net := 1%nat;
                                  client.lastResponse :=
                                    Some {| StatusCode := 404; RespHeaders := ∅;
                                            RespBody := "invalid_id" |};
                                  client.lastError :=
                                    Some (DokanErr {| errors.Code := "invalid_id";
                                                      errors.Message := "from the stub";
                                                      errors.Data := None;
                                                      errors.StatusCode := 404 |}) |} |}
                   _)).
  vm_compute. reflexivity.
Defined.

Lemma Get_empty_body_gives_zero_product_witness :
  exists w',
    products.Get "" text_decoder (shop_service (examples.answering_transport 200 "") 3 5)
      Background 42 (fresh_state (auth.Basic (auth.NewBasicAuth "user" "pass")))
    = Some (products.Returns (Ok ""), w').
Proof.
  eexists.
  apply (Get_empty_body_gives_zero_product "" text_decoder
           (shop_service (examples.answering_transport 200 "") 3 5) Background 42
           (fresh_state (auth.Basic (auth.NewBasicAuth "user" "pass")))
           {| StatusCode := 200; RespHeaders := ∅; RespBody := "" |}).
  - vm_compute. reflexivity.
  - reflexivity.
Defined.

Lemma List_without_params_fails_witness :
  exists w',
    products.List (H := examples.stub_lib) list_decoder small_scanner
      (products.NewService
         (products.of_client (H := examples.stub_lib)
            (shop_client (examples.answering_transport 200 "[]") 3) (fun _ => false) 5))
      Background None (fresh_state (auth.Basic (auth.NewBasicAuth "user" "pass")))
    = Some (products.Returns
              (Err (Errorf "failed to list products: %w" []
                      (Some (Errorf "failed to encode query parameters: %w" []
                               (Some (Errorf "expected struct, got %T"
                                        [ArgTypeOf (Some (VPtr None))] None)))))), w')
    /\ client.net (state w') = 0%nat.
Proof.
  refine (List_without_params_fails (H := examples.stub_lib) list_decoder small_scanner
            (shop_client (examples.answering_transport 200 "[]") 3) Background
            (fun _ => false) 5 (fresh_state (auth.Basic (auth.NewBasicAuth "user" "pass")))
            _ eq_refl eq_refl _ _).
  - vm_compute. split; [discriminate | reflexivity].
  - cbn. lia.
Defined.

Lemma negative_retry_count_in_the_service_witness :
  exists w',
    products.Delete
      (products.NewService
         (products.of_client (H := examples.stub_lib)
            (shop_client (examples.answering_transport 200 "{}") (-1)) (fun _ => false) 1))
      Background 42 (fresh_state (auth.Basic (auth.NewBasicAuth "user" "pass")))
    = Some (None, w')
    /\ products.Get "" text_decoder
         (products.NewService
            (products.of_client (H := examples.stub_lib)
               (shop_client (examples.answering_transport 200 "{}") (-1))
               (fun _ => false) 1))
         Background 42 (fresh_state (auth.Basic (auth.NewBasicAuth "user" "pass")))
       = Some (products.Panics, w')
    /\ client.net (state w') = 0%nat.
Proof.
  apply (negative_retry_count_in_the_service (H := examples.stub_lib) "" text_decoder
           (shop_client (examples.answering_transport 200 "{}") (-1)) Background
           (fun _ => false) 0 (fresh_state (auth.Basic (auth.NewBasicAuth "user" "pass"))) 42).
  vm_compute. reflexivity.
Defined.

Lemma List_pagination_witness :
  exists r,
    products.List (H := examples.stub_lib) list_decoder small_scanner
      (products.NewService
         (canned {| StatusCode := 200; RespHeaders := {["X-WP-Total" := ["42"]]};
                    RespBody := "[]" |}))
      Background
      (Some (types.mkProductListParams (types.mkListParams 2 10 "" "" "")
               [] [] None [] [] None None "" "")) tt
    = Some (products.Returns (Ok r), tt)
    /\ products.Page (products.Pagination r) = 2
    /\ products.TotalItems (products.Pagination r) = 42
    /\ products.TotalPages (products.Pagination r) = 0.
Proof.
  destruct (List_pagination (H := examples.stub_lib) list_decoder small_scanner
              (products.NewService
                 (canned {| StatusCode := 200; RespHeaders := {["X-WP-Total" := ["42"]]};
                            RespBody := "[]" |}))
              Background
              (types.mkProductListParams (types.mkListParams 2 10 "" "" "")
                 [] [] None [] [] None None "" "") tt
              {| StatusCode := 200; RespHeaders := {["X-WP-Total" := ["42"]]};
                 RespBody := "[]" |} tt ["[]"] eq_refl eq_refl)
    as (r & Hrun & _ & Hpage & _ & _ & Hpages & Hitems).
  exists r. split; [exact Hrun |]. split; [exact Hpage |]. split.
  - apply (Hitems "42" []); [apply lookup_singleton_eq | discriminate | reflexivity].
  - apply Hpages. apply lookup_singleton_ne. discriminate.
Defined.

(** ** Paths with placeholders *)

Lemma append_empty_r (s : string) : s +:+ "" = s.
Proof.
  induction s as [| c s IH]; [reflexivity |].
  change (String c s +:+ "") with (String c (s +:+ "")). rewrite IH. reflexivity.
Qed.

Lemma replace_from_without_brace rest new s :
  ~ In "{"%char (list_ascii_of_string s) ->
  replace_from (String "{" rest) new s 0 = s.
Proof.
  induction s as [| c s IH]; intros Hno; [reflexivity |].
  cbn [replace_from HasPrefix].
  destruct (Ascii.eqb_spec "{"%char c) as [<- | Hne].
  - exfalso. apply Hno. left. reflexivity.
  - cbn [andb]. rewrite IH; [reflexivity |].
    intros Hin. apply Hno. right. exact Hin.
Qed.

(** [BuildPath] leaves a path without opening brace as it is, whatever
    the parameters.  The parameters are substituted one after the other, so
    that the text put in for one placeholder is searched for the
    placeholders that follow: a first parameter that prints as "{1}" is
    replaced by the second. *)
Theorem BuildPath_substitutes_in_turn (Sprint_v : value -> string) (path : string)
    (params : list value) :
  ~ In "{"%char (list_ascii_of_string path) ->
  BuildPath Sprint_v path params = path
  /\ (forall a b, Sprint_v a = "{1}" -> BuildPath Sprint_v "{0}" [a; b] = Sprint_v b).
Proof.
  intros Hno. split.
  - unfold BuildPath. generalize 0%nat as i.
    induction params as [| param params IH]; intros i; [reflexivity |].
    cbn [BuildPath_from]. unfold ReplaceAll.
    change ("{" +:+ FormatInt (Z.of_nat i) +:+ "}")
      with (String "{" (FormatInt (Z.of_nat i) +:+ "}")).
    rewrite replace_from_without_brace by exact Hno. apply IH.
  - intros a b Ha. unfold BuildPath. cbn [BuildPath_from]. unfold ReplaceAll.
    change ("{" +:+ FormatInt (Z.of_nat 0) +:+ "}") with "{0}".
    change ("{" +:+ FormatInt (Z.of_nat 1) +:+ "}") with "{1}".
    change (replace_from "{0}" (Sprint_v a) "{0}" 0) with (Sprint_v a +:+ "").
    rewrite append_empty_r, Ha.
    change (replace_from "{1}" (Sprint_v b) "{1}" 0) with (Sprint_v b +:+ "").
    apply append_empty_r.
Qed.

Lemma BuildPath_substitutes_in_turn_witness :
  BuildPath small_Sprint "/wp-json/dokan/v1/products/summary" [VInt Int 42] =
  "/wp-json/dokan/v1/products/summary"
  /\ BuildPath small_Sprint "{0}" [VString "{1}"; VInt Int 7] = "7".
Proof.
  destruct (BuildPath_substitutes_in_turn small_Sprint "/wp-json/dokan/v1/products/summary"
              [VInt Int 42]) as [Hsame Hturn].
  - cbn. intros Hin. repeat (destruct Hin as [Hin | Hin]; [discriminate Hin |]). exact Hin.
  - split; [exact Hsame | exact (Hturn (VString "{1}") (VInt Int 7) eq_refl)].
Defined.

(** Two placeholders and two parameters. *)
Example BuildPath_two_parameters :
  BuildPath small_Sprint "/stores/{0}/reviews/{1}" [VInt Int 42; VInt Int 7]
  = "/stores/42/reviews/7".
Proof. vm_compute. reflexivity. Qed.
